(** * route53ddns: a shallow embedding of [main.go] and its verification

    The program discovers the public IP address of the host and keeps an
    address record of a Route 53 hosted zone in step with it.  This file
    embeds the functions of [main.go] ([init], [getIP],
    [upsertRoute53Record], [getIPAndUpdate]) together with the library
    functions they rely on ([regexp.FindStringSubmatch],
    [strings.TrimSuffix], [strings.Split], [net.ParseIP], [net.IP.String])
    and proves the properties of the design document against them.

    Go strings are byte strings: they are modelled by [string], a byte by
    [ascii].  Unsigned machine integers are modelled in [Z].  What lies
    outside the program is a parameter of its functions: the environment
    and the answer of [session.NewSession] for [init], the answer of the
    IP-echo service for [getIP], the answers of the DNS provider for
    [upsertRoute53Record]. *)

From Stdlib Require Import String Ascii List ZArith Lia Bool Arith.
Import ListNotations.

Local Open Scope list_scope.
Local Open Scope string_scope.

(** The line feed, written ["\n"] in Go. *)
Definition LF : ascii := ascii_of_nat 10.
Definition nl : string := String LF EmptyString.

(* ================================================================= *)
(** ** Package [strings] *)

Module strings.

(** [strings.HasSuffix(s, suffix)]. *)
Definition HasSuffix (s suffix : string) : bool :=
  (String.length suffix <=? String.length s)%nat &&
  String.eqb (substring (String.length s - String.length suffix) (String.length suffix) s) suffix.

(** [strings.TrimSuffix(s, suffix)]: [s] without the trailing [suffix],
    or [s] itself when it does not end with [suffix]. *)
Definition TrimSuffix (s suffix : string) : string :=
  if HasSuffix s suffix
  then substring 0 (String.length s - String.length suffix) s
  else s.

(** [strings.Split(s, sep)] for a non-empty separator: the substrings
    between the occurrences of [sep], found left to right without
    overlap.  [skip] counts the bytes of an occurrence of [sep] that are
    still to be passed over, [cur] holds the bytes of the current piece
    in reverse order. *)
Fixpoint genSplit (sep : string) (skip : nat) (cur : list ascii)
         (s : string) : list string :=
  match s with
  | EmptyString => [string_of_list_ascii (rev cur)]
  | String c s' =>
      match skip with
      | S k => genSplit sep k cur s'
      | O =>
          if prefix sep s
          then string_of_list_ascii (rev cur)
                 :: genSplit sep (String.length sep - 1) [] s'
          else genSplit sep 0 (c :: cur) s'
      end
  end.

Definition Split (s sep : string) : list string := genSplit sep 0 [] s.

End strings.

(* ================================================================= *)
(** ** Package [regexp]

    The fragment of Go's regular expressions used by [domainRegex], with
    the leftmost-first (Perl-like) matching discipline of package
    [regexp]: a backtracking matcher that tries the alternatives in
    priority order yields the same submatches as Go's engine.  The
    engine reads UTF-8 characters; the period and the line feed, the
    only characters the pattern tells apart, are single bytes that occur
    in no longer encoding, so that matching byte by byte finds the same
    offsets. *)

Module regexp.

(** Syntax, after the operators of [regexp/syntax]. *)
Inductive Regexp : Type :=
| OpLiteral (c : ascii)          (* a single literal byte, e.g. [\x2E] *)
| OpCharClassNot (c : ascii)     (* the negated class [[^c]] *)
| OpAnyCharNotNL                 (* [.] without the [s] flag *)
| OpBeginText                    (* [^] without the [m] flag *)
| OpEndText                      (* [$] without the [m] flag *)
| OpStar (r : Regexp)            (* greedy [r*] *)
| OpConcat (r1 r2 : Regexp)
| OpCapture (n : nat) (r : Regexp).

(** Submatch positions: group number to (start, end) byte offsets. *)
Definition caps := nat -> option (nat * nat).
Definition no_caps : caps := fun _ => None.
Definition set_cap (n : nat) (v : nat * nat) (c : caps) : caps :=
  fun m => if Nat.eqb m n then Some v else c m.

(** [step r pos rest c k] matches [r] against [rest], the text from
    offset [pos] on, and hands the offset, remaining text and
    submatches to the continuation [k]; a failing continuation makes
    the matcher fall back to its next alternative.  A negated class
    matches the line feed (flag [ClassNL] of the Perl syntax), the dot
    does not. *)
Fixpoint step (r : Regexp) (pos : nat) (rest : string) (c : caps)
         (k : nat -> string -> caps -> option caps) {struct r}
  : option caps :=
  match r with
  | OpLiteral a =>
      match rest with
      | String b rest' =>
          if Ascii.eqb a b then k (S pos) rest' c else None
      | EmptyString => None
      end
  | OpCharClassNot a =>
      match rest with
      | String b rest' =>
          if Ascii.eqb a b then None else k (S pos) rest' c
      | EmptyString => None
      end
  | OpAnyCharNotNL =>
      match rest with
      | String b rest' =>
          if Ascii.eqb b LF then None else k (S pos) rest' c
      | EmptyString => None
      end
  | OpBeginText => if Nat.eqb pos 0 then k pos rest c else None
  | OpEndText =>
      match rest with
      | EmptyString => k pos rest c
      | String _ _ => None
      end
  | OpConcat r1 r2 =>
      step r1 pos rest c (fun p s c' => step r2 p s c' k)
  | OpCapture n r0 =>
      step r0 pos rest c (fun p s c' => k p s (set_cap n (pos, p) c'))
  | OpStar r0 =>
      (fix star (fuel : nat) (pos : nat) (rest : string) (c : caps)
         {struct fuel} : option caps :=
         match fuel with
         | O => k pos rest c
         | S fuel' =>
             match step r0 pos rest c
                     (fun p s c' =>
                        if (p <=? pos)%nat then None
                        else star fuel' p s c')
             with
             | Some c' => Some c'
             | None => k pos rest c
             end
         end) (S (String.length rest)) pos rest c
  end.

(** One attempt at offset [start]; group 0 is the whole match. *)
Definition matchAt (re : Regexp) (start : nat) (rest : string)
  : option caps :=
  step re start rest no_caps
       (fun p _ c => Some (set_cap 0 (start, p) c)).

(** The leftmost match: offsets are tried from left to right. *)
Fixpoint find (re : Regexp) (start : nat) (rest : string)
  : option caps :=
  match matchAt re start rest with
  | Some c => Some c
  | None =>
      match rest with
      | EmptyString => None
      | String _ rest' => find re (S start) rest'
      end
  end.

Fixpoint NumSubexp (re : Regexp) : nat :=
  match re with
  | OpStar r => NumSubexp r
  | OpConcat r1 r2 => Nat.max (NumSubexp r1) (NumSubexp r2)
  | OpCapture n r => Nat.max n (NumSubexp r)
  | _ => 0
  end.

(** [re.FindStringSubmatch(s)]: the text of the leftmost match and of
    its groups, or the nil slice (the empty list) when nothing
    matches. *)
Definition FindStringSubmatch (re : Regexp) (s : string) : list string :=
  match find re 0 s with
  | None => []
  | Some c =>
      map (fun i => match c i with
                    | Some (b, e) => substring b (e - b) s
                    | None => EmptyString
                    end)
          (seq 0 (S (NumSubexp re)))
  end.

End regexp.

(* ================================================================= *)
(** ** Packages [net/netip] and [net]

    [net.ParseIP] and [net.IP.String] belong to Go's standard library
    (the module asks for go 1.21, where both go through [net/netip]).
    The model follows [netip.ParseAddr], [netip.Addr.String] and their
    helpers statement by statement; a parse error is [None], since
    [ParseIP] only looks at whether there was one. *)

Module netip.

Local Open Scope Z_scope.

(** The numeric value of a byte. *)
Definition code (c : ascii) : Z := Z.of_N (N_of_ascii c).

(** [c >= lo && c <= hi] on bytes. *)
Definition between (lo hi c : ascii) : bool :=
  (code lo <=? code c) && (code c <=? code hi).

(** Arrays of bytes ([[4]byte], [[16]byte]) as lists of [Z]. *)
Definition at_ (l : list Z) (i : Z) : Z := nth (Z.to_nat i) l 0.

Fixpoint upd_nat (l : list Z) (i : nat) (v : Z) : list Z :=
  match l, i with
  | [], _ => []
  | _ :: t, O => v :: t
  | h :: t, S j => h :: upd_nat t j v
  end.

Definition upd (l : list Z) (i : Z) (v : Z) : list Z :=
  upd_nat l (Z.to_nat i) v.

(** [byte(x)]: conversion to [uint8] keeps the low eight bits. *)
Definition byte (x : Z) : Z := x mod 256.

(** An address: an IPv4 address of four bytes, or an IPv6 address of
    sixteen bytes with its zone. *)
Inductive Addr : Type :=
| AddrFrom4 (fields : list Z)
| AddrFrom16 (ip : list Z) (zone : string).

Definition Zone (a : Addr) : string :=
  match a with
  | AddrFrom4 _ => EmptyString
  | AddrFrom16 _ z => z
  end.

(** [Addr.As16]: an IPv4 address becomes its IPv4-mapped IPv6 form. *)
Definition As16 (a : Addr) : list Z :=
  match a with
  | AddrFrom4 f => ([0;0;0;0;0;0;0;0;0;0;255;255] ++ f)%list
  | AddrFrom16 ip _ => ip
  end.

(** *** Parsing *)

(** The loop of [parseIPv4] over [s[i:]] = [rest], with the fields
    parsed so far, the value [val] and digit count [digLen] of the
    current field and the index [pos] of the current field. *)
Fixpoint parseIPv4_loop (s : string) (i : nat) (rest : string)
         (fields : list Z) (val : Z) (pos : Z) (digLen : Z)
  : option (list Z) :=
  match rest with
  | EmptyString =>
      if pos <? 3 then None else Some (upd fields 3 (byte val))
  | String c rest' =>
      if between "0" "9" c then
        if (digLen =? 1) && (val =? 0) then None
        else
          let val := val * 10 + code c - code "0" in
          if val >? 255 then None
          else parseIPv4_loop s (S i) rest' fields val pos (digLen + 1)
      else if Ascii.eqb c "." then
        if Nat.eqb i 0
           || Nat.eqb i (String.length s - 1)
           || match get (i - 1) s with
              | Some p => Ascii.eqb p "."
              | None => false
              end
        then None
        else if pos =? 3 then None
        else parseIPv4_loop s (S i) rest' (upd fields pos (byte val))
                            0 (pos + 1) 0
      else None
  end.

Definition parseIPv4 (s : string) : option (list Z) :=
  parseIPv4_loop s 0 s [0;0;0;0] 0 0 0.

(** The value of a hexadecimal digit, if [c] is one. *)
Definition hexval (c : ascii) : option Z :=
  if between "0" "9" c then Some (code c - code "0")
  else if between "a" "f" c then Some (code c - code "a" + 10)
  else if between "A" "F" c then Some (code c - code "A" + 10)
  else None.

(** The inner loop of [parseIPv6]: reads the hexadecimal digits at the
    front of [s], at most four of them.  The result is the number of
    digits, their value and the text left; [None] is a parse error. *)
Fixpoint scanHex (s : string) (off : Z) (acc : Z)
  : option (Z * Z * string) :=
  match s with
  | EmptyString => Some (off, acc, s)
  | String c s' =>
      match hexval c with
      | None => Some (off, acc, s)
      | Some v =>
          let acc := (Z.shiftl acc 4 + v) mod 2 ^ 32 in
          if off >? 3 then None
          else if acc >? 65535 then None
          else scanHex s' (off + 1) acc
      end
  end.

(** State of the main loop of [parseIPv6] when it is left. *)
Record v6state : Type := mkV6 {
  v6_i : Z;
  v6_s : string;
  v6_ellipsis : Z;
  v6_ip : list Z
}.

(** [len(s) > 0 && s[0] == c]. *)
Definition startsWith (c : ascii) (s : string) : bool :=
  match s with
  | String b _ => Ascii.eqb b c
  | EmptyString => false
  end.

(** The main loop [for i < 16] of [parseIPv6].  Every turn advances
    [i] by two at least, so eight turns are enough; [fuel] bounds
    them. *)
Fixpoint parseIPv6_loop (fuel : nat) (i : Z) (s : string)
         (ellipsis : Z) (ip : list Z) : option v6state :=
  match fuel with
  | O => Some (mkV6 i s ellipsis ip)
  | S fuel' =>
      if 16 <=? i then Some (mkV6 i s ellipsis ip)
      else
        match scanHex s 0 0 with
        | None => None
        | Some (off, acc, s_off) =>
            if off =? 0 then None
            else if startsWith "." s_off then
              if (ellipsis <? 0) && negb (i =? 12) then None
              else if i + 4 >? 16 then None
              else
                match parseIPv4 s with
                | None => None
                | Some ip4 =>
                    let ip := upd ip i (at_ ip4 0) in
                    let ip := upd ip (i + 1) (at_ ip4 1) in
                    let ip := upd ip (i + 2) (at_ ip4 2) in
                    let ip := upd ip (i + 3) (at_ ip4 3) in
                    Some (mkV6 (i + 4) EmptyString ellipsis ip)
                end
            else
              let ip := upd ip i (byte (Z.shiftr acc 8)) in
              let ip := upd ip (i + 1) (byte acc) in
              let i := i + 2 in
              match s_off with
              | EmptyString => Some (mkV6 i EmptyString ellipsis ip)
              | String c0 s1 =>
                  if negb (Ascii.eqb c0 ":") then None
                  else
                    match s1 with
                    | EmptyString => None
                    | String c1 s2 =>
                        if Ascii.eqb c1 ":" then
                          if ellipsis >=? 0 then None
                          else
                            match s2 with
                            | EmptyString =>
                                Some (mkV6 i EmptyString i ip)
                            | _ => parseIPv6_loop fuel' i s2 i ip
                            end
                        else parseIPv6_loop fuel' i s1 ellipsis ip
                    end
              end
        end
  end.

(** [for j := i - 1; j >= ellipsis; j-- { ip[j+n] = ip[j] }], for
    [cnt] turns. *)
Fixpoint moveUp (cnt : nat) (j n : Z) (ip : list Z) : list Z :=
  match cnt with
  | O => ip
  | S cnt' => moveUp cnt' (j - 1) n (upd ip (j + n) (at_ ip j))
  end.

(** [for j := ellipsis + n - 1; j >= ellipsis; j-- { ip[j] = 0 }], for
    [cnt] turns. *)
Fixpoint clear (cnt : nat) (j : Z) (ip : list Z) : list Z :=
  match cnt with
  | O => ip
  | S cnt' => clear cnt' (j - 1) (upd ip j 0)
  end.

(** [bytealg.IndexByteString(s, c)], with [None] for -1. *)
Fixpoint IndexByteString (s : string) (c : ascii) : option nat :=
  match s with
  | EmptyString => None
  | String b s' =>
      if Ascii.eqb b c then Some O
      else option_map S (IndexByteString s' c)
  end.

Definition zero16 : list Z := [0;0;0;0;0;0;0;0;0;0;0;0;0;0;0;0].

(** [if len(s) >= 2 && s[0] == ':' && s[1] == ':'], at the start of
    [parseIPv6]: the position of the ellipsis (-1 when there is none
    yet) and the text that is left to parse. *)
Definition leadingEllipsis (s : string) : Z * string :=
  match s with
  | String c0 (String c1 s') =>
      if Ascii.eqb c0 ":" && Ascii.eqb c1 ":" then (0, s') else (-1, s)
  | _ => (-1, s)
  end.

Definition parseIPv6 (input : string) : option Addr :=
  let split :=
    match IndexByteString input "%" with
    | Some i =>
        let zone := substring (S i) (String.length input - S i) input in
        if String.eqb zone EmptyString then None
        else Some (substring 0 i input, zone)
    | None => Some (input, EmptyString)
    end in
  match split with
  | None => None
  | Some (s, zone) =>
      let '(ellipsis, s') := leadingEllipsis s in
      if (ellipsis =? 0) && String.eqb s' EmptyString
      then Some (AddrFrom16 zero16 zone)
      else
        match parseIPv6_loop 8 0 s' ellipsis zero16 with
        | None => None
        | Some st =>
            if negb (String.eqb (v6_s st) EmptyString) then None
            else
              let i := v6_i st in
              let ellipsis := v6_ellipsis st in
              if i <? 16 then
                if ellipsis <? 0 then None
                else
                  let n := 16 - i in
                  let ip := moveUp (Z.to_nat (i - ellipsis)) (i - 1) n
                                   (v6_ip st) in
                  let ip := clear (Z.to_nat n) (ellipsis + n - 1) ip in
                  Some (AddrFrom16 ip zone)
              else if ellipsis >=? 0 then None
              else Some (AddrFrom16 (v6_ip st) zone)
        end
  end.

(** [netip.ParseAddr]: the first ['.'], [':'] or ['%'] of [s] decides
    how it is parsed. *)
Fixpoint ParseAddr_from (s rest : string) : option Addr :=
  match rest with
  | EmptyString => None
  | String c rest' =>
      if Ascii.eqb c "." then option_map AddrFrom4 (parseIPv4 s)
      else if Ascii.eqb c ":" then parseIPv6 s
      else if Ascii.eqb c "%" then None
      else ParseAddr_from s rest'
  end.

Definition ParseAddr (s : string) : option Addr := ParseAddr_from s s.

(** *** Formatting *)

Definition digits : string := "0123456789abcdef".

(** [digits[n]]. *)
Definition digit (n : Z) : ascii :=
  match get (Z.to_nat n) digits with
  | Some c => c
  | None => zero
  end.

Definition str1 (c : ascii) : string := String c EmptyString.

(** [appendDecimal(b, x)], as the text appended to [b]. *)
Definition appendDecimal (x : Z) : string :=
  ((if (x >=? 100)%Z then str1 (digit (x / 100)) else EmptyString)
   ++ (if (x >=? 10)%Z then str1 (digit (x / 10 mod 10)) else EmptyString)
   ++ str1 (digit (x mod 10)))%string.

(** [appendHex(b, x)], as the text appended to [b]: the digits of the
    16-bit value [x] from the left, without leading zeros. *)
Definition appendHex (x : Z) : string :=
  ((if (x >=? 4096)%Z then str1 (digit (Z.shiftr x 12)) else EmptyString)
   ++ (if (x >=? 256)%Z
       then str1 (digit (Z.land (Z.shiftr x 8) 15)) else EmptyString)
   ++ (if (x >=? 16)%Z
       then str1 (digit (Z.land (Z.shiftr x 4) 15)) else EmptyString)
   ++ str1 (digit (Z.land x 15)))%string.

(** [Addr.string4]: dotted decimal. *)
Definition string4 (f : list Z) : string :=
  (appendDecimal (at_ f 0) ++ "." ++ appendDecimal (at_ f 1) ++ "."
   ++ appendDecimal (at_ f 2) ++ "." ++ appendDecimal (at_ f 3))%string.

(** [Addr.v6u16(i)]: the [i]-th 16-bit group of a 16-byte address. *)
Definition v6u16 (ip : list Z) (i : Z) : Z :=
  Z.lor (Z.shiftl (at_ ip (2 * i)) 8) (at_ ip (2 * i + 1)).

(** [for j < 8 && ip.v6u16(j) == 0 { j++ }]. *)
Fixpoint zeroRun (fuel : nat) (ip : list Z) (j : Z) : Z :=
  match fuel with
  | O => j
  | S fuel' =>
      if (j <? 8) && (v6u16 ip j =? 0) then zeroRun fuel' ip (j + 1)
      else j
  end.

(** The first loop of [Addr.appendTo6]: the first longest run of two
    or more zero groups, as [(zeroStart, zeroEnd)]; both are [uint8]
    and start at 255. *)
Fixpoint findZeros (fuel : nat) (ip : list Z) (i : Z) (zs ze : Z)
  : Z * Z :=
  match fuel with
  | O => (zs, ze)
  | S fuel' =>
      if 8 <=? i then (zs, ze)
      else
        let j := zeroRun 8 ip i in
        let l := (j - i) mod 256 in
        if (l >=? 2) && (l >? (ze - zs) mod 256)
        then findZeros fuel' ip (i + 1) i j
        else findZeros fuel' ip (i + 1) zs ze
  end.

(** The second loop of [Addr.appendTo6]: the groups in hexadecimal,
    separated by colons, the run [zs..ze) written as ["::"]. *)
Fixpoint writeGroups (fuel : nat) (ip : list Z) (i : Z) (zs ze : Z)
  : string :=
  match fuel with
  | O => EmptyString
  | S fuel' =>
      if 8 <=? i then EmptyString
      else if i =? zs then
        ("::" ++
         (if (8 <=? ze)%Z then EmptyString
          else appendHex (v6u16 ip ze)
                 ++ writeGroups fuel' ip (ze + 1) zs ze))%string
      else
        ((if (0 <? i)%Z then ":" else EmptyString)
         ++ appendHex (v6u16 ip i)
         ++ writeGroups fuel' ip (i + 1) zs ze)%string
  end.

Definition string6 (ip : list Z) : string :=
  let '(zs, ze) := findZeros 8 ip 0 255 255 in
  writeGroups 8 ip 0 zs ze.

End netip.

Module net.

Local Open Scope Z_scope.

(** [type IP []byte]; the nil slice is the empty list. *)
Definition IP : Type := list Z.

(** [net.ParseIP]: a 16-byte address, or nil when [s] is not the text
    of an address; a text with a zone is refused. *)
Definition ParseIP (s : string) : IP :=
  match netip.ParseAddr s with
  | Some a =>
      if negb (String.eqb (netip.Zone a) EmptyString) then []
      else netip.As16 a
  | None => []
  end.

(** [IP.To4]: the four bytes of an IPv4 address, nil otherwise. *)
Definition To4 (ip : IP) : IP :=
  if Nat.eqb (List.length ip) 4 then ip
  else if Nat.eqb (List.length ip) 16
          && forallb (Z.eqb 0) (firstn 10 ip)
          && (netip.at_ ip 10 =? 255) && (netip.at_ ip 11 =? 255)
       then skipn 12 ip
       else [].

(** [hexString]: two hexadecimal digits for each byte. *)
Fixpoint hexString (b : list Z) : string :=
  match b with
  | [] => EmptyString
  | x :: t =>
      String (netip.digit (Z.shiftr x 4))
             (String (netip.digit (Z.land x 15)) (hexString t))
  end.

(** [IP.String]. *)
Definition String_ (ip : IP) : string :=
  if Nat.eqb (List.length ip) 0 then "<nil>"
  else if negb (Nat.eqb (List.length ip) 4)
          && negb (Nat.eqb (List.length ip) 16)
       then ("?" ++ hexString ip)%string
       else
         let p4 := To4 ip in
         if Nat.eqb (List.length p4) 4 then netip.string4 p4
         else netip.string6 ip.

End net.

(* ================================================================= *)
(** ** The Route 53 client ([aws-sdk-go/service/route53])

    The request and response shapes, with the members [main.go] sets or
    reads.  The SDK declares every member as a pointer; a member the API
    marks as required is modelled by its value, an optional one by an
    [option] ([None] is the nil pointer). *)

(** A Go [error], by the text of its [Error()] method. *)
Definition error : Type := string.

Module route53.

(** A hosted zone: its composite identifier (a slash-delimited path,
    e.g. [/hostedzone/Z123]) and its own domain name, with the
    trailing period. *)
Record HostedZone : Type := {
  Id : string;
  Name : string
}.

Record ListHostedZonesByNameInput : Type := {
  lhz_DNSName : option string;
  lhz_HostedZoneId : option string;
  lhz_MaxItems : option string
}.

(** The response to a zone lookup.  [DNSName] is a member of the
    response itself, not of a zone: the service documents it as the
    value of the [dnsname] parameter of the request that produced the
    response.  The zones found come in [HostedZones], each with its own
    [Name]. *)
Record ListHostedZonesByNameOutput : Type := {
  DNSName : option string;
  HostedZones : list HostedZone
}.

Record ResourceRecord : Type := {
  Value : string
}.

Record ResourceRecordSet : Type := {
  rrs_Name : string;
  rrs_Type : string;
  ResourceRecords : list ResourceRecord;
  rrs_TTL : option Z
}.

Record ListResourceRecordSetsInput : Type := {
  StartRecordName : option string;
  StartRecordType : option string;
  lrr_HostedZoneId : string;
  lrr_MaxItems : option string
}.

Record ListResourceRecordSetsOutput : Type := {
  ResourceRecordSets : list ResourceRecordSet
}.

Record Change : Type := {
  Action : string;
  chg_ResourceRecordSet : ResourceRecordSet
}.

Record ChangeBatch : Type := {
  Changes : list Change;
  Comment : option string
}.

Record ChangeResourceRecordSetsInput : Type := {
  crr_ChangeBatch : ChangeBatch;
  crr_HostedZoneId : string
}.

(** The provider as the client sees it: what each of the three
    operations answers to a request, a response or an error. *)
Record Route53 : Type := {
  ListHostedZonesByName :
    ListHostedZonesByNameInput -> ListHostedZonesByNameOutput + error;
  ListResourceRecordSets :
    ListResourceRecordSetsInput -> ListResourceRecordSetsOutput + error;
  ChangeResourceRecordSets :
    ChangeResourceRecordSetsInput -> unit + error
}.

End route53.

(** What [http.Get] hands back: the result of reading the body to its
    end, and the result of closing it. *)
Record Response : Type := {
  Body_ReadAll : string + error;
  Body_Close : option error
}.

(* ================================================================= *)
(** ** Effects

    A run of a function is its trace of outbound calls and log lines,
    in order, with the way it ended: a value, a returned [error], or a
    run-time panic. *)

Inductive event : Type :=
| EvHTTPGet (url : string)
| EvListHostedZonesByName (input : route53.ListHostedZonesByNameInput)
| EvListResourceRecordSets (input : route53.ListResourceRecordSetsInput)
| EvChangeResourceRecordSets (input : route53.ChangeResourceRecordSetsInput)
| EvLog (msg : string).

Inductive result (A : Type) : Type :=
| Ok (a : A)
| Err (e : error)
| Panic (msg : string).
Arguments Ok {A} a.
Arguments Err {A} e.
Arguments Panic {A} msg.

Definition M (A : Type) : Type := list event * result A.

Definition ret {A} (a : A) : M A := ([], Ok a).
Definition fail {A} (e : error) : M A := ([], Err e).
Definition panic {A} (msg : string) : M A := ([], Panic msg).
Definition emit (ev : event) : M unit := ([ev], Ok tt).

Definition bind {A B} (m : M A) (f : A -> M B) : M B :=
  match m with
  | (t, Ok a) => let (t', r) := f a in ((t ++ t')%list, r)
  | (t, Err e) => (t, Err e)
  | (t, Panic msg) => (t, Panic msg)
  end.

Notation "x <- m ;; k" := (bind m (fun x => k))
  (at level 61, m at next level, right associativity).
Notation "m ;;; k" := (bind m (fun _ => k))
  (at level 61, right associativity).

(** A library call that returns [(value, error)]. *)
Definition call {A} (ev : event) (r : A + error) : M A :=
  match r with
  | inl a => ([ev], Ok a)
  | inr e => ([ev], Err e)
  end.

(** [log.Printf]. *)
Definition log_Printf (msg : string) : M unit := emit (EvLog msg).

(** [defer]: [d] runs when [m] is left, whichever way. *)
Definition defer {A} (d : list event) (m : M A) : M A :=
  let (t, r) := m in ((t ++ d)%list, r).

(** [if err != nil { return errors.New(fmt.Sprintf("%s: %v", ctx, err)) }]
    around a call. *)
Definition wrap {A} (ctx : string) (m : M A) : M A :=
  match m with
  | (t, Err e) => (t, Err (ctx ++ ": " ++ e))
  | other => other
  end.

(** The run-time errors of Go that the program can raise. *)
Definition index_out_of_range (i len : string) : string :=
  "runtime error: index out of range [" ++ i ++ "] with length " ++ len.
Definition nil_dereference : string :=
  "runtime error: invalid memory address or nil pointer dereference".

(* ================================================================= *)
(** ** [main.go] *)

Definition RecordType : string := "A".
Definition FQDNEnvVar : string := "CONFIG_R53DDNS_HOSTNAME".
Definition PublicIPURL : string := "CONFIG_R53DDNS_IPURL".
Definition TTL : Z := 300.
Definition UpdateInterval : Z := 300.

(** The compiled pattern: begin of text, group 1 = any run of bytes
    other than [\x2E] (the period), a period, group 2 = any run of
    characters matched by the dot, end of text. *)
Definition domainRegex : regexp.Regexp :=
  regexp.OpConcat regexp.OpBeginText
    (regexp.OpConcat
       (regexp.OpCapture 1 (regexp.OpStar (regexp.OpCharClassNot ".")))
       (regexp.OpConcat (regexp.OpLiteral ".")
          (regexp.OpConcat
             (regexp.OpCapture 2 (regexp.OpStar regexp.OpAnyCharNotNL))
             regexp.OpEndText))).

(** The package-level variables that [init] sets. *)
Record globals : Type := {
  fqdn : string;
  ipURL : string
}.

(** What [init] does, in order. *)
Inductive init_event : Type :=
| Fatalf (msg : string)      (* [log.Fatalf]: log and exit with status 1 *)
| NewScheduler
| NewSession
| NewRoute53Client.

(** How [init] ends: it returns with the variables set, or the process
    has exited with status 1 in [log.Fatalf], or [session.Must] has
    panicked with the error of [session.NewSession]. *)
Inductive init_end : Type :=
| Initialised (g : globals)
| Exit1
| InitPanic (err : error).

(** [init], given the environment and what [session.NewSession()]
    answers: its steps and how it ends.  The scheduler, the session and
    the client are created only after both variables were found.
    [gocron.NewScheduler] and [route53.New] return no error;
    [session.Must] panics with the error of [session.NewSession], and
    the client is then not created. *)
Definition init (Getenv : string -> string)
           (session_NewSession : unit + error)
  : list init_event * init_end :=
  let fqdn := Getenv FQDNEnvVar in
  if String.eqb fqdn EmptyString then
    ([Fatalf (FQDNEnvVar ++ " environmental variable is not set")], Exit1)
  else
    let ipURL := Getenv PublicIPURL in
    if String.eqb ipURL EmptyString then
      ([Fatalf (PublicIPURL ++ " environmental variable is not set")], Exit1)
    else
      match session_NewSession with
      | inr err => ([NewScheduler; NewSession], InitPanic err)
      | inl _ =>
          ([NewScheduler; NewSession; NewRoute53Client],
           Initialised {| fqdn := fqdn; ipURL := ipURL |})
      end.

(** [getIP], given what [http.Get(ipURL)] answers. *)
Definition getIP (ipURL : string) (http_Get : string -> Response + error)
  : M string :=
  resp <- call (EvHTTPGet ipURL) (http_Get ipURL) ;;
  defer (match Body_Close resp with
         | Some err => [EvLog ("unable to close http socket" ++ ": " ++ err)]
         | None => []
         end)
    (body <- (match Body_ReadAll resp with
              | inl b => ret b
              | inr err => fail err
              end) ;;
     let formatted := strings.TrimSuffix body nl in
     let ip := net.ParseIP formatted in
     match ip with
     | [] => fail ("not a valid IP address" ++ ": " ++ net.String_ ip)
     | _ => ret (net.String_ ip)
     end).

(** The loop over the values of a record set, left with [true] at the
    first value equal to [ip]. *)
Fixpoint hasValue (ip : string) (records : list route53.ResourceRecord)
  : bool :=
  match records with
  | [] => false
  | record :: rest =>
      if String.eqb (route53.Value record) ip then true
      else hasValue ip rest
  end.

(** [upsertRoute53Record]: the parent domain of [fqdn] is looked up as a
    hosted zone, the record set of [fqdn] is listed in it, and unless
    the listing shows [fqdn] registered with [ip] an UPSERT of the
    address record is submitted.  A returned [error] is [Err], the
    return of [nil] is [Ok tt]; indexing a slice out of its bounds and
    dereferencing a nil pointer are [Panic]. *)
Definition upsertRoute53Record (ip fqdn : string)
           (dnsClient : route53.Route53) : M unit :=
  let tokens := regexp.FindStringSubmatch domainRegex fqdn in
  match nth_error tokens 2 with
  | None => panic (index_out_of_range "2" "0")
  | Some domain =>
  let zinput :=
    {| route53.lhz_DNSName := Some (domain ++ ".");
       route53.lhz_HostedZoneId := None;
       route53.lhz_MaxItems := Some "1" |} in
  resources <- call (EvListHostedZonesByName zinput)
                    (route53.ListHostedZonesByName dnsClient zinput) ;;
  match route53.HostedZones resources with
  | [zone] =>
    match route53.DNSName resources with
    | None => panic nil_dereference
    | Some dnsName =>
    if negb (String.eqb dnsName (domain ++ ".")) then
      fail (domain ++ " - " ++ dnsName ++ ")" ++ nl)
    else
    let zoneIDTokens := strings.Split (route53.Id zone) "/" in
    match nth_error zoneIDTokens (List.length zoneIDTokens - 1) with
    | None => panic (index_out_of_range "-1" "0")
    | Some zoneID =>
    let rinput :=
      {| route53.StartRecordName := Some fqdn;
         route53.StartRecordType := Some RecordType;
         route53.lrr_HostedZoneId := zoneID;
         route53.lrr_MaxItems := Some "1" |} in
    resp <- (match route53.ListResourceRecordSets dnsClient rinput with
             | inl r => ([EvListResourceRecordSets rinput], Ok r)
             | inr err =>
                 ([EvListResourceRecordSets rinput],
                  Err ("error listing records" ++ " (" ++ domain ++ "): "
                         ++ err ++ nl))
             end) ;;
    let registered :=
      match route53.ResourceRecordSets resp with
      | [rrs] =>
          String.eqb (route53.rrs_Name rrs) (fqdn ++ ".")
          && hasValue ip (route53.ResourceRecords rrs)
      | _ => false
      end in
    if registered then
      log_Printf (ip ++ " already registered in route53 as " ++ fqdn ++ nl)
    else
    let resourceRecordSet :=
      {| route53.rrs_Name := fqdn ++ ".";
         route53.rrs_Type := "A";
         route53.ResourceRecords := [ {| route53.Value := ip |} ];
         route53.rrs_TTL := Some TTL |} in
    let upsert :=
      [ {| route53.Action := "UPSERT";
           route53.chg_ResourceRecordSet := resourceRecordSet |} ] in
    let params :=
      {| route53.crr_ChangeBatch :=
           {| route53.Changes := upsert; route53.Comment := None |};
         route53.crr_HostedZoneId := zoneID |} in
    match route53.ChangeResourceRecordSets dnsClient params with
    | inr err =>
        ([EvChangeResourceRecordSets params],
         Err ("failed to update record set" ++ ": " ++ err ++ nl))
    | inl _ =>
        emit (EvChangeResourceRecordSets params) ;;;
        log_Printf ("submitted change for zone ID " ++ zoneID
                      ++ " to register " ++ ip ++ " as " ++ fqdn ++ nl)
    end
    end
    end
  | _ =>
    fail ("could not find domain" ++ " (" ++ domain ++ "): " ++ "<nil>" ++ nl)
  end
  end.

(** [getIPAndUpdate], the job [main] hands to the scheduler, to be run
    every [UpdateInterval] seconds.  The scheduler itself ([gocron]) is
    outside this development: a run of the job is the unit that is
    modelled. *)
Definition getIPAndUpdate (g : globals)
           (http_Get : string -> Response + error)
           (dnsClient : route53.Route53) : M unit :=
  ip <- wrap "unable to determine ip address" (getIP (ipURL g) http_Get) ;;
  wrap "could not update record" (upsertRoute53Record ip (fqdn g) dnsClient).

(* ================================================================= *)
(** ** Vocabulary of the statements *)

(** Whether the byte [c] occurs in [s]. *)
Fixpoint contains (c : ascii) (s : string) : bool :=
  match s with
  | EmptyString => false
  | String b s' => Ascii.eqb b c || contains c s'
  end.

(** The text of [s] after the first occurrence of [c] (empty when there
    is none). *)
Fixpoint afterFirst (c : ascii) (s : string) : string :=
  match s with
  | EmptyString => EmptyString
  | String b s' => if Ascii.eqb b c then s' else afterFirst c s'
  end.

(** The calls of a trace that write to the provider. *)
Definition isUpsert (ev : event) : bool :=
  match ev with
  | EvChangeResourceRecordSets _ => true
  | _ => false
  end.

(** The calls of a trace that reach the provider at all. *)
Definition isProviderCall (ev : event) : bool :=
  match ev with
  | EvListHostedZonesByName _
  | EvListResourceRecordSets _
  | EvChangeResourceRecordSets _ => true
  | _ => false
  end.

Definition isLog (ev : event) : bool :=
  match ev with
  | EvLog _ => true
  | _ => false
  end.

(** The loop of [regexp.step] for [r0*], by name: [fuel] bounds the
    number of turns, [k] is what follows the star. *)
Section StarLoop.
Variable r0 : regexp.Regexp.
Variable k : nat -> string -> regexp.caps -> option regexp.caps.

Fixpoint star_loop (fuel : nat) (pos : nat) (rest : string)
         (c : regexp.caps) : option regexp.caps :=
  match fuel with
  | O => k pos rest c
  | S fuel' =>
      match regexp.step r0 pos rest c
              (fun p s c' =>
                 if (p <=? pos)%nat then None
                 else star_loop fuel' p s c')
      with
      | Some c' => Some c'
      | None => k pos rest c
      end
  end.
End StarLoop.

(** The part of [domainRegex] after group 1, and the end of a match
    begun at [start]. *)
Definition afterLabel : regexp.Regexp :=
  regexp.OpConcat (regexp.OpLiteral ".")
    (regexp.OpConcat
       (regexp.OpCapture 2 (regexp.OpStar regexp.OpAnyCharNotNL))
       regexp.OpEndText).

Definition whole (start : nat)
  : nat -> string -> regexp.caps -> option regexp.caps :=
  fun p _ c => Some (regexp.set_cap 0 (start, p) c).

(** What follows a star of [domainRegex] fails unless the text left
    begins as it needs: with a period after group 1, nowhere but at the
    end after group 2. *)
Definition needs_dot
           (k : nat -> string -> regexp.caps -> option regexp.caps) : Prop :=
  forall p b s c, Ascii.eqb b "." = false -> k p (String b s) c = None.

Definition needs_end
           (k : nat -> string -> regexp.caps -> option regexp.caps) : Prop :=
  forall p b s c, k p (String b s) c = None.

(** [tokens[2]] of [upsertRoute53Record]: the parent domain of a host
    name, when the pattern matches. *)
Definition parentDomain (fqdn : string) : option string :=
  nth_error (regexp.FindStringSubmatch domainRegex fqdn) 2.

(** The zone identifier [upsertRoute53Record] takes from the composite
    identifier of a hosted zone. *)
Definition zoneIDOf (id : string) : string :=
  last (strings.Split id "/") EmptyString.

(** The three requests of [upsertRoute53Record]. *)
Definition zoneQuery (domain : string) : route53.ListHostedZonesByNameInput :=
  {| route53.lhz_DNSName := Some (domain ++ ".");
     route53.lhz_HostedZoneId := None;
     route53.lhz_MaxItems := Some "1" |}.

Definition recordQuery (fqdn zoneID : string)
  : route53.ListResourceRecordSetsInput :=
  {| route53.StartRecordName := Some fqdn;
     route53.StartRecordType := Some RecordType;
     route53.lrr_HostedZoneId := zoneID;
     route53.lrr_MaxItems := Some "1" |}.

Definition upsertRequest (ip fqdn zoneID : string)
  : route53.ChangeResourceRecordSetsInput :=
  {| route53.crr_ChangeBatch :=
       {| route53.Changes :=
            [ {| route53.Action := "UPSERT";
                 route53.chg_ResourceRecordSet :=
                   {| route53.rrs_Name := fqdn ++ ".";
                      route53.rrs_Type := "A";
                      route53.ResourceRecords := [ {| route53.Value := ip |} ];
                      route53.rrs_TTL := Some 300%Z |} |} ];
          route53.Comment := None |};
     route53.crr_HostedZoneId := zoneID |}.

(** The errors and log lines of [main.go], under the names the design
    document gives them. *)
Definition ZoneNotFoundError (domain : string) : error :=
  "could not find domain (" ++ domain ++ "): <nil>" ++ nl.

Definition ZoneMismatchError (domain dnsName : string) : error :=
  domain ++ " - " ++ dnsName ++ ")" ++ nl.

Definition ListRecordsError (domain : string) (err : error) : error :=
  "error listing records (" ++ domain ++ "): " ++ err ++ nl.

Definition UpdateRejectedError (err : error) : error :=
  "failed to update record set: " ++ err ++ nl.

Definition InvalidAddressError : error := "not a valid IP address: <nil>".

Definition alreadyRegistered (ip fqdn : string) : string :=
  ip ++ " already registered in route53 as " ++ fqdn ++ nl.

Definition submittedChange (zoneID ip fqdn : string) : string :=
  "submitted change for zone ID " ++ zoneID ++ " to register " ++ ip
    ++ " as " ++ fqdn ++ nl.

(** The provider located the zone of [domain]: the lookup answered with
    one hosted zone and echoed the name asked for. *)
Definition zoneLocated (dnsClient : route53.Route53) (domain : string)
           (zone : route53.HostedZone) : Prop :=
  exists out,
    route53.ListHostedZonesByName dnsClient (zoneQuery domain) = inl out
    /\ route53.HostedZones out = [zone]
    /\ route53.DNSName out = Some (domain ++ ".").

(** Whether the record listing shows [fqdn] registered with [ip]: one
    record set, named [fqdn + "."], with [ip] among its values. *)
Definition isRegistered (ip fqdn : string)
           (resp : route53.ListResourceRecordSetsOutput) : bool :=
  match route53.ResourceRecordSets resp with
  | [rrs] =>
      String.eqb (route53.rrs_Name rrs) (fqdn ++ ".")
      && hasValue ip (route53.ResourceRecords rrs)
  | _ => false
  end.

(** ** Providers and responses for the scenarios of the design document *)

(** A provider that answers every zone lookup with [zones], echoing the
    name asked for, every record listing with [sets] and every change
    batch with [change]. *)
Definition provider (zones : list route53.HostedZone)
           (sets : list route53.ResourceRecordSet) (change : unit + error)
  : route53.Route53 :=
  {| route53.ListHostedZonesByName := fun input =>
       inl {| route53.DNSName := route53.lhz_DNSName input;
              route53.HostedZones := zones |};
     route53.ListResourceRecordSets := fun _ =>
       inl {| route53.ResourceRecordSets := sets |};
     route53.ChangeResourceRecordSets := fun _ => change |}.

Definition zoneZ123 (name : string) : route53.HostedZone :=
  {| route53.Id := "/hostedzone/Z123"; route53.Name := name |}.

Definition homeRecord (value : string) : route53.ResourceRecordSet :=
  {| route53.rrs_Name := "home.example.com.";
     route53.rrs_Type := "A";
     route53.ResourceRecords := [ {| route53.Value := value |} ];
     route53.rrs_TTL := Some 300%Z |}.

(** An IP-echo service that answers [body] to every request. *)
Definition echoService (body : string) : string -> Response + error :=
  fun _ => inl {| Body_ReadAll := inl body; Body_Close := None |}.

(** ** Well-formed addresses *)

(** A byte value, and an array of [n] bytes. *)
Definition inb (x : Z) : Prop := (0 <= x < 256)%Z.

Definition bytes (n : nat) (l : list Z) : Prop :=
  List.length l = n /\ Forall inb l.

(** The text [s] is that of an IP address: [net.ParseIP] does not
    return nil. *)
Definition validIPText (s : string) : Prop := net.ParseIP s <> [].

(** ** Bounded checks

    [allFrom n x P]: [P] holds of the [n] integers from [x] on. *)
Fixpoint allFrom (n : nat) (x : Z) (P : Z -> bool) : bool :=
  match n with
  | O => true
  | S m => P x && allFrom m (x + 1) P
  end.

(** What reading back the text of a 16-bit group must give: all of the
    text is read, at least one digit and the value of the group, and the
    text begins with a digit. *)
Definition hexReadsBack (g : Z) : bool :=
  match netip.scanHex (netip.appendHex g) 0 0 with
  | Some (off, acc, EmptyString) =>
      (acc =? g)%Z && (0 <? off)%Z
      && match netip.appendHex g with
         | String c _ =>
             match netip.hexval c with Some _ => true | None => false end
         | EmptyString => false
         end
  | _ => false
  end.

(** The two bytes of a 16-bit group are found again in the group. *)
Definition groupSplits (hi lo : Z) : bool :=
  let g := Z.lor (Z.shiftl hi 8) lo in
  (0 <=? g)%Z && (g <? 65536)%Z
  && (netip.byte (Z.shiftr g 8) =? hi)%Z && (netip.byte g =? lo)%Z
  && implb (g =? 0)%Z ((hi =? 0)%Z && (lo =? 0)%Z).

(** The first longest run of zero groups that [findZeros] returns: none
    (both bounds 255), or two groups at least, all of them zero. *)
Definition zeroRunOf (ip : list Z) (zs ze : Z) : Prop :=
  (zs = 255 /\ ze = 255)%Z
  \/ (0 <= zs /\ zs + 2 <= ze /\ ze <= 8
      /\ forall k, zs <= k < ze -> netip.v6u16 ip k = 0)%Z.

(** A text that begins with a hexadecimal digit. *)
Definition startsWithHex (s : string) : Prop :=
  match s with
  | String c _ => netip.hexval c <> None
  | EmptyString => False
  end.

(** A text that does not begin with a hexadecimal digit. *)
Definition stopsHex (s : string) : Prop :=
  match s with
  | String c _ => netip.hexval c = None
  | EmptyString => True
  end.

(** The digits of one field in the loop of [parseIPv4]: the value and
    digit count after the digits [a], from [val] and [digLen]. *)
Fixpoint decRun (a : string) (val digLen : Z) : option (Z * Z) :=
  match a with
  | EmptyString => Some (val, digLen)
  | String c a' =>
      if netip.between "0" "9" c then
        if ((digLen =? 1) && (val =? 0))%Z then None
        else
          let val := (val * 10 + netip.code c - netip.code "0")%Z in
          if (val >? 255)%Z then None
          else decRun a' val (digLen + 1)%Z
      else None
  end.

(** What reading back the decimal text of a byte must give: its value,
    and a last character that is not a period. *)
Definition decimalReadsBack (x : Z) : bool :=
  let d := netip.appendDecimal x in
  match decRun d 0 0 with
  | Some (v, _) => (v =? x)%Z
  | None => false
  end
  && match get (String.length d - 1) d with
     | Some c => negb (Ascii.eqb c ".")
     | None => false
     end.

(** The log line of the deferred [Body.Close] in [getIP], if closing
    fails. *)
Definition closeLog (resp : Response) : list event :=
  match Body_Close resp with
  | Some err => [EvLog ("unable to close http socket: " ++ err)]
  | None => []
  end.

(** The two contexts [getIPAndUpdate] wraps an error with. *)
Definition resolvePhase : string := "unable to determine ip address".
Definition updatePhase : string := "could not update record".

(** The configuration of the scenarios. *)
Definition homeConfig : globals :=
  {| fqdn := "home.example.com"; ipURL := "https://checkip.example.net" |}.

(** The text of the fields of an IPv4 address that are followed by a
    period. *)
Fixpoint joinFields (fs : list Z) : string :=
  match fs with
  | [] => EmptyString
  | f :: rest => netip.appendDecimal f ++ "." ++ joinFields rest
  end.

(** The state of the loop of [parseIPv4] after the text [p], with [rest]
    left to read: [p] is the text of the fields read so far, each with
    its period, and of the digits [val] of the current one. *)
Definition v4inv (s p rest : string) (fields : list Z) (val pos digLen : Z)
  : Prop :=
  s = p ++ rest /\ List.length fields = 4%nat /\ (0 <= pos <= 3)%Z
  /\ exists cur,
      p = joinFields (firstn (Z.to_nat pos) fields) ++ cur
      /\ ((digLen = 0 /\ val = 0 /\ cur = EmptyString
           /\ (0 < pos -> rest <> EmptyString))%Z
          \/ (1 <= digLen /\ 0 <= val <= 255
              /\ cur = netip.appendDecimal val
              /\ (val = 0 -> digLen = 1))%Z).

(** Writing one more digit [d] after the digits of [val]. *)
Definition decimalSnoc (val d : Z) : bool :=
  implb (val * 10 + d <=? 255)%Z
        (String.eqb (netip.appendDecimal (val * 10 + d))
                    (netip.appendDecimal val ++ netip.str1 (netip.digit d))).

(* ================================================================= *)
(** ** Further vocabulary: the whole of [main.go] *)

(** The calls of a trace that reach the provider, in order. *)
Definition providerCalls (t : list event) : list event :=
  filter isProviderCall t.

(** The record sets a change batch writes. *)
Definition writtenSets (req : route53.ChangeResourceRecordSetsInput)
  : list route53.ResourceRecordSet :=
  map route53.chg_ResourceRecordSet
      (route53.Changes (route53.crr_ChangeBatch req)).

(** Whether every byte of [s] satisfies [P]. *)
Fixpoint allChars (P : ascii -> bool) (s : string) : bool :=
  match s with
  | EmptyString => true
  | String c s' => P c && allChars P s'
  end.

(** The bytes that occur in the text of an IP address without a zone:
    hexadecimal digits, the period and the colon. *)
Definition addrChar (c : ascii) : bool :=
  match netip.hexval c with
  | Some _ => true
  | None => Ascii.eqb c "." || Ascii.eqb c ":"
  end.

(** The carriage return, written ["\r"] in Go. *)
Definition CR : ascii := ascii_of_nat 13.

(** The decimal text of a byte is made of hexadecimal digits that
    [scanHex] reads to the end, one at least. *)
Definition decimalIsHex (x : Z) : bool :=
  let d := netip.appendDecimal x in
  allChars addrChar d
  && match netip.scanHex d 0 0 with
     | Some (off, _, EmptyString) => (0 <? off)%Z
     | _ => false
     end
  && match d with
     | String c _ =>
         match netip.hexval c with Some _ => true | None => false end
     | EmptyString => false
     end.

(** The run of [upsertRoute53Record] from the record listing on, once
    the zone [zone] of [domain] is located. *)
Definition locatedRun (ip fqdn : string) (dnsClient : route53.Route53)
           (domain : string) (zone : route53.HostedZone) : M unit :=
  let zoneID := zoneIDOf (route53.Id zone) in
  let lookup := EvListHostedZonesByName (zoneQuery domain) in
  let listing := EvListResourceRecordSets (recordQuery fqdn zoneID) in
  let change := EvChangeResourceRecordSets (upsertRequest ip fqdn zoneID) in
  match route53.ListResourceRecordSets dnsClient (recordQuery fqdn zoneID) with
  | inr err => ([lookup; listing], Err (ListRecordsError domain err))
  | inl resp =>
      if isRegistered ip fqdn resp
      then ([lookup; listing; EvLog (alreadyRegistered ip fqdn)], Ok tt)
      else
        match route53.ChangeResourceRecordSets dnsClient
                (upsertRequest ip fqdn zoneID) with
        | inr err => ([lookup; listing; change], Err (UpdateRejectedError err))
        | inl _ =>
            ([lookup; listing; change;
              EvLog (submittedChange zoneID ip fqdn)], Ok tt)
        end
  end.

(** A provider whose zone lookup fails with [err]. *)
Definition lookupFails (err : error) : route53.Route53 :=
  {| route53.ListHostedZonesByName := fun _ => inr err;
     route53.ListResourceRecordSets := fun _ =>
       inl {| route53.ResourceRecordSets := [] |};
     route53.ChangeResourceRecordSets := fun _ => inl tt |}.

(** A provider that finds [zones], echoing [dnsName], and whose record
    listing fails with [err]. *)
Definition listingFails (dnsName : option string)
           (zones : list route53.HostedZone) (err : error)
  : route53.Route53 :=
  {| route53.ListHostedZonesByName := fun _ =>
       inl {| route53.DNSName := dnsName; route53.HostedZones := zones |};
     route53.ListResourceRecordSets := fun _ => inr err;
     route53.ChangeResourceRecordSets := fun _ => inl tt |}.
(* ================================================================= *)
(** * Verification *)

(** ** Strings *)

Lemma append_nil_r (s : string) : s ++ EmptyString = s.
Proof. induction s; simpl; congruence. Qed.

Lemma append_assoc (a b c : string) : (a ++ b) ++ c = a ++ (b ++ c).
Proof. induction a; simpl; congruence. Qed.

Lemma length_append (a b : string) :
  String.length (a ++ b) = (String.length a + String.length b)%nat.
Proof. induction a; simpl; congruence. Qed.

Lemma substring_all (s : string) : substring 0 (String.length s) s = s.
Proof. induction s; simpl; congruence. Qed.

Lemma substring_prefix (a b : string) :
  substring 0 (String.length a) (a ++ b) = a.
Proof.
  induction a as [|x a IH]; simpl.
  - destruct b; reflexivity.
  - now rewrite IH.
Qed.

Lemma substring_suffix (a b : string) :
  substring (String.length a) (String.length b) (a ++ b) = b.
Proof.
  induction a as [|x a IH]; simpl.
  - apply substring_all.
  - exact IH.
Qed.

(** Every text with a [c] in it is a [c]-free text, then [c], then the
    text after the first [c]. *)
Lemma cut_at_first (c : ascii) (s : string) :
  contains c s = true ->
  exists l, s = l ++ String c (afterFirst c s) /\ contains c l = false.
Proof.
  induction s as [|b s IH]; simpl; [discriminate|].
  destruct (Ascii.eqb b c) eqn:E; simpl.
  - intros _. apply Ascii.eqb_eq in E. subst b.
    exists EmptyString. split; reflexivity.
  - intros H. destruct (IH H) as (l & Hs & Hl).
    exists (String b l). simpl. rewrite E, Hl. split; [|reflexivity].
    now rewrite <- Hs.
Qed.

(** ** The pattern of [domainRegex] *)

Lemma step_star r0 pos rest c k :
  regexp.step (regexp.OpStar r0) pos rest c k
  = star_loop r0 k (S (String.length rest)) pos rest c.
Proof. reflexivity. Qed.

(** [[^\x2E]*] runs over a period-free [label] up to the period or the
    end of the text that stops it, and nothing shorter will do. *)
Lemma star_not_dot k label tail :
  needs_dot k ->
  contains "." label = false ->
  match tail with String b _ => b = "."%char | EmptyString => True end ->
  forall fuel pos c,
    (String.length label < fuel)%nat ->
    star_loop (regexp.OpCharClassNot ".") k fuel pos (label ++ tail) c
    = k (pos + String.length label)%nat tail c.
Proof.
  intros Hk Hl Ht. induction label as [|a l IH]; intros fuel pos c Hf.
  - simpl. rewrite Nat.add_0_r.
    destruct fuel as [|f]; [lia|]. cbn [star_loop regexp.step append].
    destruct tail as [|b t]; [reflexivity|].
    subst b. rewrite Ascii.eqb_refl. reflexivity.
  - simpl in Hl. apply orb_false_iff in Hl. destruct Hl as [Ha Hl].
    destruct fuel as [|f]; [simpl in Hf; lia|].
    cbn [star_loop regexp.step append].
    rewrite Ascii.eqb_sym in Ha. rewrite Ha.
    replace (S pos <=? pos)%nat with false
      by (symmetry; apply Nat.leb_gt; lia).
    rewrite (IH Hl f (S pos) c) by (simpl in Hf; lia).
    replace (S pos + String.length l)%nat
      with (pos + S (String.length l))%nat by lia.
    cbn [String.length].
    destruct (k (pos + S (String.length l))%nat tail c) eqn:E;
      [reflexivity|].
    apply Hk. now rewrite Ascii.eqb_sym.
Qed.

(** [.*] followed by the end of the text takes a text free of line
    feeds whole... *)
Lemma star_any_to_end k d :
  needs_end k ->
  contains LF d = false ->
  forall fuel pos c,
    (String.length d < fuel)%nat ->
    star_loop regexp.OpAnyCharNotNL k fuel pos d c
    = k (pos + String.length d)%nat EmptyString c.
Proof.
  intros Hk. induction d as [|a l IH]; intros Hd fuel pos c Hf.
  - simpl. rewrite Nat.add_0_r.
    destruct fuel as [|f]; [lia|]. reflexivity.
  - simpl in Hd. apply orb_false_iff in Hd. destruct Hd as [Ha Hd].
    destruct fuel as [|f]; [simpl in Hf; lia|].
    cbn [star_loop regexp.step]. rewrite Ha.
    replace (S pos <=? pos)%nat with false
      by (symmetry; apply Nat.leb_gt; lia).
    rewrite (IH Hd f (S pos) c) by (simpl in Hf; lia).
    replace (S pos + String.length l)%nat
      with (pos + S (String.length l))%nat by lia.
    cbn [String.length].
    destruct (k (pos + S (String.length l))%nat EmptyString c);
      [reflexivity|]. apply Hk.
Qed.

(** ... and fails on a text with a line feed in it. *)
Lemma star_any_line_feed k d :
  needs_end k ->
  contains LF d = true ->
  forall fuel pos c,
    star_loop regexp.OpAnyCharNotNL k fuel pos d c = None.
Proof.
  intros Hk. induction d as [|a l IH]; intros Hd fuel pos c.
  - discriminate.
  - destruct fuel as [|f]; [apply Hk|].
    simpl in Hd. cbn [star_loop regexp.step].
    destruct (Ascii.eqb a LF) eqn:Ha; [apply Hk|].
    simpl in Hd.
    replace (S pos <=? pos)%nat with false
      by (symmetry; apply Nat.leb_gt; lia).
    rewrite (IH Hd). apply Hk.
Qed.

(** The pattern is anchored: it matches at offset 0 or not at all. *)
Lemma find_anchored re start rest :
  (0 < start)%nat ->
  regexp.find (regexp.OpConcat regexp.OpBeginText re) start rest = None.
Proof.
  revert start. induction rest as [|b s IH]; intros start H;
    destruct start as [|n]; try lia;
    cbn [regexp.find regexp.matchAt regexp.step Nat.eqb].
  - reflexivity.
  - apply IH. lia.
Qed.

Lemma find_domainRegex_at_0 (s : string) :
  regexp.find domainRegex 0 s = regexp.matchAt domainRegex 0 s.
Proof.
  destruct s as [|b s]; cbn [regexp.find].
  - now destruct (regexp.matchAt domainRegex 0 EmptyString).
  - destruct (regexp.matchAt domainRegex 0 (String b s)); [reflexivity|].
    apply find_anchored. lia.
Qed.

(** One-step equations of the matcher. *)
Lemma step_concat r1 r2 pos rest c k :
  regexp.step (regexp.OpConcat r1 r2) pos rest c k
  = regexp.step r1 pos rest c (fun p s c' => regexp.step r2 p s c' k).
Proof. reflexivity. Qed.

Lemma step_capture n r pos rest c k :
  regexp.step (regexp.OpCapture n r) pos rest c k
  = regexp.step r pos rest c
      (fun p s c' => k p s (regexp.set_cap n (pos, p) c')).
Proof. reflexivity. Qed.

Lemma step_literal a b pos rest c k :
  regexp.step (regexp.OpLiteral a) pos (String b rest) c k
  = if Ascii.eqb a b then k (S pos) rest c else None.
Proof. reflexivity. Qed.

Lemma matchAt_domainRegex (s : string) :
  regexp.matchAt domainRegex 0 s
  = star_loop (regexp.OpCharClassNot ".")
      (fun p t c' =>
         regexp.step afterLabel p t (regexp.set_cap 1 (0, p) c') (whole 0))
      (S (String.length s)) 0 s regexp.no_caps.
Proof. reflexivity. Qed.

Lemma afterLabel_needs_dot k0 (f : nat -> regexp.caps -> regexp.caps) :
  needs_dot (fun p t c' => regexp.step afterLabel p t (f p c') k0).
Proof.
  intros p b t c E. unfold afterLabel.
  rewrite step_concat, step_literal, Ascii.eqb_sym, E. reflexivity.
Qed.

Lemma afterLabel_dot p d c k0 :
  regexp.step afterLabel p (String "." d) c k0
  = star_loop regexp.OpAnyCharNotNL
      (fun p' s c' =>
         regexp.step regexp.OpEndText p' s
           (regexp.set_cap 2 (S p, p') c') k0)
      (S (String.length d)) (S p) d c.
Proof. reflexivity. Qed.

(** The submatches of a host name [label.d]. *)
Lemma matchAt_domainRegex_split (label d : string) :
  contains "." label = false ->
  regexp.matchAt domainRegex 0 (label ++ String "." d)
  = if contains LF d then None
    else
      let n := String.length label in
      let m := (S n + String.length d)%nat in
      Some (regexp.set_cap 0 (0, m)
              (regexp.set_cap 2 (S n, m)
                 (regexp.set_cap 1 (0, n) regexp.no_caps))).
Proof.
  intros Hl. rewrite matchAt_domainRegex.
  rewrite star_not_dot;
    [ | apply (afterLabel_needs_dot (whole 0) (fun p c => regexp.set_cap 1 (0, p) c))
      | assumption | reflexivity | rewrite length_append; simpl; lia ].
  rewrite afterLabel_dot. cbn [Nat.add].
  assert (He : needs_end
                 (fun p' s c' =>
                    regexp.step regexp.OpEndText p' s
                      (regexp.set_cap 2 (S (String.length label), p') c')
                      (whole 0)))
    by (intros p b t c; reflexivity).
  destruct (contains LF d) eqn:Hd.
  - now apply star_any_line_feed.
  - rewrite star_any_to_end; [reflexivity | exact He | exact Hd | lia].
Qed.

(** The three cases of [FindStringSubmatch] on a host name. *)
Lemma domainRegex_no_separator (s : string) :
  contains "." s = false ->
  regexp.FindStringSubmatch domainRegex s = [].
Proof.
  intros H. unfold regexp.FindStringSubmatch.
  rewrite find_domainRegex_at_0, matchAt_domainRegex.
  rewrite <- (append_nil_r s) at 2.
  rewrite star_not_dot;
    [ reflexivity
    | apply (afterLabel_needs_dot (whole 0) (fun p c => regexp.set_cap 1 (0, p) c))
    | assumption | exact I | lia ].
Qed.

Lemma domainRegex_line_feed (label d : string) :
  contains "." label = false ->
  contains LF d = true ->
  regexp.FindStringSubmatch domainRegex (label ++ String "." d) = [].
Proof.
  intros Hl Hd. unfold regexp.FindStringSubmatch.
  now rewrite find_domainRegex_at_0, matchAt_domainRegex_split, Hd.
Qed.

Lemma domainRegex_split (label d : string) :
  contains "." label = false ->
  contains LF d = false ->
  regexp.FindStringSubmatch domainRegex (label ++ String "." d)
  = [label ++ String "." d; label; d].
Proof.
  intros Hl Hd. unfold regexp.FindStringSubmatch.
  rewrite find_domainRegex_at_0, matchAt_domainRegex_split, Hd by assumption.
  cbv zeta.
  change (seq 0 (S (regexp.NumSubexp domainRegex))) with [0;1;2]%nat.
  cbn [map regexp.set_cap Nat.eqb].
  rewrite !Nat.sub_0_r.
  replace (S (String.length label) + String.length d)%nat
    with (String.length (label ++ String "." d))
    by (rewrite length_append; simpl; lia).
  rewrite substring_all.
  rewrite substring_prefix.
  replace (String.length (label ++ String "." d) - S (String.length label))%nat
    with (String.length d) by (rewrite length_append; simpl; lia).
  replace (S (String.length label))
    with (String.length (label ++ String "." EmptyString))
    by (rewrite length_append; simpl; lia).
  assert (E : label ++ String "." d = (label ++ String "." EmptyString) ++ d)
    by (rewrite append_assoc; reflexivity).
  rewrite E at 2. rewrite substring_suffix. reflexivity.
Qed.

(** ** [strings.Split] and the zone identifier *)

Lemma genSplit_not_nil sep skip cur s : strings.genSplit sep skip cur s <> [].
Proof.
  revert skip cur. induction s as [|b s IH]; intros skip cur;
    cbn [strings.genSplit].
  - discriminate.
  - destruct skip; [destruct (prefix sep (String b s))|]; try discriminate;
      apply IH.
Qed.

Lemma nth_error_last {A} (l : list A) (d : A) :
  l <> [] -> nth_error l (List.length l - 1) = Some (last l d).
Proof.
  induction l as [|x l IH]; [congruence|]. intros _.
  destruct l as [|y l]; [reflexivity|].
  replace (List.length (x :: y :: l) - 1)%nat
    with (S (List.length (y :: l) - 1)) by (simpl; lia).
  cbn [nth_error]. rewrite IH by discriminate. reflexivity.
Qed.

Lemma zoneID_index (id : string) :
  let tokens := strings.Split id "/" in
  nth_error tokens (List.length tokens - 1) = Some (zoneIDOf id).
Proof. apply nth_error_last, genSplit_not_nil. Qed.

Lemma string_of_list_app (l l' : list ascii) :
  string_of_list_ascii (l ++ l')%list
  = string_of_list_ascii l ++ string_of_list_ascii l'.
Proof. induction l as [|a l IH]; simpl; congruence. Qed.

Lemma genSplit_slash_cons (cur : list ascii) (b : ascii) (s : string) :
  strings.genSplit "/" 0 cur (String b s)
  = if Ascii.eqb b "/"
    then string_of_list_ascii (rev cur) :: strings.genSplit "/" 0 [] s
    else strings.genSplit "/" 0 (b :: cur) s.
Proof.
  cbn [strings.genSplit]. unfold prefix.
  destruct (ascii_dec "/" b) as [E|N].
  - subst b. rewrite Ascii.eqb_refl. now destruct s.
  - destruct (Ascii.eqb b "/") eqn:E; [|reflexivity].
    apply Ascii.eqb_eq in E. congruence.
Qed.

Lemma genSplit_no_slash (cur : list ascii) (seg : string) :
  contains "/" seg = false ->
  strings.genSplit "/" 0 cur seg = [string_of_list_ascii (rev cur) ++ seg].
Proof.
  revert cur. induction seg as [|b s IH]; intros cur H.
  - simpl. now rewrite append_nil_r.
  - simpl in H. apply orb_false_iff in H. destruct H as [Hb Hs].
    rewrite genSplit_slash_cons, Hb, IH by assumption. cbn [rev].
    rewrite string_of_list_app, append_assoc. reflexivity.
Qed.

Lemma last_genSplit (cur : list ascii) (p seg : string) :
  contains "/" seg = false ->
  last (strings.genSplit "/" 0 cur (p ++ String "/" seg)) EmptyString = seg.
Proof.
  intros Hseg. revert cur. induction p as [|b p IH]; intros cur;
    cbn [append]; rewrite genSplit_slash_cons.
  - rewrite Ascii.eqb_refl, genSplit_no_slash by assumption. reflexivity.
  - destruct (Ascii.eqb b "/"); [|apply IH].
    generalize (genSplit_not_nil "/" 0 [] (p ++ String "/" seg)).
    generalize (IH []).
    destruct (strings.genSplit "/" 0 [] (p ++ String "/" seg));
      [congruence | intros E _; exact E].
Qed.

(** The zone identifier is the last slash-delimited segment. *)
Lemma zoneIDOf_last_segment (p seg : string) :
  contains "/" seg = false ->
  zoneIDOf (p ++ String "/" seg) = seg.
Proof. apply last_genSplit. Qed.

Lemma zoneIDOf_plain (seg : string) :
  contains "/" seg = false -> zoneIDOf seg = seg.
Proof.
  intros H. unfold zoneIDOf, strings.Split.
  now rewrite genSplit_no_slash.
Qed.

(** ** [upsertRoute53Record] *)

(** The run of [upsertRoute53Record] once the zone is located. *)
Lemma upsert_located ip fqdn dnsClient domain zone :
  parentDomain fqdn = Some domain ->
  zoneLocated dnsClient domain zone ->
  upsertRoute53Record ip fqdn dnsClient
  = let zoneID := zoneIDOf (route53.Id zone) in
    let lookup := EvListHostedZonesByName (zoneQuery domain) in
    let listing := EvListResourceRecordSets (recordQuery fqdn zoneID) in
    let change := EvChangeResourceRecordSets (upsertRequest ip fqdn zoneID) in
    match route53.ListResourceRecordSets dnsClient (recordQuery fqdn zoneID) with
    | inr err => ([lookup; listing], Err (ListRecordsError domain err))
    | inl resp =>
        if isRegistered ip fqdn resp
        then ([lookup; listing; EvLog (alreadyRegistered ip fqdn)], Ok tt)
        else
          match route53.ChangeResourceRecordSets dnsClient
                  (upsertRequest ip fqdn zoneID) with
          | inr err => ([lookup; listing; change], Err (UpdateRejectedError err))
          | inl _ =>
              ([lookup; listing; change;
                EvLog (submittedChange zoneID ip fqdn)], Ok tt)
          end
    end.
Proof.
  intros Hd (out & Hz & Hzones & Hname).
  unfold upsertRoute53Record. unfold parentDomain in Hd. rewrite Hd.
  fold (zoneQuery domain). rewrite Hz.
  cbn [call bind]. rewrite Hzones, Hname, String.eqb_refl.
  cbn [negb]. rewrite zoneID_index.
  fold (recordQuery fqdn (zoneIDOf (route53.Id zone))).
  cbv zeta.
  destruct (route53.ListResourceRecordSets dnsClient
              (recordQuery fqdn (zoneIDOf (route53.Id zone)))) as [resp|err];
    [|reflexivity].
  cbn [bind]. unfold isRegistered.
  fold (upsertRequest ip fqdn (zoneIDOf (route53.Id zone))).
  destruct (route53.ResourceRecordSets resp) as [|rrs [|rrs' rest]];
    try destruct (_ && _);
    try destruct (route53.ChangeResourceRecordSets dnsClient _);
    reflexivity.
Qed.

Lemma hasValue_spec (ip : string) (records : list route53.ResourceRecord) :
  hasValue ip records = true
  <-> exists r, In r records /\ route53.Value r = ip.
Proof.
  induction records as [|r rs IH]; simpl.
  - split; [discriminate | intros (r & [] & _)].
  - destruct (String.eqb (route53.Value r) ip) eqn:E.
    + apply String.eqb_eq in E. split; [|reflexivity].
      intros _. exists r. auto.
    + apply String.eqb_neq in E. rewrite IH. split.
      * intros (r' & Hin & Hv). exists r'. auto.
      * intros (r' & [Heq | Hin] & Hv); [congruence | exists r'; auto].
Qed.

(** What the code does compare after the lookup is the name the response
    echoes: when that differs from [domain + "."] the run ends with the
    mismatch error, and nothing more is asked of the provider. *)
Lemma echoed_name_mismatch ip fqdn dnsClient domain out zone dnsName :
  parentDomain fqdn = Some domain ->
  route53.ListHostedZonesByName dnsClient (zoneQuery domain) = inl out ->
  route53.HostedZones out = [zone] ->
  route53.DNSName out = Some dnsName ->
  dnsName <> domain ++ "." ->
  upsertRoute53Record ip fqdn dnsClient
  = ([EvListHostedZonesByName (zoneQuery domain)],
     Err (ZoneMismatchError domain dnsName)).
Proof.
  intros Hd Hz Hzones Hname Hne.
  unfold upsertRoute53Record. unfold parentDomain in Hd. rewrite Hd.
  fold (zoneQuery domain). rewrite Hz. cbn [call bind].
  rewrite Hzones, Hname.
  apply String.eqb_neq in Hne. rewrite Hne. reflexivity.
Qed.

(** C1 (defect of the code).  Whatever the own name of the single
    hosted zone the lookup of [example.com.] returns, [example.net.] for
    one, the run does not end with the mismatch error: it goes on to
    list the records of that zone and submits the upsert to it.  The
    name of the zone itself is never read; only the name echoed in the
    response is compared (lemma [echoed_name_mismatch]). *)
Theorem zone_own_name_is_not_compared (name : string) :
  upsertRoute53Record "203.0.113.9" "home.example.com"
    (provider [ {| route53.Id := "/hostedzone/Z999";
                   route53.Name := name |} ] [] (inl tt))
  = ([EvListHostedZonesByName (zoneQuery "example.com");
      EvListResourceRecordSets (recordQuery "home.example.com" "Z999");
      EvChangeResourceRecordSets
        (upsertRequest "203.0.113.9" "home.example.com" "Z999");
      EvLog (submittedChange "Z999" "203.0.113.9" "home.example.com")],
     Ok tt).
Proof. reflexivity. Qed.

(** C2 (defect of the code).  For a host name without a period the
    pattern does not match, [FindStringSubmatch] returns the nil slice
    and [tokens[2]] raises a run-time panic: no error is returned.  No
    call reaches the provider. *)
Theorem hostname_without_separator_panics ip fqdn dnsClient :
  contains "." fqdn = false ->
  upsertRoute53Record ip fqdn dnsClient
  = ([], Panic (index_out_of_range "2" "0")).
Proof.
  intros H. unfold upsertRoute53Record.
  now rewrite domainRegex_no_separator.
Qed.

Lemma hostname_without_separator_panics_witness :
  upsertRoute53Record "203.0.113.9" "localhost"
    (provider [zoneZ123 "example.com."] [] (inl tt))
  = ([], Panic (index_out_of_range "2" "0")).
Proof.
  apply (hostname_without_separator_panics "203.0.113.9" "localhost").
  reflexivity.
Defined.

(** C4, as stated, fails: the host name ["host."] has a separator and is
    split into the label ["host"] and an empty parent domain. *)
Lemma hostname_split_nonempty_counterexample :
  ~ (forall fqdn : string,
        contains "." fqdn = true ->
        exists label parent,
          regexp.FindStringSubmatch domainRegex fqdn = [fqdn; label; parent]
          /\ label <> EmptyString /\ parent <> EmptyString
          /\ label ++ "." ++ parent = fqdn).
Proof.
  intros H. destruct (H "host." eq_refl) as (l & p & E & _ & Hp & _).
  vm_compute in E. injection E as _ Ep. now symmetry in Ep.
Qed.

(** C4, amended.  A host name with a separator, and no line feed after
    the first one, is split at its first separator: the label is the
    text before it (free of separators), the parent domain the text
    after it, and label + "." + parent domain is the host name.  Either
    part may be empty. *)
Theorem hostname_split_at_first_separator (fqdn : string) :
  contains "." fqdn = true ->
  contains LF (afterFirst "." fqdn) = false ->
  exists label parent,
    regexp.FindStringSubmatch domainRegex fqdn = [fqdn; label; parent]
    /\ label ++ "." ++ parent = fqdn
    /\ contains "." label = false
    /\ parent = afterFirst "." fqdn
    /\ parentDomain fqdn = Some parent.
Proof.
  intros Hdot Hlf.
  destruct (cut_at_first "." fqdn Hdot) as (label & Hs & Hl).
  exists label, (afterFirst "." fqdn).
  assert (E : regexp.FindStringSubmatch domainRegex fqdn
              = [fqdn; label; afterFirst "." fqdn]).
  { rewrite Hs at 1 2. now apply domainRegex_split. }
  unfold parentDomain. rewrite E.
  repeat split; try assumption. now symmetry.
Qed.

Lemma hostname_split_at_first_separator_witness :
  exists label parent,
    regexp.FindStringSubmatch domainRegex "home.example.com"
    = ["home.example.com"; label; parent]
    /\ label ++ "." ++ parent = "home.example.com"
    /\ contains "." label = false
    /\ parent = afterFirst "." "home.example.com"
    /\ parentDomain "home.example.com" = Some parent.
Proof.
  apply (hostname_split_at_first_separator "home.example.com");
    reflexivity.
Defined.

(** C5.  When the listing returns one record set named [fqdn + "."]
    with a value equal to [ip], the run ends without error after the
    lookup and the listing, logs that the address is already registered
    and submits no change batch. *)
Theorem registered_address_is_not_resubmitted
        ip fqdn dnsClient domain zone resp rrs :
  parentDomain fqdn = Some domain ->
  zoneLocated dnsClient domain zone ->
  route53.ListResourceRecordSets dnsClient
    (recordQuery fqdn (zoneIDOf (route53.Id zone))) = inl resp ->
  route53.ResourceRecordSets resp = [rrs] ->
  route53.rrs_Name rrs = fqdn ++ "." ->
  (exists r, In r (route53.ResourceRecords rrs) /\ route53.Value r = ip) ->
  upsertRoute53Record ip fqdn dnsClient
  = ([EvListHostedZonesByName (zoneQuery domain);
      EvListResourceRecordSets (recordQuery fqdn (zoneIDOf (route53.Id zone)));
      EvLog (alreadyRegistered ip fqdn)],
     Ok tt)
  /\ filter isUpsert (fst (upsertRoute53Record ip fqdn dnsClient)) = [].
Proof.
  intros Hd Hz Hl Hsets Hname Hval.
  assert (E : isRegistered ip fqdn resp = true).
  { unfold isRegistered. rewrite Hsets, Hname, String.eqb_refl.
    now apply hasValue_spec. }
  rewrite (upsert_located ip fqdn dnsClient domain zone Hd Hz).
  cbv zeta. rewrite Hl, E. split; reflexivity.
Qed.

Lemma registered_address_is_not_resubmitted_witness :
  let dnsClient :=
    provider [zoneZ123 "example.com."] [homeRecord "203.0.113.9"] (inl tt) in
  upsertRoute53Record "203.0.113.9" "home.example.com" dnsClient
  = ([EvListHostedZonesByName (zoneQuery "example.com");
      EvListResourceRecordSets (recordQuery "home.example.com" "Z123");
      EvLog (alreadyRegistered "203.0.113.9" "home.example.com")],
     Ok tt)
  /\ filter isUpsert
       (fst (upsertRoute53Record "203.0.113.9" "home.example.com" dnsClient))
     = [].
Proof.
  apply (registered_address_is_not_resubmitted
           "203.0.113.9" "home.example.com"
           (provider [zoneZ123 "example.com."] [homeRecord "203.0.113.9"]
                     (inl tt))
           "example.com" (zoneZ123 "example.com.")
           {| route53.ResourceRecordSets := [homeRecord "203.0.113.9"] |}
           (homeRecord "203.0.113.9")).
  - reflexivity.
  - eexists. repeat split; reflexivity.
  - reflexivity.
  - reflexivity.
  - reflexivity.
  - exists {| route53.Value := "203.0.113.9" |}.
    split; [left|]; reflexivity.
Defined.

(** C6, as stated, fails: with the zone located and no record listed,
    a provider that rejects the change batch makes the run return the
    error of the rejection, not the "updated" outcome. *)
Lemma update_path_counterexample :
  let dnsClient :=
    provider [zoneZ123 "example.com."] [] (inr "AccessDenied") in
  parentDomain "home.example.com" = Some "example.com"
  /\ zoneLocated dnsClient "example.com" (zoneZ123 "example.com.")
  /\ route53.ListResourceRecordSets dnsClient
       (recordQuery "home.example.com" "Z123")
     = inl {| route53.ResourceRecordSets := [] |}
  /\ upsertRoute53Record "203.0.113.9" "home.example.com" dnsClient
     = ([EvListHostedZonesByName (zoneQuery "example.com");
         EvListResourceRecordSets (recordQuery "home.example.com" "Z123");
         EvChangeResourceRecordSets
           (upsertRequest "203.0.113.9" "home.example.com" "Z123")],
        Err (UpdateRejectedError "AccessDenied"))
  /\ snd (upsertRoute53Record "203.0.113.9" "home.example.com" dnsClient)
     <> Ok tt.
Proof.
  repeat split; try reflexivity; try discriminate.
  eexists. repeat split; reflexivity.
Qed.

(** C6, amended.  With the zone located, when the listing returns no
    record, or one record set with another name than [fqdn + "."], or
    one record set of that name none of whose values equals [ip], the
    run submits exactly one change batch: an UPSERT of one record set
    with name [fqdn + "."], type A, the single value [ip] and TTL 300,
    for the zone identifier that is the last slash-delimited segment of
    the identifier of the zone.  When the provider accepts the batch the
    run logs the change and ends without error; when the provider
    rejects it the run returns the error of the rejection. *)
Theorem stale_or_missing_record_is_upserted
        ip fqdn dnsClient domain zone resp :
  parentDomain fqdn = Some domain ->
  zoneLocated dnsClient domain zone ->
  route53.ListResourceRecordSets dnsClient
    (recordQuery fqdn (zoneIDOf (route53.Id zone))) = inl resp ->
  (route53.ResourceRecordSets resp = []
   \/ (exists rrs, route53.ResourceRecordSets resp = [rrs]
                   /\ route53.rrs_Name rrs <> fqdn ++ ".")
   \/ (exists rrs, route53.ResourceRecordSets resp = [rrs]
                   /\ route53.rrs_Name rrs = fqdn ++ "."
                   /\ forall r, In r (route53.ResourceRecords rrs) ->
                                route53.Value r <> ip)) ->
  let zoneID := zoneIDOf (route53.Id zone) in
  let request :=
    {| route53.crr_ChangeBatch :=
         {| route53.Changes :=
              [ {| route53.Action := "UPSERT";
                   route53.chg_ResourceRecordSet :=
                     {| route53.rrs_Name := fqdn ++ ".";
                        route53.rrs_Type := "A";
                        route53.ResourceRecords :=
                          [ {| route53.Value := ip |} ];
                        route53.rrs_TTL := Some 300%Z |} |} ];
            route53.Comment := None |};
       route53.crr_HostedZoneId := zoneID |} in
  let calls :=
    [EvListHostedZonesByName (zoneQuery domain);
     EvListResourceRecordSets (recordQuery fqdn zoneID);
     EvChangeResourceRecordSets request] in
  upsertRoute53Record ip fqdn dnsClient
  = match route53.ChangeResourceRecordSets dnsClient request with
    | inl _ =>
        ((calls ++ [EvLog (submittedChange zoneID ip fqdn)])%list, Ok tt)
    | inr err => (calls, Err (UpdateRejectedError err))
    end
  /\ filter isUpsert (fst (upsertRoute53Record ip fqdn dnsClient))
     = [EvChangeResourceRecordSets request]
  /\ (forall p seg, route53.Id zone = p ++ String "/" seg ->
                    contains "/" seg = false -> zoneID = seg).
Proof.
  intros Hd Hz Hl Hcase zoneID request calls.
  assert (E : isRegistered ip fqdn resp = false).
  { unfold isRegistered.
    destruct Hcase as [H | [(rrs & H & Hn) | (rrs & H & Hn & Hv)]];
      rewrite H; [reflexivity| |].
    - apply String.eqb_neq in Hn. now rewrite Hn.
    - rewrite Hn, String.eqb_refl. cbn [andb].
      destruct (hasValue ip (route53.ResourceRecords rrs)) eqn:Hh;
        [|reflexivity].
      apply hasValue_spec in Hh. destruct Hh as (r & Hin & Hr).
      now destruct (Hv r Hin). }
  rewrite (upsert_located ip fqdn dnsClient domain zone Hd Hz).
  cbv zeta. rewrite Hl, E.
  change (upsertRequest ip fqdn (zoneIDOf (route53.Id zone))) with request.
  split; [|split].
  - destruct (route53.ChangeResourceRecordSets dnsClient request);
      reflexivity.
  - destruct (route53.ChangeResourceRecordSets dnsClient request);
      reflexivity.
  - intros p seg Hid Hseg. unfold zoneID. rewrite Hid.
    now apply zoneIDOf_last_segment.
Qed.

Lemma stale_or_missing_record_is_upserted_witness :
  let dnsClient :=
    provider [zoneZ123 "example.com."] [homeRecord "203.0.113.1"] (inl tt) in
  upsertRoute53Record "203.0.113.9" "home.example.com" dnsClient
  = ([EvListHostedZonesByName (zoneQuery "example.com");
      EvListResourceRecordSets (recordQuery "home.example.com" "Z123");
      EvChangeResourceRecordSets
        (upsertRequest "203.0.113.9" "home.example.com" "Z123");
      EvLog (submittedChange "Z123" "203.0.113.9" "home.example.com")],
     Ok tt).
Proof.
  refine (proj1 (stale_or_missing_record_is_upserted
           "203.0.113.9" "home.example.com"
           (provider [zoneZ123 "example.com."] [homeRecord "203.0.113.1"]
                     (inl tt))
           "example.com" (zoneZ123 "example.com.")
           {| route53.ResourceRecordSets := [homeRecord "203.0.113.1"] |}
           _ _ _ _)).
  - reflexivity.
  - eexists. repeat split; reflexivity.
  - reflexivity.
  - right. right. exists (homeRecord "203.0.113.1").
    repeat split.
    intros r [Hr | []]. subst r. discriminate.
Defined.

(** C8.  When the zone lookup, which asks for one item at most, answers
    with no hosted zone or with more than one, the run returns the
    "could not find domain" error; the lookup is its only call: no
    record is listed and no change batch submitted. *)
Theorem zone_lookup_without_single_zone ip fqdn dnsClient domain out :
  parentDomain fqdn = Some domain ->
  route53.ListHostedZonesByName dnsClient (zoneQuery domain) = inl out ->
  List.length (route53.HostedZones out) <> 1%nat ->
  upsertRoute53Record ip fqdn dnsClient
  = ([EvListHostedZonesByName (zoneQuery domain)],
     Err (ZoneNotFoundError domain))
  /\ route53.lhz_MaxItems (zoneQuery domain) = Some "1".
Proof.
  intros Hd Hz Hlen. split; [|reflexivity].
  unfold upsertRoute53Record. unfold parentDomain in Hd. rewrite Hd.
  fold (zoneQuery domain). rewrite Hz. cbn [call bind].
  destruct (route53.HostedZones out) as [|z [|z' zs]];
    [reflexivity | now destruct Hlen | reflexivity].
Qed.

Lemma zone_lookup_without_single_zone_witness :
  upsertRoute53Record "203.0.113.9" "home.example.com"
    (provider [] [] (inl tt))
  = ([EvListHostedZonesByName (zoneQuery "example.com")],
     Err (ZoneNotFoundError "example.com"))
  /\ route53.lhz_MaxItems (zoneQuery "example.com") = Some "1".
Proof.
  apply (zone_lookup_without_single_zone
           "203.0.113.9" "home.example.com" (provider [] [] (inl tt))
           "example.com"
           {| route53.DNSName := Some "example.com.";
              route53.HostedZones := [] |}).
  - reflexivity.
  - reflexivity.
  - discriminate.
Defined.

(** ** Addresses: what [net.ParseIP] returns is an array of 16 bytes *)

Lemma inb_0 : inb 0.
Proof. unfold inb. lia. Qed.

Lemma inb_byte (x : Z) : inb (netip.byte x).
Proof. unfold inb, netip.byte. apply Z.mod_pos_bound. lia. Qed.

Lemma upd_nat_length (l : list Z) (i : nat) (v : Z) :
  List.length (netip.upd_nat l i v) = List.length l.
Proof.
  revert i. induction l as [|h t IH]; intros [|j]; simpl; auto.
Qed.

Lemma upd_nat_Forall (P : Z -> Prop) (l : list Z) (i : nat) (v : Z) :
  P v -> Forall P l -> Forall P (netip.upd_nat l i v).
Proof.
  intros Hv. revert i. induction l as [|h t IH]; intros [|j] H; simpl;
    inversion H; subst; auto.
Qed.

Lemma upd_bytes n (l : list Z) (i v : Z) :
  inb v -> bytes n l -> bytes n (netip.upd l i v).
Proof.
  intros Hv [Hlen Hall]. split; unfold netip.upd.
  - now rewrite upd_nat_length.
  - now apply upd_nat_Forall.
Qed.

Lemma at_inb (l : list Z) (i : Z) : Forall inb l -> inb (netip.at_ l i).
Proof.
  intros H. unfold netip.at_.
  generalize (Z.to_nat i) as n. induction H as [|x l Hx Hl IH];
    intros [|n]; simpl; auto using inb_0.
Qed.

Lemma parseIPv4_loop_bytes rest :
  forall s i fields val pos digLen f,
    bytes 4 fields ->
    netip.parseIPv4_loop s i rest fields val pos digLen = Some f ->
    bytes 4 f.
Proof.
  induction rest as [|c rest IH]; intros s i fields val pos digLen f Hf;
    cbn [netip.parseIPv4_loop].
  - destruct (pos <? 3)%Z; [discriminate|].
    intros E. injection E as <-. apply upd_bytes; auto using inb_byte.
  - destruct (netip.between "0" "9" c).
    + destruct ((digLen =? 1)%Z && (val =? 0)%Z); [discriminate|].
      destruct (val * 10 + netip.code c - netip.code "0" >? 255)%Z;
        [discriminate|].
      now apply IH.
    + destruct (Ascii.eqb c "."); [|discriminate].
      destruct (_ || _); [discriminate|].
      destruct (pos =? 3)%Z; [discriminate|].
      apply IH. apply upd_bytes; auto using inb_byte.
Qed.

Lemma parseIPv4_bytes (s : string) (f : list Z) :
  netip.parseIPv4 s = Some f -> bytes 4 f.
Proof.
  apply parseIPv4_loop_bytes. split; [reflexivity|].
  repeat constructor; apply inb_0.
Qed.

Lemma zero16_bytes : bytes 16 netip.zero16.
Proof. split; [reflexivity|]. repeat constructor; apply inb_0. Qed.

Lemma parseIPv6_loop_bytes fuel :
  forall i s ellipsis ip st,
    bytes 16 ip ->
    netip.parseIPv6_loop fuel i s ellipsis ip = Some st ->
    bytes 16 (netip.v6_ip st).
Proof.
  induction fuel as [|fuel IH]; intros i s ellipsis ip st Hip;
    cbn [netip.parseIPv6_loop].
  - intros E. injection E as <-. exact Hip.
  - destruct (16 <=? i)%Z; [intros E; injection E as <-; exact Hip|].
    destruct (netip.scanHex s 0 0) as [[[off acc] s_off]|]; [|discriminate].
    destruct (off =? 0)%Z; [discriminate|].
    destruct (netip.startsWith "." s_off).
    + destruct ((ellipsis <? 0)%Z && negb (i =? 12)%Z); [discriminate|].
      destruct (i + 4 >? 16)%Z; [discriminate|].
      destruct (netip.parseIPv4 s) as [ip4|] eqn:E4; [|discriminate].
      apply parseIPv4_bytes in E4. destruct E4 as [_ H4].
      intros E. injection E as <-. cbn [netip.v6_ip].
      repeat apply upd_bytes; auto using at_inb.
    + assert (Hupd : bytes 16
                       (netip.upd
                          (netip.upd ip i (netip.byte (Z.shiftr acc 8)))
                          (i + 1) (netip.byte acc)))
        by (repeat apply upd_bytes; auto using inb_byte).
      cbv zeta.
      destruct s_off as [|c0 s1]; [intros E; injection E as <-; exact Hupd|].
      destruct (negb (Ascii.eqb c0 ":")); [discriminate|].
      destruct s1 as [|c1 s2]; [discriminate|].
      destruct (Ascii.eqb c1 ":").
      * destruct (ellipsis >=? 0)%Z; [discriminate|].
        destruct s2; [intros E; injection E as <-; exact Hupd|].
        now apply IH.
      * now apply IH.
Qed.

Lemma moveUp_bytes cnt : forall j n ip,
    bytes 16 ip -> bytes 16 (netip.moveUp cnt j n ip).
Proof.
  induction cnt as [|cnt IH]; intros j n ip H; simpl; [exact H|].
  apply IH, upd_bytes; [apply at_inb, H | exact H].
Qed.

Lemma clear_bytes cnt : forall j ip,
    bytes 16 ip -> bytes 16 (netip.clear cnt j ip).
Proof.
  induction cnt as [|cnt IH]; intros j ip H; simpl; [exact H|].
  apply IH, upd_bytes; [apply inb_0 | exact H].
Qed.

Lemma parseIPv6_bytes (s : string) ip zone :
  netip.parseIPv6 s = Some (netip.AddrFrom16 ip zone) -> bytes 16 ip.
Proof.
  unfold netip.parseIPv6.
  destruct (match netip.IndexByteString s "%" with
            | Some i => _ | None => _ end) as [[s0 z]|]; [|discriminate].
  destruct (netip.leadingEllipsis s0) as [e s'].
  destruct ((e =? 0)%Z && String.eqb s' EmptyString).
  - intros E. injection E as <- _. apply zero16_bytes.
  - destruct (netip.parseIPv6_loop 8 0 s' e netip.zero16) as [st|] eqn:El;
      [|discriminate].
    apply parseIPv6_loop_bytes in El; [|apply zero16_bytes].
    destruct (negb (String.eqb (netip.v6_s st) EmptyString)); [discriminate|].
    destruct (netip.v6_i st <? 16)%Z.
    + destruct (netip.v6_ellipsis st <? 0)%Z; [discriminate|].
      intros E. injection E as <- _.
      now apply clear_bytes, moveUp_bytes.
    + destruct (netip.v6_ellipsis st >=? 0)%Z; [discriminate|].
      intros E. injection E as <- _. exact El.
Qed.

Lemma ParseAddr_from_bytes (s rest : string) (a : netip.Addr) :
  netip.ParseAddr_from s rest = Some a -> bytes 16 (netip.As16 a).
Proof.
  induction rest as [|c rest IH]; cbn [netip.ParseAddr_from]; [discriminate|].
  destruct (Ascii.eqb c ".").
  - destruct (netip.parseIPv4 s) as [f|] eqn:E; [|discriminate].
    intros Ea. injection Ea as <-. apply parseIPv4_bytes in E.
    destruct E as [Hlen Hall]. split.
    + cbn [netip.As16]. rewrite length_app, Hlen. reflexivity.
    + cbn [netip.As16]. apply Forall_app. split; [|exact Hall].
      repeat constructor; unfold inb; lia.
  - destruct (Ascii.eqb c ":").
    + destruct a as [f|ip zone].
      * intros E. exfalso. revert E. unfold netip.parseIPv6.
        repeat match goal with
               | |- context [match ?x with _ => _ end] => destruct x
               end; discriminate.
      * apply parseIPv6_bytes.
    + destruct (Ascii.eqb c "%"); [discriminate | exact IH].
Qed.

(** Every address [net.ParseIP] returns has sixteen bytes. *)
Lemma ParseIP_bytes (s : string) : validIPText s -> bytes 16 (net.ParseIP s).
Proof.
  unfold validIPText, net.ParseIP, netip.ParseAddr.
  destruct (netip.ParseAddr_from s s) as [a|] eqn:E; [|congruence].
  destruct (negb (String.eqb (netip.Zone a) EmptyString)); [congruence|].
  intros _. now apply ParseAddr_from_bytes in E.
Qed.

(** ** Reading back what [IP.String] writes *)

Lemma allFrom_spec (n : nat) (P : Z -> bool) :
  forall x0, allFrom n x0 P = true ->
  forall x, (x0 <= x < x0 + Z.of_nat n)%Z -> P x = true.
Proof.
  induction n as [|n IH]; intros x0 H x Hx; [lia|].
  cbn [allFrom] in H. apply andb_true_iff in H. destruct H as [Hn Hm].
  destruct (Z.eq_dec x x0) as [->|Hne]; [exact Hn|].
  apply (IH (x0 + 1)%Z Hm). lia.
Qed.

Lemma hexReadsBack_all (g : Z) :
  (0 <= g < 65536)%Z -> hexReadsBack g = true.
Proof.
  intros H. apply (allFrom_spec (Z.to_nat 65536) hexReadsBack 0%Z).
  - vm_compute. reflexivity.
  - change (Z.of_nat (Z.to_nat 65536)) with 65536%Z. lia.
Qed.

Lemma groupSplits_all (hi lo : Z) :
  inb hi -> inb lo -> groupSplits hi lo = true.
Proof.
  intros Hhi Hlo.
  assert (H : allFrom (Z.to_nat 256) 0
                (fun hi => allFrom (Z.to_nat 256) 0 (groupSplits hi)) = true)
    by (vm_compute; reflexivity).
  apply (allFrom_spec (Z.to_nat 256) (groupSplits hi) 0%Z);
    [|unfold inb in Hlo; simpl; lia].
  apply (allFrom_spec _ _ 0%Z H). unfold inb in Hhi. simpl. lia.
Qed.

(** *** Hexadecimal groups *)

Lemma scanHex_app (a : string) :
  forall off acc o v rest,
    netip.scanHex a off acc = Some (o, v, EmptyString) ->
    stopsHex rest ->
    netip.scanHex (a ++ rest) off acc = Some (o, v, rest).
Proof.
  induction a as [|c a IH]; intros off acc o v rest H Hrest.
  - cbn [netip.scanHex] in H. injection H as <- <-.
    cbn [append]. destruct rest as [|b r]; [reflexivity|].
    cbn [netip.scanHex]. cbn [stopsHex] in Hrest. now rewrite Hrest.
  - cbn [append netip.scanHex] in *.
    destruct (netip.hexval c); [|discriminate].
    destruct (off >? 3)%Z; [discriminate|].
    destruct (_ >? 65535)%Z; [discriminate|].
    now apply IH.
Qed.

Lemma group_facts (hi lo : Z) :
  inb hi -> inb lo ->
  let g := Z.lor (Z.shiftl hi 8) lo in
  (0 <= g < 65536)%Z
  /\ netip.byte (Z.shiftr g 8) = hi /\ netip.byte g = lo
  /\ (g = 0%Z -> hi = 0%Z /\ lo = 0%Z).
Proof.
  intros Hhi Hlo g. generalize (groupSplits_all hi lo Hhi Hlo).
  unfold groupSplits. fold g.
  rewrite !andb_true_iff, Z.leb_le, Z.ltb_lt, !Z.eqb_eq.
  intros ((((H0 & H1) & H2) & H3) & H4).
  split; [lia|]. split; [assumption|]. split; [assumption|].
  intros Hg. rewrite Hg in H4. cbn in H4.
  apply andb_true_iff in H4. now rewrite !Z.eqb_eq in H4.
Qed.

Lemma v6u16_facts (ip : list Z) (k : Z) :
  bytes 16 ip ->
  (0 <= netip.v6u16 ip k < 65536)%Z
  /\ netip.byte (Z.shiftr (netip.v6u16 ip k) 8) = netip.at_ ip (2 * k)
  /\ netip.byte (netip.v6u16 ip k) = netip.at_ ip (2 * k + 1)
  /\ (netip.v6u16 ip k = 0%Z ->
      netip.at_ ip (2 * k) = 0%Z /\ netip.at_ ip (2 * k + 1) = 0%Z).
Proof.
  intros [_ H]. apply group_facts; now apply at_inb.
Qed.

Lemma scan_group (ip : list Z) (k : Z) (rest : string) :
  bytes 16 ip -> stopsHex rest ->
  exists off, (off =? 0)%Z = false
    /\ netip.scanHex (netip.appendHex (netip.v6u16 ip k) ++ rest) 0 0
       = Some (off, netip.v6u16 ip k, rest).
Proof.
  intros Hip Hrest.
  destruct (v6u16_facts ip k Hip) as (Hg & _).
  generalize (hexReadsBack_all _ Hg). unfold hexReadsBack.
  destruct (netip.scanHex (netip.appendHex (netip.v6u16 ip k)) 0 0)
    as [[[off acc] [|c r]]|] eqn:E; try discriminate.
  rewrite !andb_true_iff, Z.eqb_eq, Z.ltb_lt. intros ((Hacc & Hoff) & _).
  subst acc. exists off. split; [apply Z.eqb_neq; lia|].
  now apply scanHex_app.
Qed.

Lemma starts_group (ip : list Z) (k : Z) (rest : string) :
  bytes 16 ip ->
  startsWithHex (netip.appendHex (netip.v6u16 ip k) ++ rest).
Proof.
  intros Hip. destruct (v6u16_facts ip k Hip) as (Hg & _).
  generalize (hexReadsBack_all _ Hg). unfold hexReadsBack.
  destruct (netip.scanHex (netip.appendHex (netip.v6u16 ip k)) 0 0)
    as [[[off acc] [|c0 r0]]|]; try discriminate.
  destruct (netip.appendHex (netip.v6u16 ip k)) as [|c r];
    [rewrite andb_false_r; discriminate|].
  cbn [append startsWithHex].
  destruct (netip.hexval c); [discriminate|].
  rewrite andb_false_r. discriminate.
Qed.

Lemma startsWithHex_not (c : ascii) (s : string) :
  netip.hexval c = None -> startsWithHex s -> netip.startsWith c s = false.
Proof.
  intros Hc. destruct s as [|b r]; [reflexivity|].
  cbn [startsWithHex netip.startsWith].
  destruct (Ascii.eqb b c) eqn:E; [|reflexivity].
  apply Ascii.eqb_eq in E. subst b. congruence.
Qed.

(** One turn of the loop of [parseIPv6] on the text of a group followed
    by [rest]. *)
Lemma v6_group fuel i k ip0 rest e ip :
  bytes 16 ip0 -> (i < 16)%Z -> stopsHex rest ->
  netip.startsWith "." rest = false ->
  netip.parseIPv6_loop (S fuel) i
    (netip.appendHex (netip.v6u16 ip0 k) ++ rest) e ip
  = let ip' :=
      netip.upd (netip.upd ip i (netip.at_ ip0 (2 * k)))
                (i + 1) (netip.at_ ip0 (2 * k + 1)) in
    match rest with
    | EmptyString => Some (netip.mkV6 (i + 2) EmptyString e ip')
    | String c0 s1 =>
        if negb (Ascii.eqb c0 ":") then None
        else
          match s1 with
          | EmptyString => None
          | String c1 s2 =>
              if Ascii.eqb c1 ":" then
                if (e >=? 0)%Z then None
                else
                  match s2 with
                  | EmptyString =>
                      Some (netip.mkV6 (i + 2) EmptyString (i + 2) ip')
                  | _ => netip.parseIPv6_loop fuel (i + 2) s2 (i + 2) ip'
                  end
              else netip.parseIPv6_loop fuel (i + 2) s1 e ip'
          end
    end.
Proof.
  intros Hip Hi Hrest Hdot. cbn [netip.parseIPv6_loop].
  replace (16 <=? i)%Z with false by (symmetry; apply Z.leb_gt; lia).
  destruct (scan_group ip0 k rest Hip Hrest) as (off & Hoff & ->).
  rewrite Hoff, Hdot.
  destruct (v6u16_facts ip0 k Hip) as (_ & -> & -> & _).
  reflexivity.
Qed.

Lemma v6_step_colon fuel i k ip0 s' e ip :
  bytes 16 ip0 -> (i < 16)%Z -> startsWithHex s' ->
  netip.parseIPv6_loop (S fuel) i
    (netip.appendHex (netip.v6u16 ip0 k) ++ String ":" s') e ip
  = netip.parseIPv6_loop fuel (i + 2) s' e
      (netip.upd (netip.upd ip i (netip.at_ ip0 (2 * k)))
                 (i + 1) (netip.at_ ip0 (2 * k + 1))).
Proof.
  intros Hip Hi Hs. rewrite v6_group by (auto; reflexivity).
  cbv zeta. cbn [Ascii.eqb Bool.eqb negb].
  generalize (startsWithHex_not ":" s' eq_refl Hs).
  destruct s' as [|c1 s2]; [destruct Hs|].
  cbn [netip.startsWith]. now intros ->.
Qed.

Lemma v6_step_ellipsis fuel i k ip0 s' ip :
  bytes 16 ip0 -> (i < 16)%Z -> startsWithHex s' ->
  netip.parseIPv6_loop (S fuel) i
    (netip.appendHex (netip.v6u16 ip0 k) ++ String ":" (String ":" s'))
    (-1) ip
  = netip.parseIPv6_loop fuel (i + 2) s' (i + 2)
      (netip.upd (netip.upd ip i (netip.at_ ip0 (2 * k)))
                 (i + 1) (netip.at_ ip0 (2 * k + 1))).
Proof.
  intros Hip Hi Hs. rewrite v6_group by (auto; reflexivity).
  destruct s' as [|c1 s2]; [destruct Hs | reflexivity].
Qed.

Lemma v6_step_ellipsis_end fuel i k ip0 ip :
  bytes 16 ip0 -> (i < 16)%Z ->
  netip.parseIPv6_loop (S fuel) i
    (netip.appendHex (netip.v6u16 ip0 k) ++ String ":" (String ":" EmptyString))
    (-1) ip
  = Some (netip.mkV6 (i + 2) EmptyString (i + 2)
            (netip.upd (netip.upd ip i (netip.at_ ip0 (2 * k)))
                       (i + 1) (netip.at_ ip0 (2 * k + 1)))).
Proof.
  intros Hip Hi. now rewrite v6_group by (auto; reflexivity).
Qed.

Lemma v6_step_end fuel i k ip0 e ip :
  bytes 16 ip0 -> (i < 16)%Z ->
  netip.parseIPv6_loop (S fuel) i
    (netip.appendHex (netip.v6u16 ip0 k) ++ EmptyString) e ip
  = Some (netip.mkV6 (i + 2) EmptyString e
            (netip.upd (netip.upd ip i (netip.at_ ip0 (2 * k)))
                       (i + 1) (netip.at_ ip0 (2 * k + 1)))).
Proof.
  intros Hip Hi. now rewrite v6_group by (auto; reflexivity).
Qed.

(** *** The run of zero groups *)

Lemma zeroRun_spec fuel ip : forall j,
    let r := netip.zeroRun fuel ip j in
    (j <= r)%Z /\ (r <= 8 \/ r = j)%Z
    /\ forall k, (j <= k < r)%Z -> netip.v6u16 ip k = 0%Z.
Proof.
  induction fuel as [|fuel IH]; intros j; cbn [netip.zeroRun].
  - split; [lia | split; [lia | intros k Hk; lia]].
  - destruct ((j <? 8)%Z && (netip.v6u16 ip j =? 0)%Z) eqn:E.
    + apply andb_true_iff in E. destruct E as [Hj Hz].
      apply Z.ltb_lt in Hj. apply Z.eqb_eq in Hz.
      destruct (IH (j + 1)%Z) as (H1 & H2 & H3).
      split; [lia | split; [lia|]].
      intros k Hk. destruct (Z.eq_dec k j) as [->|Hne]; [exact Hz|].
      apply H3. lia.
    + split; [lia | split; [lia | intros k Hk; lia]].
Qed.

Lemma findZeros_spec fuel ip : forall i zs ze,
    (0 <= i)%Z -> zeroRunOf ip zs ze ->
    zeroRunOf ip (fst (netip.findZeros fuel ip i zs ze))
              (snd (netip.findZeros fuel ip i zs ze)).
Proof.
  induction fuel as [|fuel IH]; intros i zs ze Hi Hinv;
    cbn [netip.findZeros]; [exact Hinv|].
  destruct (8 <=? i)%Z eqn:E8; [exact Hinv|].
  apply Z.leb_gt in E8.
  destruct (zeroRun_spec 8 ip i) as (H1 & H2 & H3).
  set (j := netip.zeroRun 8 ip i) in *.
  destruct (((j - i) mod 256 >=? 2)%Z && ((j - i) mod 256 >? (ze - zs) mod 256)%Z)
    eqn:E; [|apply IH; [lia | exact Hinv]].
  apply IH; [lia|]. right.
  apply andb_true_iff in E. destruct E as [E _].
  rewrite Z.geb_le in E.
  rewrite Z.mod_small in E by lia.
  split; [lia | split; [lia | split; [lia | exact H3]]].
Qed.

(** *** The characters of the text of an address *)

Lemma contains_app (c : ascii) (a b : string) :
  contains c (a ++ b) = contains c a || contains c b.
Proof.
  induction a as [|x a IH]; [reflexivity|].
  cbn [append contains]. now rewrite IH, orb_assoc.
Qed.

Lemma digit_not (c : ascii) :
  contains c netip.digits = false -> Ascii.eqb zero c = false ->
  forall n, Ascii.eqb (netip.digit n) c = false.
Proof.
  intros Hc Hz n. unfold netip.digit.
  generalize (Z.to_nat n) as m. intros m.
  unfold netip.digits in *. cbn [contains] in Hc.
  repeat (apply orb_false_iff in Hc; destruct Hc as [? Hc]).
  do 16 (destruct m as [|m]; [assumption|]).
  exact Hz.
Qed.

Lemma appendHex_not_contains (c : ascii) (x : Z) :
  contains c netip.digits = false -> Ascii.eqb zero c = false ->
  contains c (netip.appendHex x) = false.
Proof.
  intros Hc Hz. unfold netip.appendHex, netip.str1.
  repeat match goal with
         | |- context [if ?b then _ else _] => destruct b
         end;
    cbn [append contains]; rewrite ?(digit_not c Hc Hz); reflexivity.
Qed.

Lemma appendDecimal_not_contains (c : ascii) (x : Z) :
  contains c netip.digits = false -> Ascii.eqb zero c = false ->
  contains c (netip.appendDecimal x) = false.
Proof.
  intros Hc Hz. unfold netip.appendDecimal, netip.str1.
  repeat match goal with
         | |- context [if ?b then _ else _] => destruct b
         end;
    cbn [append contains]; rewrite ?(digit_not c Hc Hz); reflexivity.
Qed.

Lemma writeGroups_not_contains (c : ascii) fuel ip :
  contains c netip.digits = false -> Ascii.eqb zero c = false ->
  Ascii.eqb ":" c = false ->
  forall i zs ze, contains c (netip.writeGroups fuel ip i zs ze) = false.
Proof.
  intros Hc Hz Hcolon.
  induction fuel as [|fuel IH]; intros i zs ze; cbn [netip.writeGroups];
    [reflexivity|].
  destruct (8 <=? i)%Z; [reflexivity|].
  destruct (i =? zs)%Z.
  - cbn [append contains]. rewrite Hcolon. cbn [orb].
    destruct (8 <=? ze)%Z; [reflexivity|].
    now rewrite contains_app, appendHex_not_contains, IH.
  - rewrite !contains_app, appendHex_not_contains, IH by assumption.
    destruct (0 <? i)%Z; cbn [contains]; rewrite ?Hcolon; reflexivity.
Qed.

Lemma string6_has_colon (ip : list Z) : contains ":" (netip.string6 ip) = true.
Proof.
  unfold netip.string6.
  destruct (netip.findZeros 8 ip 0 255 255) as [zs ze].
  cbn [netip.writeGroups Z.leb Z.compare].
  destruct (0 =? zs)%Z; [reflexivity|].
  cbn [Z.ltb Z.compare append].
  rewrite contains_app. cbn [Z.add Pos.add Z.leb Z.compare Pos.compare
                              Pos.compare_cont].
  destruct (1 =? zs)%Z; cbn [append contains Ascii.eqb Bool.eqb];
    apply orb_true_r.
Qed.

Lemma IndexByteString_none (c : ascii) (s : string) :
  contains c s = false -> netip.IndexByteString s c = None.
Proof.
  induction s as [|b s IH]; [reflexivity|].
  cbn [contains netip.IndexByteString]. intros H.
  apply orb_false_iff in H. destruct H as [-> H]. now rewrite IH.
Qed.

(** A text with a colon and neither period nor percent sign is parsed as
    an IPv6 address. *)
Lemma ParseAddr_colon (s0 s : string) :
  contains "." s = false -> contains "%" s = false ->
  contains ":" s = true ->
  netip.ParseAddr_from s0 s = netip.parseIPv6 s0.
Proof.
  induction s as [|b s IH]; [discriminate|].
  cbn [contains netip.ParseAddr_from]. intros Hdot Hpct Hcolon.
  apply orb_false_iff in Hdot. destruct Hdot as [-> Hdot].
  apply orb_false_iff in Hpct. destruct Hpct as [-> Hpct].
  destruct (Ascii.eqb b ":"); [reflexivity|]. now apply IH.
Qed.

Lemma leadingEllipsis_hex (s : string) :
  startsWithHex s -> netip.leadingEllipsis s = ((-1)%Z, s).
Proof.
  intros H. generalize (startsWithHex_not ":" s eq_refl H).
  destruct s as [|c0 [|c1 r]]; try reflexivity.
  cbn [netip.startsWith netip.leadingEllipsis]. now intros ->.
Qed.

Lemma bytes16_inv (ip : list Z) :
  bytes 16 ip ->
  exists b0 b1 b2 b3 b4 b5 b6 b7 b8 b9 b10 b11 b12 b13 b14 b15,
    ip = [b0;b1;b2;b3;b4;b5;b6;b7;b8;b9;b10;b11;b12;b13;b14;b15].
Proof.
  intros [Hlen _].
  do 16 (destruct ip as [|? ip]; [discriminate|]).
  destruct ip; [|discriminate].
  repeat eexists.
Qed.

Lemma zero_group (ip : list Z) (zs ze k : Z) :
  bytes 16 ip ->
  (forall k, zs <= k < ze -> netip.v6u16 ip k = 0)%Z ->
  (zs <= k < ze)%Z ->
  netip.at_ ip (2 * k) = 0%Z /\ netip.at_ ip (2 * k + 1) = 0%Z.
Proof.
  intros Hip Hz Hk. apply (v6u16_facts ip k Hip), Hz, Hk.
Qed.

(** *** The bounds on the loops are enough

    The loops of the model are cut after eight turns; with any larger
    bound they give the same result, as the loops of the library do
    without a bound. *)

Lemma parseIPv6_loop_fuel (fuel : nat) :
  forall k i s e ip,
    (16 - i <= 2 * Z.of_nat fuel)%Z ->
    netip.parseIPv6_loop (fuel + k) i s e ip
    = netip.parseIPv6_loop fuel i s e ip.
Proof.
  induction fuel as [|fuel IH]; intros k i s e ip Hi.
  - destruct k as [|k]; [reflexivity|].
    cbn [Nat.add netip.parseIPv6_loop].
    replace (16 <=? i)%Z with true by (symmetry; apply Z.leb_le; lia).
    reflexivity.
  - cbn [Nat.add netip.parseIPv6_loop].
    destruct (16 <=? i)%Z; [reflexivity|].
    destruct (netip.scanHex s 0 0) as [[[off acc] s_off]|]; [|reflexivity].
    destruct (off =? 0)%Z; [reflexivity|].
    destruct (netip.startsWith "." s_off); [reflexivity|].
    cbv zeta.
    destruct s_off as [|c0 s1]; [reflexivity|].
    destruct (negb (Ascii.eqb c0 ":")); [reflexivity|].
    destruct s1 as [|c1 s2]; [reflexivity|].
    destruct (Ascii.eqb c1 ":").
    + destruct (e >=? 0)%Z; [reflexivity|].
      destruct s2; [reflexivity|]. apply IH. lia.
    + apply IH. lia.
Qed.

Lemma zeroRun_fuel (fuel : nat) :
  forall k ip j,
    (8 - j <= Z.of_nat fuel)%Z ->
    netip.zeroRun (fuel + k) ip j = netip.zeroRun fuel ip j.
Proof.
  induction fuel as [|fuel IH]; intros k ip j Hj.
  - destruct k as [|k]; [reflexivity|].
    cbn [Nat.add netip.zeroRun].
    replace (j <? 8)%Z with false by (symmetry; apply Z.ltb_ge; lia).
    reflexivity.
  - cbn [Nat.add netip.zeroRun].
    destruct ((j <? 8)%Z && (netip.v6u16 ip j =? 0)%Z); [|reflexivity].
    apply IH. lia.
Qed.

Lemma findZeros_fuel (fuel : nat) :
  forall k ip i zs ze,
    (8 - i <= Z.of_nat fuel)%Z ->
    netip.findZeros (fuel + k) ip i zs ze = netip.findZeros fuel ip i zs ze.
Proof.
  induction fuel as [|fuel IH]; intros k ip i zs ze Hi.
  - destruct k as [|k]; [reflexivity|].
    cbn [Nat.add netip.findZeros].
    replace (8 <=? i)%Z with true by (symmetry; apply Z.leb_le; lia).
    reflexivity.
  - cbn [Nat.add netip.findZeros].
    destruct (8 <=? i)%Z; [reflexivity|].
    destruct (_ && _); apply IH; lia.
Qed.

Lemma writeGroups_fuel (fuel : nat) :
  forall k ip i zs ze,
    (8 - i <= Z.of_nat fuel)%Z -> (zs <= ze)%Z ->
    netip.writeGroups (fuel + k) ip i zs ze
    = netip.writeGroups fuel ip i zs ze.
Proof.
  induction fuel as [|fuel IH]; intros k ip i zs ze Hi Hz.
  - destruct k as [|k]; [reflexivity|].
    cbn [Nat.add netip.writeGroups].
    replace (8 <=? i)%Z with true by (symmetry; apply Z.leb_le; lia).
    reflexivity.
  - cbn [Nat.add netip.writeGroups].
    destruct (8 <=? i)%Z; [reflexivity|].
    destruct (i =? zs)%Z eqn:E.
    + apply Z.eqb_eq in E. subst zs.
      destruct (8 <=? ze)%Z; [reflexivity|].
      do 2 f_equal. apply IH; lia.
    + do 2 f_equal. apply IH; lia.
Qed.

(** *** The text of an IPv6 address is read back as the address *)

Lemma startsWithHex_not_empty (s : string) :
  startsWithHex s -> String.eqb s EmptyString = false.
Proof. destruct s; [intros [] | reflexivity]. Qed.

Arguments netip.appendHex : simpl never.
Arguments netip.v6u16 : simpl never.

Ltac v6_steps Hip :=
  repeat first
    [ rewrite (fun fuel i k s' e ip H1 H2 =>
                 v6_step_colon fuel i k _ s' e ip Hip H1 H2)
        by first [lia | apply starts_group; exact Hip]
    | rewrite (fun fuel i k s' ip H1 H2 =>
                 v6_step_ellipsis fuel i k _ s' ip Hip H1 H2)
        by first [lia | apply starts_group; exact Hip]
    | rewrite (fun fuel i k ip H1 =>
                 v6_step_ellipsis_end fuel i k _ ip Hip H1) by lia
    | rewrite (fun fuel i k e ip H1 =>
                 v6_step_end fuel i k _ e ip Hip H1) by lia ].

Ltac write_groups :=
  cbn [netip.writeGroups Z.leb Z.ltb Z.eqb Z.compare Pos.compare
       Pos.compare_cont Z.add Pos.add Pos.succ Pos.eqb append].

Ltac zero_group_at k Hip Hzero :=
  let Ha := fresh "Ha" in
  let Hb := fresh "Hb" in
  try (destruct (zero_group _ _ _ k Hip Hzero ltac:(lia)) as [Ha Hb];
       vm_compute in Ha, Hb).

Ltac zero_groups Hip Hzero :=
  zero_group_at 0%Z Hip Hzero; zero_group_at 1%Z Hip Hzero;
  zero_group_at 2%Z Hip Hzero; zero_group_at 3%Z Hip Hzero;
  zero_group_at 4%Z Hip Hzero; zero_group_at 5%Z Hip Hzero;
  zero_group_at 6%Z Hip Hzero; zero_group_at 7%Z Hip Hzero.

Lemma parseIPv6_writeGroups (ip : list Z) (zs ze : Z) :
  bytes 16 ip -> zeroRunOf ip zs ze ->
  netip.parseIPv6 (netip.writeGroups 8 ip 0 zs ze)
  = Some (netip.AddrFrom16 ip EmptyString).
Proof.
  intros Hip Hz. unfold netip.parseIPv6.
  rewrite IndexByteString_none
    by (apply writeGroups_not_contains; reflexivity).
  destruct (bytes16_inv ip Hip)
    as (b0 & b1 & b2 & b3 & b4 & b5 & b6 & b7 & b8 & b9 & b10 & b11
        & b12 & b13 & b14 & b15 & E).
  destruct Hz as [[-> ->] | (H0 & H2 & H8 & Hzero)].
  - write_groups.
    rewrite leadingEllipsis_hex by (apply starts_group; exact Hip).
    cbn [Z.eqb andb].
    v6_steps Hip. subst ip. reflexivity.
  - assert (Hzs : In zs [0;1;2;3;4;5;6]%Z) by (cbn [In]; lia).
    assert (Hze : In ze [2;3;4;5;6;7;8]%Z) by (cbn [In]; lia).
    cbn [In] in Hzs, Hze.
    repeat (destruct Hzs as [<-|Hzs]; [|]); try contradiction;
      repeat (destruct Hze as [<-|Hze]; [|]); try contradiction;
      try lia;
      subst ip; zero_groups Hip Hzero; subst;
      write_groups;
      first [ rewrite leadingEllipsis_hex by (apply starts_group; exact Hip)
            | cbn [netip.leadingEllipsis Ascii.eqb Bool.eqb andb] ];
      cbn [Z.eqb andb];
      rewrite ?startsWithHex_not_empty by (apply starts_group; exact Hip);
      v6_steps Hip; reflexivity.
Qed.

(** *** The text of an IPv4 address is read back as the address *)

Lemma ParseAddr_string6 (ip : list Z) :
  bytes 16 ip ->
  netip.ParseAddr (netip.string6 ip) = Some (netip.AddrFrom16 ip EmptyString).
Proof.
  intros Hip. unfold netip.ParseAddr.
  rewrite ParseAddr_colon.
  - unfold netip.string6.
    generalize (findZeros_spec 8 ip 0 255 255 (Z.le_refl 0)
                  (or_introl (conj eq_refl eq_refl))).
    destruct (netip.findZeros 8 ip 0 255 255) as [zs ze].
    now apply parseIPv6_writeGroups.
  - unfold netip.string6.
    destruct (netip.findZeros 8 ip 0 255 255) as [zs ze].
    now apply writeGroups_not_contains.
  - unfold netip.string6.
    destruct (netip.findZeros 8 ip 0 255 255) as [zs ze].
    now apply writeGroups_not_contains.
  - apply string6_has_colon.
Qed.

Lemma decimalReadsBack_all (x : Z) : inb x -> decimalReadsBack x = true.
Proof.
  intros H. apply (allFrom_spec (Z.to_nat 256) decimalReadsBack 0%Z).
  - vm_compute. reflexivity.
  - unfold inb in H. simpl. lia.
Qed.

Lemma parseIPv4_loop_digits (a : string) :
  forall s i rest fields val pos digLen v d,
    decRun a val digLen = Some (v, d) ->
    netip.parseIPv4_loop s i (a ++ rest) fields val pos digLen
    = netip.parseIPv4_loop s (i + String.length a) rest fields v pos d.
Proof.
  induction a as [|c a IH]; intros s i rest fields val pos digLen v d H.
  - cbn [decRun] in H. injection H as <- <-.
    cbn [append String.length]. now rewrite Nat.add_0_r.
  - cbn [decRun] in H. cbn [append netip.parseIPv4_loop String.length].
    destruct (netip.between "0" "9" c); [|discriminate].
    destruct ((digLen =? 1)%Z && (val =? 0)%Z); [discriminate|].
    destruct (val * 10 + netip.code c - netip.code "0" >? 255)%Z;
      [discriminate|].
    rewrite (IH s (S i) rest fields _ pos _ v d H).
    f_equal. lia.
Qed.

Lemma get_app_right (p t : string) (n : nat) :
  get (String.length p + n) (p ++ t) = get n t.
Proof. induction p as [|c p IH]; [reflexivity | exact IH]. Qed.

Lemma get_app_left (t r : string) (n : nat) (c : ascii) :
  get n t = Some c -> get n (t ++ r) = Some c.
Proof.
  revert n. induction t as [|b t IH]; intros n; [discriminate|].
  destruct n as [|n]; [trivial | apply IH].
Qed.

Lemma get_length (t : string) (n : nat) (c : ascii) :
  get n t = Some c -> (n < String.length t)%nat.
Proof.
  revert n. induction t as [|b t IH]; intros n; [discriminate|].
  destruct n as [|n]; cbn [get String.length]; [lia|].
  intros H. apply IH in H. lia.
Qed.

(** The digits of a byte and the period after them, in the loop of
    [parseIPv4]. *)
Lemma v4_field (s pre rest' : string) (x : Z) (fields : list Z) (pos : Z) :
  inb x ->
  s = pre ++ netip.appendDecimal x ++ String "." rest' ->
  rest' <> EmptyString -> (pos =? 3)%Z = false ->
  netip.parseIPv4_loop s (String.length pre)
    (netip.appendDecimal x ++ String "." rest') fields 0 pos 0
  = netip.parseIPv4_loop s
      (String.length (pre ++ netip.appendDecimal x ++ String "." EmptyString))
      rest' (netip.upd fields pos x) 0 (pos + 1) 0.
Proof.
  intros Hx Hs Hrest Hpos.
  generalize (decimalReadsBack_all x Hx). unfold decimalReadsBack.
  set (d := netip.appendDecimal x) in *.
  destruct (decRun d 0 0) as [[v dl]|] eqn:Ed; [|discriminate].
  destruct (get (String.length d - 1) d) as [c|] eqn:Eg;
    [|rewrite andb_false_r; discriminate].
  rewrite andb_true_iff, Z.eqb_eq, negb_true_iff. intros [-> Hc].
  rewrite (parseIPv4_loop_digits d s _ _ fields 0 pos 0 x dl Ed).
  cbn [netip.parseIPv4_loop].
  change (netip.between "0" "9" ".") with false.
  rewrite Ascii.eqb_refl.
  pose proof (get_length d _ c Eg) as Hlen.
  assert (Hlens : String.length s
                  = (String.length pre + String.length d
                     + S (String.length rest'))%nat).
  { rewrite Hs, !length_append. cbn [String.length]. lia. }
  assert (Hget : get (String.length pre + String.length d - 1) s = Some c).
  { rewrite Hs.
    replace (String.length pre + String.length d - 1)%nat
      with (String.length pre + (String.length d - 1))%nat by lia.
    rewrite get_app_right. now apply get_app_left. }
  rewrite Hget, Hc.
  replace (Nat.eqb (String.length pre + String.length d) 0) with false
    by (symmetry; apply Nat.eqb_neq; lia).
  replace (Nat.eqb (String.length pre + String.length d)
                   (String.length s - 1)) with false.
  2:{ symmetry. apply Nat.eqb_neq. rewrite Hlens.
      destruct rest'; [congruence|]. cbn [String.length]. lia. }
  cbn [orb]. rewrite Hpos.
  unfold netip.byte. rewrite Z.mod_small by exact Hx.
  f_equal. rewrite !length_append. cbn [String.length]. lia.
Qed.

Lemma v4_last (s : string) (i : nat) (x : Z) (fields : list Z) :
  inb x ->
  netip.parseIPv4_loop s i (netip.appendDecimal x) fields 0 3 0
  = Some (netip.upd fields 3 x).
Proof.
  intros Hx. generalize (decimalReadsBack_all x Hx). unfold decimalReadsBack.
  destruct (decRun (netip.appendDecimal x) 0 0) as [[v dl]|] eqn:Ed;
    [|discriminate].
  rewrite andb_true_iff, Z.eqb_eq. intros [-> _].
  rewrite <- (append_nil_r (netip.appendDecimal x)) at 1.
  rewrite (parseIPv4_loop_digits _ s i EmptyString fields 0 3 0 x dl Ed).
  cbn [netip.parseIPv4_loop Z.ltb Z.compare Pos.compare Pos.compare_cont].
  unfold netip.byte. now rewrite Z.mod_small by exact Hx.
Qed.

Lemma appendDecimal_not_empty (x : Z) (r : string) :
  netip.appendDecimal x ++ r <> EmptyString.
Proof.
  unfold netip.appendDecimal, netip.str1.
  destruct (x >=? 100)%Z, (x >=? 10)%Z; discriminate.
Qed.

Lemma parseIPv4_loop_string4 (s : string) (a b c d : Z) :
  inb a -> inb b -> inb c -> inb d ->
  s = netip.appendDecimal a ++ String "."
        (netip.appendDecimal b ++ String "."
           (netip.appendDecimal c ++ String "." (netip.appendDecimal d))) ->
  netip.parseIPv4_loop s 0
    (netip.appendDecimal a ++ String "."
       (netip.appendDecimal b ++ String "."
          (netip.appendDecimal c ++ String "." (netip.appendDecimal d))))
    [0; 0; 0; 0]%Z 0 0 0
  = Some [a; b; c; d].
Proof.
  intros Ha Hb Hc Hd Hs.
  assert (Hd' : netip.appendDecimal d <> EmptyString).
  { rewrite <- (append_nil_r (netip.appendDecimal d)).
    apply appendDecimal_not_empty. }
  change 0%nat with (String.length EmptyString) at 1.
  rewrite (v4_field s EmptyString _ a) by
    (try assumption; try reflexivity; apply appendDecimal_not_empty).
  rewrite (v4_field s _ _ b) by
    (try assumption; try reflexivity; try apply appendDecimal_not_empty;
     rewrite Hs at 1; rewrite !append_assoc; reflexivity).
  rewrite (v4_field s _ _ c) by
    (try assumption; try reflexivity;
     rewrite Hs at 1; rewrite !append_assoc; reflexivity).
  now rewrite v4_last.
Qed.

Lemma parseIPv4_string4 (a b c d : Z) :
  inb a -> inb b -> inb c -> inb d ->
  netip.parseIPv4 (netip.string4 [a; b; c; d]) = Some [a; b; c; d].
Proof.
  intros Ha Hb Hc Hd. unfold netip.parseIPv4, netip.string4.
  change (netip.at_ [a; b; c; d] 0) with a.
  change (netip.at_ [a; b; c; d] 1) with b.
  change (netip.at_ [a; b; c; d] 2) with c.
  change (netip.at_ [a; b; c; d] 3) with d.
  cbn [append].
  now apply parseIPv4_loop_string4.
Qed.

Lemma ParseAddr_dot (s0 a r : string) :
  contains "." a = false -> contains ":" a = false ->
  contains "%" a = false ->
  netip.ParseAddr_from s0 (a ++ String "." r)
  = option_map netip.AddrFrom4 (netip.parseIPv4 s0).
Proof.
  induction a as [|b a IH]; [reflexivity|].
  cbn [contains append netip.ParseAddr_from]. intros Hdot Hcolon Hpct.
  apply orb_false_iff in Hdot. destruct Hdot as [-> Hdot].
  apply orb_false_iff in Hcolon. destruct Hcolon as [-> Hcolon].
  apply orb_false_iff in Hpct. destruct Hpct as [-> Hpct].
  now apply IH.
Qed.

Lemma ParseAddr_string4 (a b c d : Z) :
  inb a -> inb b -> inb c -> inb d ->
  netip.ParseAddr (netip.string4 [a; b; c; d])
  = Some (netip.AddrFrom4 [a; b; c; d]).
Proof.
  intros Ha Hb Hc Hd. unfold netip.ParseAddr.
  unfold netip.string4 at 2. cbn [append].
  rewrite ParseAddr_dot by (apply appendDecimal_not_contains; reflexivity).
  now rewrite parseIPv4_string4.
Qed.

(** *** [net.ParseIP] after [IP.String] *)

(** The text [IP.String] writes for an address of 16 bytes is read back
    by [net.ParseIP] as that address. *)
Theorem ParseIP_String (ip : list Z) :
  bytes 16 ip -> net.ParseIP (net.String_ ip) = ip.
Proof.
  intros Hip.
  destruct (bytes16_inv ip Hip)
    as (b0 & b1 & b2 & b3 & b4 & b5 & b6 & b7 & b8 & b9 & b10 & b11
        & b12 & b13 & b14 & b15 & E).
  unfold net.String_, net.To4. rewrite (proj1 Hip).
  cbn [Nat.eqb negb andb].
  destruct (forallb (Z.eqb 0) (firstn 10 ip) && (netip.at_ ip 10 =? 255)%Z
            && (netip.at_ ip 11 =? 255)%Z) eqn:E4.
  - subst ip. cbn [firstn forallb] in E4.
    change (netip.at_ [b0; b1; b2; b3; b4; b5; b6; b7; b8; b9; b10; b11;
                       b12; b13; b14; b15] 10) with b10 in E4.
    change (netip.at_ [b0; b1; b2; b3; b4; b5; b6; b7; b8; b9; b10; b11;
                       b12; b13; b14; b15] 11) with b11 in E4.
    rewrite !andb_true_iff, !Z.eqb_eq in E4.
    repeat match goal with
           | H : _ /\ _ |- _ => destruct H
           end.
    subst. cbn [skipn List.length Nat.eqb].
    unfold net.ParseIP.
    destruct Hip as [_ Hall].
    repeat match goal with
           | H : Forall _ (_ :: _) |- _ => inversion H; subst; clear H
           end.
    rewrite ParseAddr_string4 by assumption. reflexivity.
  - cbn [List.length Nat.eqb]. unfold net.ParseIP.
    rewrite ParseAddr_string6 by exact Hip. reflexivity.
Qed.

(** ** [getIP] *)

Lemma TrimSuffix_newline (t : string) : strings.TrimSuffix (t ++ nl) nl = t.
Proof.
  unfold strings.TrimSuffix, strings.HasSuffix.
  rewrite length_append. cbn [String.length nl].
  replace (String.length t + 1 - 1)%nat with (String.length t) by lia.
  replace (1 <=? String.length t + 1)%nat with true
    by (symmetry; apply Nat.leb_le; lia).
  change 1%nat with (String.length nl) at 1.
  rewrite substring_suffix, String.eqb_refl. cbn [andb].
  apply substring_prefix.
Qed.

(** The run of [getIP] on a body that could be read. *)
Lemma getIP_body ipURL http_Get resp body :
  http_Get ipURL = inl resp ->
  Body_ReadAll resp = inl body ->
  getIP ipURL http_Get
  = (EvHTTPGet ipURL :: closeLog resp,
     match net.ParseIP (strings.TrimSuffix body nl) with
     | [] => Err InvalidAddressError
     | ip => Ok (net.String_ ip)
     end).
Proof.
  intros Hget Hbody. unfold getIP. rewrite Hget. cbn [call bind].
  rewrite Hbody. fold (closeLog resp).
  destruct (net.ParseIP (strings.TrimSuffix body nl)) as [|b ip] eqn:E;
    cbn [defer bind ret fail app]; rewrite ?E; reflexivity.
Qed.

(** [getIP] ends with an address only through the last [return]. *)
Lemma getIP_ok ipURL http_Get t s :
  getIP ipURL http_Get = (t, Ok s) ->
  exists body,
    validIPText (strings.TrimSuffix body nl)
    /\ s = net.String_ (net.ParseIP (strings.TrimSuffix body nl)).
Proof.
  unfold getIP. destruct (http_Get ipURL) as [resp|err];
    [|discriminate].
  cbn [call bind].
  destruct (Body_ReadAll resp) as [body|err]; [|discriminate].
  destruct (net.ParseIP (strings.TrimSuffix body nl)) as [|b ip] eqn:E;
    cbn [defer bind ret fail app]; rewrite ?E;
    cbn [defer bind ret fail app]; [discriminate|].
  intros H. injection H as _ <-. exists body.
  unfold validIPText. rewrite E. split; [discriminate | reflexivity].
Qed.

Lemma getIP_no_panic ipURL http_Get t msg :
  getIP ipURL http_Get <> (t, Panic msg).
Proof.
  unfold getIP. destruct (http_Get ipURL) as [resp|err];
    [|discriminate].
  cbn [call bind].
  destruct (Body_ReadAll resp) as [body|err]; [|discriminate].
  destruct (net.ParseIP (strings.TrimSuffix body nl)) as [|b ip] eqn:E;
    cbn [defer bind ret fail app]; rewrite ?E;
    cbn [defer bind ret fail app]; discriminate.
Qed.

(** C3, as stated, fails: the body ["2001:DB8::1\n"] is the text of an
    IPv6 address followed by one line feed, and [getIP] returns
    ["2001:db8::1"], which is not the trimmed text. *)
Lemma verbatim_address_counterexample :
  validIPText "2001:DB8::1"
  /\ strings.TrimSuffix ("2001:DB8::1" ++ nl) nl = "2001:DB8::1"
  /\ getIP "https://checkip.example.net" (echoService ("2001:DB8::1" ++ nl))
     = ([EvHTTPGet "https://checkip.example.net"], Ok "2001:db8::1")
  /\ "2001:db8::1" <> "2001:DB8::1".
Proof.
  split; [|split; [|split]].
  - vm_compute. discriminate.
  - reflexivity.
  - vm_compute. reflexivity.
  - discriminate.
Qed.

(** C9.  When the body, less one trailing line feed, is not the text of
    an IP address, [getIP] returns the "not a valid IP address" error
    and no address. *)
Theorem invalid_address_is_refused ipURL http_Get resp body :
  http_Get ipURL = inl resp ->
  Body_ReadAll resp = inl body ->
  ~ validIPText (strings.TrimSuffix body nl) ->
  getIP ipURL http_Get
  = (EvHTTPGet ipURL :: closeLog resp, Err InvalidAddressError).
Proof.
  intros Hget Hbody Hinv. rewrite (getIP_body _ _ resp body Hget Hbody).
  unfold validIPText in Hinv.
  destruct (net.ParseIP (strings.TrimSuffix body nl)); [reflexivity|].
  destruct Hinv. discriminate.
Qed.

Lemma invalid_address_is_refused_witness :
  getIP "https://checkip.example.net" (echoService ("<html>" ++ nl))
  = ([EvHTTPGet "https://checkip.example.net"], Err InvalidAddressError).
Proof.
  apply (invalid_address_is_refused
           "https://checkip.example.net" (echoService ("<html>" ++ nl))
           {| Body_ReadAll := inl ("<html>" ++ nl); Body_Close := None |}
           ("<html>" ++ nl)).
  - reflexivity.
  - reflexivity.
  - intros H. apply H. reflexivity.
Defined.

(** C10.  An address [getIP] returns is in canonical form: it is the
    text of an IP address, and writing the address it denotes gives the
    same text again.  In particular an IPv6 address sent in capitals and
    in full comes back in lower case with its zero groups compressed. *)
Theorem returned_address_is_canonical :
  (forall ipURL http_Get t s,
      getIP ipURL http_Get = (t, Ok s) ->
      validIPText s /\ net.String_ (net.ParseIP s) = s)
  /\ (forall ipURL,
         getIP ipURL (echoService ("2001:DB8:0:0:0:0:0:1" ++ nl))
         = ([EvHTTPGet ipURL], Ok "2001:db8::1")).
Proof.
  split.
  - intros ipURL http_Get t s H.
    destruct (getIP_ok _ _ _ _ H) as (body & Hvalid & ->).
    pose proof (ParseIP_bytes _ Hvalid) as Hb.
    unfold validIPText. rewrite (ParseIP_String _ Hb).
    split; [exact Hvalid | reflexivity].
  - intros ipURL. vm_compute. reflexivity.
Qed.

Lemma returned_address_is_canonical_witness :
  validIPText "2001:db8::1"
  /\ net.String_ (net.ParseIP "2001:db8::1") = "2001:db8::1".
Proof.
  apply (proj1 returned_address_is_canonical
           "https://checkip.example.net"
           (echoService ("2001:DB8:0:0:0:0:0:1" ++ nl))
           [EvHTTPGet "https://checkip.example.net"] "2001:db8::1").
  vm_compute. reflexivity.
Defined.

(** ** [getIPAndUpdate] and [init] *)

(** C7, as stated, fails: when the echo service answers something that
    is not an address, the failure is wrapped and returned to the
    scheduler, but the run writes no log line. *)
Lemma cycle_failure_not_logged_counterexample :
  getIPAndUpdate homeConfig (echoService ("<html>" ++ nl))
    (provider [zoneZ123 "example.com."] [] (inl tt))
  = ([EvHTTPGet "https://checkip.example.net"],
     Err (resolvePhase ++ ": " ++ InvalidAddressError))
  /\ filter isLog
       (fst (getIPAndUpdate homeConfig (echoService ("<html>" ++ nl))
               (provider [zoneZ123 "example.com."] [] (inl tt))))
     = [].
Proof. split; vm_compute; reflexivity. Qed.

(** C7, amended.  An error of either phase of a cycle is wrapped by the
    entry point with the context of its phase and returned to the
    scheduler, with the trace of the phases and nothing added to it;
    every error the entry point returns is one of these.  [init] ends
    the process with [log.Fatalf], before the scheduler is created, when
    a required variable of the environment is empty.  With both
    variables set it writes no fatal log: it creates the scheduler and
    then returns if the session is created, and ends in the panic of
    [session.Must], with the error of [session.NewSession] and before
    the client is created, if it is not. *)
Theorem cycle_errors_are_wrapped_and_returned :
  (forall g http_Get dnsClient t e,
      getIP (ipURL g) http_Get = (t, Err e) ->
      getIPAndUpdate g http_Get dnsClient
      = (t, Err (resolvePhase ++ ": " ++ e)))
  /\ (forall g http_Get dnsClient t ip t' e,
         getIP (ipURL g) http_Get = (t, Ok ip) ->
         upsertRoute53Record ip (fqdn g) dnsClient = (t', Err e) ->
         getIPAndUpdate g http_Get dnsClient
         = ((t ++ t')%list, Err (updatePhase ++ ": " ++ e)))
  /\ (forall g http_Get dnsClient t e,
         getIPAndUpdate g http_Get dnsClient = (t, Err e) ->
         (exists e', getIP (ipURL g) http_Get = (t, Err e')
                     /\ e = resolvePhase ++ ": " ++ e')
         \/ (exists t1 ip t2 e',
                getIP (ipURL g) http_Get = (t1, Ok ip)
                /\ upsertRoute53Record ip (fqdn g) dnsClient = (t2, Err e')
                /\ t = (t1 ++ t2)%list
                /\ e = updatePhase ++ ": " ++ e'))
  /\ (forall Getenv session_NewSession,
         Getenv FQDNEnvVar = EmptyString \/ Getenv PublicIPURL = EmptyString ->
         exists msg, init Getenv session_NewSession = ([Fatalf msg], Exit1))
  /\ (forall Getenv,
         Getenv FQDNEnvVar <> EmptyString ->
         Getenv PublicIPURL <> EmptyString ->
         init Getenv (inl tt)
         = ([NewScheduler; NewSession; NewRoute53Client],
            Initialised {| fqdn := Getenv FQDNEnvVar;
                           ipURL := Getenv PublicIPURL |}))
  /\ (forall Getenv err,
         Getenv FQDNEnvVar <> EmptyString ->
         Getenv PublicIPURL <> EmptyString ->
         init Getenv (inr err) = ([NewScheduler; NewSession], InitPanic err)).
Proof.
  split; [|split; [|split; [|split; [|split]]]].
  - intros g http_Get dnsClient t e H. unfold getIPAndUpdate.
    rewrite H. reflexivity.
  - intros g http_Get dnsClient t ip t' e H1 H2. unfold getIPAndUpdate.
    rewrite H1. cbn [wrap bind]. rewrite H2. reflexivity.
  - intros g http_Get dnsClient t e. unfold getIPAndUpdate.
    destruct (getIP (ipURL g) http_Get) as [t1 [ip|e1|msg]] eqn:E1;
      cbn [wrap bind].
    + destruct (upsertRoute53Record ip (fqdn g) dnsClient)
        as [t2 [[]|e2|msg]] eqn:E2; cbn [wrap bind]; try discriminate.
      intros H. injection H as <- <-. right.
      exists t1, ip, t2, e2.
      split; [reflexivity | split; [exact E2 | split; reflexivity]].
    + intros H. injection H as <- <-. left. exists e1. split; reflexivity.
    + discriminate.
  - intros Getenv session_NewSession H. unfold init.
    destruct (String.eqb (Getenv FQDNEnvVar) EmptyString) eqn:E1;
      [eexists; reflexivity|].
    destruct H as [H|H].
    + rewrite H in E1. discriminate.
    + rewrite H. cbn [String.eqb]. eexists. reflexivity.
  - intros Getenv H1 H2. unfold init.
    apply String.eqb_neq in H1, H2. now rewrite H1, H2.
  - intros Getenv err H1 H2. unfold init.
    apply String.eqb_neq in H1, H2. now rewrite H1, H2.
Qed.

Lemma cycle_errors_are_wrapped_and_returned_witness :
  getIPAndUpdate homeConfig (echoService ("<html>" ++ nl))
    (provider [zoneZ123 "example.com."] [] (inl tt))
  = ([EvHTTPGet "https://checkip.example.net"],
     Err (resolvePhase ++ ": " ++ InvalidAddressError))
  /\ getIPAndUpdate homeConfig (echoService ("203.0.113.9" ++ nl))
       (provider [] [] (inl tt))
     = ([EvHTTPGet "https://checkip.example.net";
         EvListHostedZonesByName (zoneQuery "example.com")],
        Err (updatePhase ++ ": " ++ ZoneNotFoundError "example.com"))
  /\ (exists msg,
         init (fun name => if String.eqb name FQDNEnvVar
                           then "home.example.com" else EmptyString)
              (inl tt)
         = ([Fatalf msg], Exit1))
  /\ init (fun name => if String.eqb name FQDNEnvVar
                       then "home.example.com"
                       else "https://checkip.example.net")
          (inr "MissingRegion")
     = ([NewScheduler; NewSession], InitPanic "MissingRegion").
Proof.
  split; [|split; [|split]].
  - apply (proj1 cycle_errors_are_wrapped_and_returned homeConfig).
    reflexivity.
  - apply (proj1 (proj2 cycle_errors_are_wrapped_and_returned) homeConfig
             (echoService ("203.0.113.9" ++ nl)) (provider [] [] (inl tt))
             [EvHTTPGet "https://checkip.example.net"] "203.0.113.9"
             [EvListHostedZonesByName (zoneQuery "example.com")]).
    + vm_compute. reflexivity.
    + reflexivity.
  - apply (proj1 (proj2 (proj2 (proj2 cycle_errors_are_wrapped_and_returned)))).
    right. reflexivity.
  - apply (proj2 (proj2 (proj2 (proj2 (proj2
             cycle_errors_are_wrapped_and_returned))))); discriminate.
Defined.

(** *** What [parseIPv4] accepts is written back unchanged *)

Lemma digit_char (c : ascii) :
  netip.between "0" "9" c = true ->
  (0 <= netip.code c - netip.code "0" <= 9)%Z
  /\ netip.digit (netip.code c - netip.code "0") = c.
Proof.
  destruct c as [[] [] [] [] [] [] [] []]; vm_compute;
    intros H; try discriminate H; repeat split; discriminate.
Qed.

Lemma appendDecimal_digit (d : Z) :
  (0 <= d <= 9)%Z -> netip.appendDecimal d = netip.str1 (netip.digit d).
Proof.
  intros H. unfold netip.appendDecimal.
  replace (d >=? 100)%Z with false
    by (rewrite Z.geb_leb; symmetry; apply Z.leb_gt; lia).
  replace (d >=? 10)%Z with false
    by (rewrite Z.geb_leb; symmetry; apply Z.leb_gt; lia).
  now rewrite Z.mod_small by lia.
Qed.

Lemma appendDecimal_snoc (val d : Z) :
  (1 <= val)%Z -> (0 <= d <= 9)%Z -> (val * 10 + d <= 255)%Z ->
  netip.appendDecimal (val * 10 + d)
  = netip.appendDecimal val ++ netip.str1 (netip.digit d).
Proof.
  intros Hv Hd Hle.
  assert (H : allFrom 25 1 (fun v => allFrom 10 0 (decimalSnoc v)) = true)
    by (vm_compute; reflexivity).
  assert (Hvd : decimalSnoc val d = true).
  { apply (allFrom_spec 10 (decimalSnoc val) 0%Z); [|simpl; lia].
    apply (allFrom_spec 25 _ 1%Z H). simpl. lia. }
  unfold decimalSnoc in Hvd.
  replace (val * 10 + d <=? 255)%Z with true in Hvd
    by (symmetry; apply Z.leb_le; lia).
  now apply String.eqb_eq.
Qed.

Lemma joinFields_snoc (l : list Z) (f : Z) :
  joinFields (l ++ [f])%list
  = (joinFields l ++ netip.appendDecimal f) ++ ".".
Proof.
  induction l as [|x l IH]; cbn [joinFields app].
  - now rewrite append_nil_r.
  - rewrite IH. now rewrite !append_assoc.
Qed.

Lemma get_last (x r : string) (c : ascii) :
  get (String.length (x ++ String c EmptyString) - 1)
      ((x ++ String c EmptyString) ++ r) = Some c.
Proof.
  rewrite length_append. cbn [String.length].
  replace (String.length x + 1 - 1)%nat with (String.length x + 0)%nat by lia.
  rewrite append_assoc, get_app_right. reflexivity.
Qed.

Ltac eval_fields :=
  repeat match goal with
         | |- context [firstn (Z.to_nat ?n) ?l] =>
             let t := eval vm_compute in (firstn (Z.to_nat n) l) in
             change (firstn (Z.to_nat n) l) with t
         | |- context [netip.at_ ?l ?n] =>
             let t := eval vm_compute in (netip.at_ l n) in
             change (netip.at_ l n) with t
         | H : context [firstn (Z.to_nat ?n) ?l] |- _ =>
             let t := eval vm_compute in (firstn (Z.to_nat n) l) in
             change (firstn (Z.to_nat n) l) with t in H
         end.

Lemma parseIPv4_loop_writes_back (rest : string) :
  forall s p fields val pos digLen f,
    v4inv s p rest fields val pos digLen ->
    netip.parseIPv4_loop s (String.length p) rest fields val pos digLen
    = Some f ->
    netip.string4 f = s.
Proof.
  induction rest as [|c rest IH];
    intros s p fields val pos digLen f (Hs & Hlen & Hpos & cur & Hp & Hcur);
    cbn [netip.parseIPv4_loop].
  - (* the end of the text *)
    destruct (pos <? 3)%Z eqn:E3; [discriminate|].
    apply Z.ltb_ge in E3. assert (pos = 3%Z) by lia. subst pos.
    intros E. injection E as <-.
    destruct Hcur as [(_ & _ & _ & Hrest) | (_ & Hval & -> & _)];
      [now destruct Hrest; [lia|]|].
    do 4 (destruct fields as [|? fields]; [discriminate|]).
    destruct fields; [|discriminate].
    rewrite Hs, Hp, append_nil_r.
    unfold netip.byte. rewrite Z.mod_small by lia.
    unfold netip.string4. eval_fields.
    cbn [joinFields append].
    repeat (progress (rewrite ?append_assoc; cbn [append])). reflexivity.
  - destruct (netip.between "0" "9" c) eqn:Ec.
    + (* a digit *)
      destruct ((digLen =? 1)%Z && (val =? 0)%Z) eqn:Elead; [discriminate|].
      destruct (val * 10 + netip.code c - netip.code "0" >? 255)%Z eqn:Ebig;
        [discriminate|].
      destruct (digit_char c Ec) as [Hd Hc].
      set (d := (netip.code c - netip.code "0")%Z) in *.
      replace (val * 10 + netip.code c - netip.code "0")%Z
        with (val * 10 + d)%Z in * by (unfold d; lia).
      rewrite Z.gtb_ltb in Ebig. apply Z.ltb_ge in Ebig.
      replace (S (String.length p))
        with (String.length (p ++ String c EmptyString))
        by (rewrite length_append; cbn [String.length]; lia).
      apply IH. split; [|split; [exact Hlen | split; [exact Hpos|]]].
      { rewrite Hs, append_assoc. reflexivity. }
      exists (cur ++ String c EmptyString). split.
      { rewrite Hp, append_assoc. reflexivity. }
      right.
      destruct Hcur as [(-> & -> & -> & _) | (Hdl & Hval & -> & Hz)].
      * cbn [Z.mul Z.add] in *.
        rewrite appendDecimal_digit by lia.
        unfold netip.str1. rewrite Hc.
        repeat split; try lia.
      * assert (val <> 0)%Z.
        { intros ->. rewrite (Hz eq_refl) in Elead. discriminate. }
        rewrite appendDecimal_snoc by lia.
        unfold netip.str1. rewrite Hc.
        repeat split; try lia.
    + destruct (Ascii.eqb c ".") eqn:Edot; [|discriminate].
      apply Ascii.eqb_eq in Edot. subst c.
      (* a period *)
      destruct (Nat.eqb (String.length p) 0) eqn:E0; [discriminate|].
      destruct (Nat.eqb (String.length p) (String.length s - 1)) eqn:E1;
        [discriminate|].
      cbn [orb].
      destruct (match get (String.length p - 1) s with
                | Some q => Ascii.eqb q "."
                | None => false
                end) eqn:Eprev; [discriminate|].
      destruct (pos =? 3)%Z eqn:E3; [discriminate|].
      apply Z.eqb_neq in E3. apply Nat.eqb_neq in E0, E1.
      do 4 (destruct fields as [|? fields]; [discriminate|]).
      destruct fields; [|discriminate].
      assert (Hrest : rest <> EmptyString).
      { intros ->. apply E1. rewrite Hs, length_append.
        cbn [String.length]. lia. }
      assert (Hcase : pos = 0%Z \/ pos = 1%Z \/ pos = 2%Z) by lia.
      destruct Hcur as [(-> & -> & -> & _) | (Hdl & Hval & -> & Hz)].
      * (* no digit before the period: refused *)
        exfalso. rewrite append_nil_r in Hp.
        destruct Hcase as [-> | [-> | ->]]; eval_fields.
        -- subst p. now apply E0.
        -- change [z] with ([] ++ [z])%list in Hp.
           rewrite joinFields_snoc in Hp.
           rewrite Hs, Hp, get_last in Eprev. discriminate.
        -- change [z; z0] with ([z] ++ [z0])%list in Hp.
           rewrite joinFields_snoc in Hp.
           rewrite Hs, Hp, get_last in Eprev. discriminate.
      * replace (S (String.length p))
          with (String.length (p ++ String "." EmptyString))
          by (rewrite length_append; cbn [String.length]; lia).
        apply IH.
        split; [rewrite Hs, append_assoc; reflexivity|].
        split; [unfold netip.upd; now rewrite upd_nat_length|].
        split; [lia|].
        exists EmptyString. split.
        -- rewrite append_nil_r, Hp.
           unfold netip.byte. rewrite Z.mod_small by lia.
           destruct Hcase as [-> | [-> | ->]];
             unfold netip.upd; cbn [Z.add Pos.add]; eval_fields;
             cbn [joinFields append];
             repeat (progress (rewrite ?append_assoc; cbn [append]));
             reflexivity.
        -- left. repeat split. intros _. exact Hrest.
Qed.

Lemma parseIPv4_writes_back (s : string) (f : list Z) :
  netip.parseIPv4 s = Some f -> netip.string4 f = s.
Proof.
  apply (parseIPv4_loop_writes_back s s EmptyString).
  split; [reflexivity | split; [reflexivity | split; [lia|]]].
  exists EmptyString. split; [reflexivity|].
  left. repeat split. lia.
Qed.

(** A dotted-decimal text is written back by [IP.String] as it was
    read. *)
Lemma String_ParseIP_v4 (s : string) (f : list Z) :
  netip.parseIPv4 s = Some f -> net.String_ (net.ParseIP s) = s.
Proof.
  intros H. pose proof (parseIPv4_writes_back s f H) as Hs.
  destruct (parseIPv4_bytes s f H) as [Hlen Hall].
  do 4 (destruct f as [|? f]; [discriminate|]).
  destruct f; [|discriminate].
  do 4 (apply Forall_cons_iff in Hall; destruct Hall as [? Hall]).
  rewrite <- Hs at 1. unfold net.ParseIP.
  rewrite ParseAddr_string4 by assumption.
  exact Hs.
Qed.

(** *** The text of an address has no line feed *)

Lemma scanHex_no_LF (s : string) :
  forall off acc o v r,
    netip.scanHex s off acc = Some (o, v, r) ->
    exists a, s = a ++ r /\ contains LF a = false.
Proof.
  induction s as [|c s IH]; intros off acc o v r; cbn [netip.scanHex].
  - intros E. injection E as _ _ <-. now exists EmptyString.
  - destruct (netip.hexval c) as [h|] eqn:Eh.
    + destruct (off >? 3)%Z; [discriminate|].
      destruct (_ >? 65535)%Z; [discriminate|].
      intros E. destruct (IH _ _ _ _ _ E) as (a & -> & Ha).
      exists (String c a). split; [reflexivity|].
      cbn [contains]. rewrite Ha, orb_false_r.
      destruct (Ascii.eqb c LF) eqn:Ec; [|reflexivity].
      apply Ascii.eqb_eq in Ec. subst c. discriminate.
    + intros E. injection E as _ _ <-. now exists EmptyString.
Qed.

Lemma string4_no_LF (f : list Z) : contains LF (netip.string4 f) = false.
Proof.
  unfold netip.string4.
  rewrite !contains_app, !appendDecimal_not_contains by reflexivity.
  reflexivity.
Qed.

Lemma parseIPv6_loop_no_LF fuel :
  forall i s e ip st,
    netip.parseIPv6_loop fuel i s e ip = Some st ->
    netip.v6_s st = EmptyString ->
    contains LF s = false.
Proof.
  induction fuel as [|fuel IH]; intros i s e ip st;
    cbn [netip.parseIPv6_loop].
  - intros E. injection E as <-. cbn [netip.v6_s]. now intros ->.
  - destruct (16 <=? i)%Z;
      [intros E; injection E as <-; cbn [netip.v6_s]; now intros ->|].
    destruct (netip.scanHex s 0 0) as [[[off acc] s_off]|] eqn:Es;
      [|discriminate].
    destruct (scanHex_no_LF _ _ _ _ _ _ Es) as (a & -> & Ha).
    destruct (off =? 0)%Z; [discriminate|].
    destruct (netip.startsWith "." s_off).
    + destruct ((e <? 0)%Z && negb (i =? 12)%Z); [discriminate|].
      destruct (i + 4 >? 16)%Z; [discriminate|].
      destruct (netip.parseIPv4 (a ++ s_off)) as [ip4|] eqn:E4;
        [|discriminate].
      intros _ _. rewrite <- (parseIPv4_writes_back _ _ E4).
      apply string4_no_LF.
    + cbv zeta. rewrite contains_app, Ha. cbn [orb].
      destruct s_off as [|c0 s1]; [reflexivity|].
      destruct (Ascii.eqb c0 ":") eqn:E0; cbn [negb]; [|discriminate].
      apply Ascii.eqb_eq in E0. subst c0.
      destruct s1 as [|c1 s2]; [discriminate|].
      destruct (Ascii.eqb c1 ":") eqn:E1.
      * apply Ascii.eqb_eq in E1. subst c1.
        destruct (e >=? 0)%Z; [discriminate|].
        destruct s2 as [|c2 s3]; [reflexivity|].
        intros E Hst. apply (IH _ _ _ _ _ E Hst).
      * intros E Hst. apply (IH _ _ _ _ _ E Hst).
Qed.

Lemma contains_false_IndexByteString (c : ascii) (s : string) :
  netip.IndexByteString s c = None -> contains c s = false.
Proof.
  induction s as [|b s IH]; [reflexivity|].
  cbn [netip.IndexByteString contains].
  destruct (Ascii.eqb b c); [discriminate|].
  destruct (netip.IndexByteString s c); [discriminate|].
  intros _. now apply IH.
Qed.

Lemma parseIPv6_no_LF (s : string) (ip : list Z) :
  netip.parseIPv6 s = Some (netip.AddrFrom16 ip EmptyString) ->
  contains LF s = false.
Proof.
  unfold netip.parseIPv6.
  destruct (netip.IndexByteString s "%") as [n|] eqn:Ei.
  - destruct (String.eqb _ EmptyString) eqn:Ez; [discriminate|].
    apply String.eqb_neq in Ez.
    destruct (netip.leadingEllipsis _) as [e s'].
    destruct ((e =? 0)%Z && String.eqb s' EmptyString);
      [intros E; injection E as _ E; now destruct Ez|].
    destruct (netip.parseIPv6_loop 8 0 s' e netip.zero16) as [st|];
      [|discriminate].
    destruct (negb _); [discriminate|].
    destruct (_ <? 16)%Z.
    + destruct (_ <? 0)%Z; [discriminate|].
      intros E; injection E as _ E; now destruct Ez.
    + destruct (_ >=? 0)%Z; [discriminate|].
      intros E; injection E as _ E; now destruct Ez.
  - assert (Hle : forall t e s',
               netip.leadingEllipsis t = (e, s') ->
               contains LF s' = false -> contains LF t = false).
    { intros t e s'. unfold netip.leadingEllipsis.
      destruct t as [|c0 [|c1 t']]; try (intros E; injection E as _ <-; trivial).
      destruct (Ascii.eqb c0 ":" && Ascii.eqb c1 ":") eqn:Ec;
        intros E; injection E as _ <-; trivial.
      apply andb_true_iff in Ec. destruct Ec as [E0 E1].
      apply Ascii.eqb_eq in E0, E1. subst. cbn [contains].
      intros ->. reflexivity. }
    destruct (netip.leadingEllipsis s) as [e s'] eqn:El.
    destruct ((e =? 0)%Z && String.eqb s' EmptyString) eqn:E0.
    + intros _. apply andb_true_iff in E0. destruct E0 as [_ E0].
      apply String.eqb_eq in E0. subst s'.
      now apply (Hle _ _ _ El).
    + destruct (netip.parseIPv6_loop 8 0 s' e netip.zero16) as [st|] eqn:Eloop;
        [|discriminate].
      destruct (String.eqb (netip.v6_s st) EmptyString) eqn:Est;
        cbn [negb]; [|discriminate].
      apply String.eqb_eq in Est. intros _.
      apply (Hle _ _ _ El).
      now apply (parseIPv6_loop_no_LF _ _ _ _ _ _ Eloop).
Qed.

Lemma ParseAddr_from_no_LF (s rest : string) (a : netip.Addr) :
  netip.ParseAddr_from s rest = Some a ->
  netip.Zone a = EmptyString ->
  contains LF s = false.
Proof.
  induction rest as [|c rest IH]; cbn [netip.ParseAddr_from]; [discriminate|].
  destruct (Ascii.eqb c ".").
  - destruct (netip.parseIPv4 s) as [f|] eqn:E; [|discriminate].
    intros _ _. rewrite <- (parseIPv4_writes_back _ _ E).
    apply string4_no_LF.
  - destruct (Ascii.eqb c ":").
    + destruct a as [f|ip zone].
      * intros E. exfalso. revert E. unfold netip.parseIPv6.
        repeat match goal with
               | |- context [match ?x with _ => _ end] => destruct x
               end; discriminate.
      * cbn [netip.Zone]. intros E ->. now apply parseIPv6_no_LF in E.
    + destruct (Ascii.eqb c "%"); [discriminate | exact IH].
Qed.

Lemma valid_no_LF (t : string) : validIPText t -> contains LF t = false.
Proof.
  unfold validIPText, net.ParseIP, netip.ParseAddr.
  destruct (netip.ParseAddr_from t t) as [a|] eqn:E; [|congruence].
  destruct (String.eqb (netip.Zone a) EmptyString) eqn:Ez;
    cbn [negb]; [|congruence].
  intros _. apply String.eqb_eq in Ez.
  now apply (ParseAddr_from_no_LF _ _ _ E).
Qed.

Lemma HasSuffix_newline_contains (t : string) :
  strings.HasSuffix t nl = true -> contains LF t = true.
Proof.
  unfold strings.HasSuffix. cbn [String.length nl].
  induction t as [|b t IH]; [discriminate|].
  intros H. apply andb_true_iff in H. destruct H as [_ H].
  cbn [contains]. destruct t as [|b' t'].
  - change (String.eqb (String b EmptyString) nl = true) in H.
    apply String.eqb_eq in H. injection H as ->.
    reflexivity.
  - rewrite IH; [apply orb_true_r|].
    apply andb_true_iff. split; [reflexivity|].
    replace (String.length (String b' t') - 1)%nat
      with (String.length t') by (cbn [String.length]; lia).
    replace (String.length (String b (String b' t')) - 1)%nat
      with (S (String.length t')) in H by (cbn [String.length]; lia).
    exact H.
Qed.

Lemma TrimSuffix_valid (t : string) :
  validIPText t -> strings.TrimSuffix t nl = t.
Proof.
  intros H. apply valid_no_LF in H. unfold strings.TrimSuffix.
  destruct (strings.HasSuffix t nl) eqn:E; [|reflexivity].
  apply HasSuffix_newline_contains in E. congruence.
Qed.

(** C3, amended.  For a body that is the text of an IP address,
    possibly followed by one line feed, [getIP] succeeds and returns the
    canonical text of that address, which [net.ParseIP] reads as the
    same address.  The text is returned as it was sent when it is
    dotted-decimal IPv4 text, and when it is already the text
    [IP.String] writes for an address. *)
Theorem valid_address_is_returned_canonical
        ipURL http_Get resp body text :
  http_Get ipURL = inl resp ->
  Body_ReadAll resp = inl body ->
  validIPText text ->
  body = text \/ body = text ++ nl ->
  getIP ipURL http_Get
  = (EvHTTPGet ipURL :: closeLog resp,
     Ok (net.String_ (net.ParseIP text)))
  /\ net.ParseIP (net.String_ (net.ParseIP text)) = net.ParseIP text
  /\ (netip.parseIPv4 text <> None ->
      net.String_ (net.ParseIP text) = text)
  /\ (forall ip, bytes 16 ip -> text = net.String_ ip ->
                 net.String_ (net.ParseIP text) = text).
Proof.
  intros Hget Hbody Hvalid Hnl.
  assert (Htrim : strings.TrimSuffix body nl = text).
  { destruct Hnl as [-> | ->];
      [now apply TrimSuffix_valid | apply TrimSuffix_newline]. }
  split; [|split; [|split]].
  - rewrite (getIP_body _ _ resp body Hget Hbody), Htrim.
    unfold validIPText in Hvalid.
    destruct (net.ParseIP text); [congruence | reflexivity].
  - apply ParseIP_String. now apply ParseIP_bytes.
  - destruct (netip.parseIPv4 text) as [f|] eqn:E; [|congruence].
    intros _. now apply (String_ParseIP_v4 text f).
  - intros ip Hip ->. now rewrite ParseIP_String.
Qed.

Lemma valid_address_is_returned_canonical_witness :
  getIP "https://checkip.example.net" (echoService ("203.0.113.9" ++ nl))
  = ([EvHTTPGet "https://checkip.example.net"], Ok "203.0.113.9").
Proof.
  refine (proj1 (valid_address_is_returned_canonical
                   "https://checkip.example.net"
                   (echoService ("203.0.113.9" ++ nl))
                   {| Body_ReadAll := inl ("203.0.113.9" ++ nl);
                      Body_Close := None |}
                   ("203.0.113.9" ++ nl) "203.0.113.9" _ _ _ _)).
  - reflexivity.
  - reflexivity.
  - vm_compute. discriminate.
  - right. reflexivity.
Defined.

(* ================================================================= *)
(** * Further properties of [main.go] *)

(** ** The host name *)

(** X5.  The parent domain [upsertRoute53Record] works with is defined
    exactly for the host names that have a period and no line feed after
    the first one, and it is the text after that period; for every other
    host name [tokens[2]] is out of range. *)
Theorem parentDomain_characterised (fqdn : string) :
  parentDomain fqdn
  = if contains "." fqdn && negb (contains LF (afterFirst "." fqdn))
    then Some (afterFirst "." fqdn)
    else None.
Proof.
  unfold parentDomain.
  destruct (contains "." fqdn) eqn:Hdot; cbn [andb].
  - destruct (cut_at_first "." fqdn Hdot) as (label & Hs & Hl).
    destruct (contains LF (afterFirst "." fqdn)) eqn:Hlf; cbn [negb].
    + rewrite Hs at 1. now rewrite domainRegex_line_feed.
    + rewrite Hs at 1. now rewrite domainRegex_split.
  - now rewrite domainRegex_no_separator.
Qed.

(** ** The zone identifier *)

Lemma last_genSplit_suffix (s : string) :
  forall cur,
    contains "/" (string_of_list_ascii (rev cur)) = false ->
    let z := last (strings.genSplit "/" 0 cur s) EmptyString in
    contains "/" z = false
    /\ exists p, string_of_list_ascii (rev cur) ++ s = p ++ z
                 /\ (p = EmptyString \/ exists q, p = q ++ "/").
Proof.
  induction s as [|b s IH]; intros cur Hcur.
  - cbn [strings.genSplit last]. split; [exact Hcur|].
    exists EmptyString. split; [now rewrite append_nil_r | now left].
  - rewrite genSplit_slash_cons.
    destruct (Ascii.eqb b "/") eqn:Eb.
    + apply Ascii.eqb_eq in Eb. subst b.
      destruct (IH [] eq_refl) as (Hz & p & Hp & Hend).
      cbn [rev string_of_list_ascii append] in Hp.
      assert (Hlast : last (string_of_list_ascii (rev cur)
                              :: strings.genSplit "/" 0 [] s) EmptyString
                      = last (strings.genSplit "/" 0 [] s) EmptyString).
      { generalize (genSplit_not_nil "/" 0 [] s).
        destruct (strings.genSplit "/" 0 [] s); [congruence | reflexivity]. }
      cbv zeta. rewrite Hlast. split; [exact Hz|].
      exists ((string_of_list_ascii (rev cur) ++ "/") ++ p). split.
      * rewrite !append_assoc. cbn [append]. do 2 f_equal. exact Hp.
      * right. destruct Hend as [-> | (q & ->)].
        -- exists (string_of_list_ascii (rev cur)).
           now rewrite append_nil_r.
        -- exists ((string_of_list_ascii (rev cur) ++ "/") ++ q).
           now rewrite !append_assoc.
    + assert (Hcur' : contains "/" (string_of_list_ascii (rev (b :: cur)))
                      = false).
      { cbn [rev]. rewrite string_of_list_app, contains_app, Hcur.
        cbn [string_of_list_ascii contains]. now rewrite Eb. }
      destruct (IH (b :: cur) Hcur') as (Hz & p & Hp & Hend).
      split; [exact Hz|]. exists p. split; [|exact Hend].
      rewrite <- Hp. cbn [rev].
      rewrite string_of_list_app, append_assoc. reflexivity.
Qed.

(** X13.  The zone identifier taken from a composite identifier has no
    slash in it, and the composite identifier is that identifier after a
    prefix that is empty or ends with a slash: it is the last
    slash-delimited segment, whatever the shape of the path. *)
Theorem zoneIDOf_is_last_segment (id : string) :
  contains "/" (zoneIDOf id) = false
  /\ exists p, id = p ++ zoneIDOf id
               /\ (p = EmptyString \/ exists q, p = q ++ "/").
Proof.
  exact (last_genSplit_suffix id [] eq_refl).
Qed.

(** ** The paths of [upsertRoute53Record] *)

(** Every run of [upsertRoute53Record], by the answers of the
    provider. *)
Lemma upsert_run ip fqdn dnsClient :
  upsertRoute53Record ip fqdn dnsClient
  = match parentDomain fqdn with
    | None => ([], Panic (index_out_of_range "2" "0"))
    | Some domain =>
        let lookup := EvListHostedZonesByName (zoneQuery domain) in
        match route53.ListHostedZonesByName dnsClient (zoneQuery domain) with
        | inr err => ([lookup], Err err)
        | inl out =>
            match route53.HostedZones out with
            | [zone] =>
                match route53.DNSName out with
                | None => ([lookup], Panic nil_dereference)
                | Some dnsName =>
                    if String.eqb dnsName (domain ++ ".")
                    then locatedRun ip fqdn dnsClient domain zone
                    else ([lookup], Err (ZoneMismatchError domain dnsName))
                end
            | _ => ([lookup], Err (ZoneNotFoundError domain))
            end
        end
    end.
Proof.
  destruct (parentDomain fqdn) as [domain|] eqn:Hd.
  - cbv zeta.
    destruct (route53.ListHostedZonesByName dnsClient (zoneQuery domain))
      as [out|err] eqn:Hz.
    + destruct (route53.HostedZones out) as [|zone [|zone' zones]] eqn:Hzones.
      * unfold upsertRoute53Record. unfold parentDomain in Hd. rewrite Hd.
        fold (zoneQuery domain). rewrite Hz. cbn [call bind].
        rewrite Hzones. reflexivity.
      * destruct (route53.DNSName out) as [dnsName|] eqn:Hname.
        -- destruct (String.eqb dnsName (domain ++ ".")) eqn:E.
           ++ apply String.eqb_eq in E. subst dnsName.
              apply upsert_located; [exact Hd|].
              exists out. auto.
           ++ apply String.eqb_neq in E.
              now apply (echoed_name_mismatch ip fqdn dnsClient domain out zone).
        -- unfold upsertRoute53Record. unfold parentDomain in Hd. rewrite Hd.
           fold (zoneQuery domain). rewrite Hz. cbn [call bind].
           rewrite Hzones, Hname. reflexivity.
      * unfold upsertRoute53Record. unfold parentDomain in Hd. rewrite Hd.
        fold (zoneQuery domain). rewrite Hz. cbn [call bind].
        rewrite Hzones. reflexivity.
    + unfold upsertRoute53Record. unfold parentDomain in Hd. rewrite Hd.
      fold (zoneQuery domain). rewrite Hz. reflexivity.
  - unfold upsertRoute53Record. unfold parentDomain in Hd. now rewrite Hd.
Qed.

Lemma locatedRun_calls ip fqdn dnsClient domain zone :
  let zoneID := zoneIDOf (route53.Id zone) in
  let lookup := EvListHostedZonesByName (zoneQuery domain) in
  let listing := EvListResourceRecordSets (recordQuery fqdn zoneID) in
  let change := EvChangeResourceRecordSets (upsertRequest ip fqdn zoneID) in
  let calls := providerCalls (fst (locatedRun ip fqdn dnsClient domain zone)) in
  calls = [lookup; listing] \/ calls = [lookup; listing; change].
Proof.
  cbv zeta. unfold locatedRun.
  destruct (route53.ListResourceRecordSets dnsClient _) as [resp|err];
    [|now left].
  destruct (isRegistered ip fqdn resp); [now left|].
  destruct (route53.ChangeResourceRecordSets dnsClient _); now right.
Qed.

(** X10.  Whatever the provider answers, the calls a run makes to it
    are, in this order, the zone lookup, then possibly the record
    listing, then possibly one change batch.  No call is made exactly
    when the host name has no parent domain.  The listing and the change
    batch are made only when the lookup has answered with one hosted
    zone and echoed the name asked for, and both are addressed to that
    zone, by the last segment of its [Id]; a change batch is never
    submitted without the two reads before it, never twice, and it is
    always the UPSERT of the record set [fqdn + "."] of type A with the
    single value [ip] and TTL 300. *)
Theorem provider_calls_in_order ip fqdn dnsClient :
  let calls := providerCalls (fst (upsertRoute53Record ip fqdn dnsClient)) in
  (parentDomain fqdn = None /\ calls = [])
  \/ exists domain,
      parentDomain fqdn = Some domain
      /\ (calls = [EvListHostedZonesByName (zoneQuery domain)]
          \/ exists out zone,
              route53.ListHostedZonesByName dnsClient (zoneQuery domain)
              = inl out
              /\ route53.HostedZones out = [zone]
              /\ route53.DNSName out = Some (domain ++ ".")
              /\ (calls = [EvListHostedZonesByName (zoneQuery domain);
                           EvListResourceRecordSets
                             (recordQuery fqdn (zoneIDOf (route53.Id zone)))]
                  \/ calls
                     = [EvListHostedZonesByName (zoneQuery domain);
                        EvListResourceRecordSets
                          (recordQuery fqdn (zoneIDOf (route53.Id zone)));
                        EvChangeResourceRecordSets
                          {| route53.crr_ChangeBatch :=
                               {| route53.Changes :=
                                    [ {| route53.Action := "UPSERT";
                                         route53.chg_ResourceRecordSet :=
                                           {| route53.rrs_Name := fqdn ++ ".";
                                              route53.rrs_Type := "A";
                                              route53.ResourceRecords :=
                                                [ {| route53.Value := ip |} ];
                                              route53.rrs_TTL := Some 300%Z |}
                                      |} ];
                                  route53.Comment := None |};
                             route53.crr_HostedZoneId :=
                               zoneIDOf (route53.Id zone) |}])).
Proof.
  cbv zeta. rewrite upsert_run.
  destruct (parentDomain fqdn) as [domain|]; [|left; now split].
  right. exists domain. split; [reflexivity|]. cbv zeta.
  destruct (route53.ListHostedZonesByName dnsClient (zoneQuery domain))
    as [out|err] eqn:Hz; [|now left].
  destruct (route53.HostedZones out) as [|zone [|zone' zones]] eqn:Hzones;
    [now left | | now left].
  destruct (route53.DNSName out) as [dnsName|] eqn:Hname; [|now left].
  destruct (String.eqb dnsName (domain ++ ".")) eqn:E; [|now left].
  apply String.eqb_eq in E. subst dnsName.
  right. exists out, zone.
  split; [reflexivity | split; [exact Hzones | split; [exact Hname|]]].
  exact (locatedRun_calls ip fqdn dnsClient domain zone).
Qed.

(** X6.  An error of the zone lookup is returned as it is, and the
    lookup is the only call of the run. *)
Theorem lookup_error_is_returned ip fqdn dnsClient domain err :
  parentDomain fqdn = Some domain ->
  route53.ListHostedZonesByName dnsClient (zoneQuery domain) = inr err ->
  upsertRoute53Record ip fqdn dnsClient
  = ([EvListHostedZonesByName (zoneQuery domain)], Err err).
Proof.
  intros Hd Hz. rewrite upsert_run, Hd. cbv zeta. now rewrite Hz.
Qed.

Lemma lookup_error_is_returned_witness :
  upsertRoute53Record "203.0.113.9" "home.example.com"
    (lookupFails "AccessDenied")
  = ([EvListHostedZonesByName (zoneQuery "example.com")], Err "AccessDenied").
Proof.
  apply (lookup_error_is_returned "203.0.113.9" "home.example.com"
           (lookupFails "AccessDenied") "example.com" "AccessDenied");
    reflexivity.
Defined.

(** X7.  When the zone is located and the record listing fails, the run
    returns the "error listing records" error with the parent domain
    and the error of the provider in it, and no change batch is
    submitted. *)
Theorem listing_error_is_reported ip fqdn dnsClient domain zone err :
  parentDomain fqdn = Some domain ->
  zoneLocated dnsClient domain zone ->
  route53.ListResourceRecordSets dnsClient
    (recordQuery fqdn (zoneIDOf (route53.Id zone))) = inr err ->
  upsertRoute53Record ip fqdn dnsClient
  = ([EvListHostedZonesByName (zoneQuery domain);
      EvListResourceRecordSets (recordQuery fqdn (zoneIDOf (route53.Id zone)))],
     Err ("error listing records (" ++ domain ++ "): " ++ err ++ nl)).
Proof.
  intros Hd Hz Hl.
  rewrite (upsert_located ip fqdn dnsClient domain zone Hd Hz).
  cbv zeta. now rewrite Hl.
Qed.

Lemma listing_error_is_reported_witness :
  upsertRoute53Record "203.0.113.9" "home.example.com"
    (listingFails (Some "example.com.") [zoneZ123 "example.com."] "Throttling")
  = ([EvListHostedZonesByName (zoneQuery "example.com");
      EvListResourceRecordSets (recordQuery "home.example.com" "Z123")],
     Err ("error listing records (example.com): Throttling" ++ nl)).
Proof.
  apply (listing_error_is_reported "203.0.113.9" "home.example.com"
           (listingFails (Some "example.com.") [zoneZ123 "example.com."]
                         "Throttling")
           "example.com" (zoneZ123 "example.com.") "Throttling").
  - reflexivity.
  - eexists. repeat split; reflexivity.
  - reflexivity.
Defined.

(** X8.  When the lookup answers with one hosted zone and the name the
    response echoes differs from the parent domain with its period, the
    run returns the mismatch error made of the two names, and the lookup
    is its only call. *)
Theorem echoed_name_is_compared ip fqdn dnsClient domain out zone dnsName :
  parentDomain fqdn = Some domain ->
  route53.ListHostedZonesByName dnsClient (zoneQuery domain) = inl out ->
  route53.HostedZones out = [zone] ->
  route53.DNSName out = Some dnsName ->
  dnsName <> domain ++ "." ->
  upsertRoute53Record ip fqdn dnsClient
  = ([EvListHostedZonesByName (zoneQuery domain)],
     Err (domain ++ " - " ++ dnsName ++ ")" ++ nl)).
Proof. exact (echoed_name_mismatch ip fqdn dnsClient domain out zone dnsName). Qed.

Lemma echoed_name_is_compared_witness :
  upsertRoute53Record "203.0.113.9" "home.example.com"
    (listingFails (Some "example.net.") [zoneZ123 "example.net."] "unused")
  = ([EvListHostedZonesByName (zoneQuery "example.com")],
     Err ("example.com - example.net.)" ++ nl)).
Proof.
  apply (echoed_name_is_compared "203.0.113.9" "home.example.com"
           (listingFails (Some "example.net.") [zoneZ123 "example.net."]
                         "unused")
           "example.com"
           {| route53.DNSName := Some "example.net.";
              route53.HostedZones := [zoneZ123 "example.net."] |}
           (zoneZ123 "example.net.") "example.net.");
    try reflexivity.
  discriminate.
Defined.

(** X9.  When the lookup answers with one hosted zone and no echoed
    name at all, the run dereferences a nil pointer: it ends in a
    run-time panic after the lookup, and returns no error. *)
Theorem missing_echoed_name_panics ip fqdn dnsClient domain out zone :
  parentDomain fqdn = Some domain ->
  route53.ListHostedZonesByName dnsClient (zoneQuery domain) = inl out ->
  route53.HostedZones out = [zone] ->
  route53.DNSName out = None ->
  upsertRoute53Record ip fqdn dnsClient
  = ([EvListHostedZonesByName (zoneQuery domain)], Panic nil_dereference).
Proof.
  intros Hd Hz Hzones Hname. rewrite upsert_run, Hd. cbv zeta.
  now rewrite Hz, Hzones, Hname.
Qed.

Lemma missing_echoed_name_panics_witness :
  upsertRoute53Record "203.0.113.9" "home.example.com"
    (listingFails None [zoneZ123 "example.com."] "unused")
  = ([EvListHostedZonesByName (zoneQuery "example.com")],
     Panic nil_dereference).
Proof.
  apply (missing_echoed_name_panics "203.0.113.9" "home.example.com"
           (listingFails None [zoneZ123 "example.com."] "unused")
           "example.com"
           {| route53.DNSName := None;
              route53.HostedZones := [zoneZ123 "example.com."] |}
           (zoneZ123 "example.com."));
    reflexivity.
Defined.

Lemma isRegistered_spec ip fqdn resp :
  isRegistered ip fqdn resp = true
  <-> exists rrs,
      route53.ResourceRecordSets resp = [rrs]
      /\ route53.rrs_Name rrs = fqdn ++ "."
      /\ exists r, In r (route53.ResourceRecords rrs) /\ route53.Value r = ip.
Proof.
  unfold isRegistered.
  destruct (route53.ResourceRecordSets resp) as [|rrs [|rrs' rest]].
  - split; [discriminate | intros (r & H & _); discriminate].
  - rewrite andb_true_iff, String.eqb_eq, hasValue_spec. split.
    + intros [Hn Hv]. exists rrs. auto.
    + intros (r & H & Hn & Hv). injection H as <-. auto.
  - split; [discriminate | intros (r & H & _); discriminate].
Qed.

(** X11.  With the zone located and the records listed, a change batch
    is submitted unless the listing returned exactly one record set,
    named [fqdn + "."], with a value equal to [ip], and only then is
    none submitted: more than one record set, another name or other
    values all lead to the upsert. *)
Theorem change_submitted_unless_registered
        ip fqdn dnsClient domain zone resp :
  parentDomain fqdn = Some domain ->
  zoneLocated dnsClient domain zone ->
  route53.ListResourceRecordSets dnsClient
    (recordQuery fqdn (zoneIDOf (route53.Id zone))) = inl resp ->
  (filter isUpsert (fst (upsertRoute53Record ip fqdn dnsClient)) = []
   <-> exists rrs,
       route53.ResourceRecordSets resp = [rrs]
       /\ route53.rrs_Name rrs = fqdn ++ "."
       /\ exists r, In r (route53.ResourceRecords rrs)
                    /\ route53.Value r = ip).
Proof.
  intros Hd Hz Hl. rewrite <- isRegistered_spec.
  rewrite (upsert_located ip fqdn dnsClient domain zone Hd Hz).
  cbv zeta. rewrite Hl.
  destruct (isRegistered ip fqdn resp).
  - split; reflexivity.
  - destruct (route53.ChangeResourceRecordSets dnsClient _);
      split; discriminate.
Qed.

Lemma change_submitted_unless_registered_witness :
  filter isUpsert
    (fst (upsertRoute53Record "203.0.113.9" "home.example.com"
            (provider [zoneZ123 "example.com."]
                      [homeRecord "203.0.113.9"; homeRecord "203.0.113.9"]
                      (inl tt)))) = []
  <-> exists rrs,
      [homeRecord "203.0.113.9"; homeRecord "203.0.113.9"] = [rrs]
      /\ route53.rrs_Name rrs = "home.example.com" ++ "."
      /\ exists r, In r (route53.ResourceRecords rrs)
                   /\ route53.Value r = "203.0.113.9".
Proof.
  apply (change_submitted_unless_registered
           "203.0.113.9" "home.example.com"
           (provider [zoneZ123 "example.com."]
                     [homeRecord "203.0.113.9"; homeRecord "203.0.113.9"]
                     (inl tt))
           "example.com" (zoneZ123 "example.com.")
           {| route53.ResourceRecordSets :=
                [homeRecord "203.0.113.9"; homeRecord "203.0.113.9"] |}).
  - reflexivity.
  - eexists. repeat split; reflexivity.
  - reflexivity.
Defined.

(** X12.  The record set a run writes is one the next run recognises:
    when the listing returns what the upsert for [ip] and [fqdn] wrote,
    the run for the same address submits nothing and logs that the
    address is already registered. *)
Theorem written_record_is_recognised ip fqdn dnsClient domain zone :
  parentDomain fqdn = Some domain ->
  zoneLocated dnsClient domain zone ->
  route53.ListResourceRecordSets dnsClient
    (recordQuery fqdn (zoneIDOf (route53.Id zone)))
  = inl {| route53.ResourceRecordSets :=
             writtenSets (upsertRequest ip fqdn (zoneIDOf (route53.Id zone))) |} ->
  upsertRoute53Record ip fqdn dnsClient
  = ([EvListHostedZonesByName (zoneQuery domain);
      EvListResourceRecordSets (recordQuery fqdn (zoneIDOf (route53.Id zone)));
      EvLog (alreadyRegistered ip fqdn)],
     Ok tt).
Proof.
  intros Hd Hz Hl.
  rewrite (upsert_located ip fqdn dnsClient domain zone Hd Hz).
  cbv zeta. rewrite Hl.
  unfold isRegistered, writtenSets, upsertRequest.
  cbn [route53.ResourceRecordSets route53.crr_ChangeBatch route53.Changes map
       route53.chg_ResourceRecordSet route53.rrs_Name
       route53.ResourceRecords hasValue route53.Value].
  now rewrite !String.eqb_refl.
Qed.

Lemma written_record_is_recognised_witness :
  upsertRoute53Record "203.0.113.9" "home.example.com"
    (provider [zoneZ123 "example.com."] [homeRecord "203.0.113.9"] (inl tt))
  = ([EvListHostedZonesByName (zoneQuery "example.com");
      EvListResourceRecordSets (recordQuery "home.example.com" "Z123");
      EvLog (alreadyRegistered "203.0.113.9" "home.example.com")],
     Ok tt).
Proof.
  apply (written_record_is_recognised "203.0.113.9" "home.example.com"
           (provider [zoneZ123 "example.com."] [homeRecord "203.0.113.9"]
                     (inl tt))
           "example.com" (zoneZ123 "example.com.")).
  - reflexivity.
  - eexists. repeat split; reflexivity.
  - reflexivity.
Defined.

(** ** [getIP]: the request and the body *)

(** X1.  [getIP] sends one GET.  An error of the GET is returned as it
    is.  After a GET that succeeded the body is closed on every path,
    whether it could be read and parsed or not: the trace is the GET
    followed by the log line of a failed close, if any, and nothing
    else; an error of reading the body is returned as it is; and
    [getIP] ends with an address or an error, never in a panic. *)
Theorem getIP_closes_the_body ipURL http_Get :
  match http_Get ipURL with
  | inr err => getIP ipURL http_Get = ([EvHTTPGet ipURL], Err err)
  | inl resp =>
      fst (getIP ipURL http_Get) = EvHTTPGet ipURL :: closeLog resp
      /\ (forall err, Body_ReadAll resp = inr err ->
                      snd (getIP ipURL http_Get) = Err err)
      /\ (forall msg, snd (getIP ipURL http_Get) <> Panic msg)
  end.
Proof.
  destruct (http_Get ipURL) as [resp|err] eqn:Hget.
  - unfold getIP. rewrite Hget. cbn [call bind]. fold (closeLog resp).
    destruct (Body_ReadAll resp) as [body|err].
    + destruct (net.ParseIP (strings.TrimSuffix body nl)) as [|b ip] eqn:E;
        cbn [defer bind ret fail app fst snd]; rewrite ?E;
        cbn [defer bind ret fail app fst snd];
        (split; [reflexivity | split; [discriminate | discriminate]]).
    + cbn [defer bind ret fail app fst snd].
      split; [reflexivity | split; [|discriminate]].
      intros err' H. now injection H as ->.
  - unfold getIP. now rewrite Hget.
Qed.

(** ** [getIP]: the bytes of an address *)

Lemma allChars_app (P : ascii -> bool) (a b : string) :
  allChars P (a ++ b) = allChars P a && allChars P b.
Proof.
  induction a as [|c a IH]; [reflexivity|].
  cbn [append allChars]. now rewrite IH, andb_assoc.
Qed.

Lemma decimalIsHex_all (x : Z) : inb x -> decimalIsHex x = true.
Proof.
  intros H. apply (allFrom_spec (Z.to_nat 256) decimalIsHex 0%Z).
  - vm_compute. reflexivity.
  - unfold inb in H. simpl. lia.
Qed.

Lemma appendDecimal_chars (x : Z) :
  inb x -> allChars addrChar (netip.appendDecimal x) = true.
Proof.
  intros H. generalize (decimalIsHex_all x H). unfold decimalIsHex.
  rewrite !andb_true_iff. now intros [[H1 _] _].
Qed.

Lemma string4_chars (f : list Z) :
  bytes 4 f -> allChars addrChar (netip.string4 f) = true.
Proof.
  intros [Hlen Hall]. unfold netip.string4.
  rewrite !allChars_app, !appendDecimal_chars by (now apply at_inb).
  reflexivity.
Qed.

Lemma scanHex_chars (s : string) :
  forall off acc o v r,
    netip.scanHex s off acc = Some (o, v, r) ->
    exists a, s = a ++ r /\ allChars addrChar a = true.
Proof.
  induction s as [|c s IH]; intros off acc o v r; cbn [netip.scanHex].
  - intros E. injection E as _ _ <-. now exists EmptyString.
  - destruct (netip.hexval c) as [h|] eqn:Eh.
    + destruct (off >? 3)%Z; [discriminate|].
      destruct (_ >? 65535)%Z; [discriminate|].
      intros E. destruct (IH _ _ _ _ _ E) as (a & -> & Ha).
      exists (String c a). split; [reflexivity|].
      cbn [allChars]. unfold addrChar at 1. now rewrite Eh, Ha.
    + intros E. injection E as _ _ <-. now exists EmptyString.
Qed.

Lemma parseIPv6_loop_chars fuel :
  forall i s e ip st,
    netip.parseIPv6_loop fuel i s e ip = Some st ->
    netip.v6_s st = EmptyString ->
    allChars addrChar s = true.
Proof.
  induction fuel as [|fuel IH]; intros i s e ip st;
    cbn [netip.parseIPv6_loop].
  - intros E. injection E as <-. cbn [netip.v6_s]. now intros ->.
  - destruct (16 <=? i)%Z;
      [intros E; injection E as <-; cbn [netip.v6_s]; now intros ->|].
    destruct (netip.scanHex s 0 0) as [[[off acc] s_off]|] eqn:Es;
      [|discriminate].
    destruct (scanHex_chars _ _ _ _ _ _ Es) as (a & -> & Ha).
    destruct (off =? 0)%Z; [discriminate|].
    destruct (netip.startsWith "." s_off).
    + destruct ((e <? 0)%Z && negb (i =? 12)%Z); [discriminate|].
      destruct (i + 4 >? 16)%Z; [discriminate|].
      destruct (netip.parseIPv4 (a ++ s_off)) as [ip4|] eqn:E4;
        [|discriminate].
      intros _ _. rewrite <- (parseIPv4_writes_back _ _ E4).
      apply string4_chars. now apply parseIPv4_bytes in E4.
    + cbv zeta. rewrite allChars_app, Ha. cbn [andb].
      destruct s_off as [|c0 s1]; [reflexivity|].
      destruct (Ascii.eqb c0 ":") eqn:E0; cbn [negb]; [|discriminate].
      apply Ascii.eqb_eq in E0. subst c0.
      destruct s1 as [|c1 s2]; [discriminate|].
      destruct (Ascii.eqb c1 ":") eqn:E1.
      * apply Ascii.eqb_eq in E1. subst c1.
        destruct (e >=? 0)%Z; [discriminate|].
        destruct s2 as [|c2 s3]; [reflexivity|].
        intros E Hst. apply (IH _ _ _ _ _ E Hst).
      * intros E Hst. apply (IH _ _ _ _ _ E Hst).
Qed.

Lemma leadingEllipsis_chars (t : string) (e : Z) (s' : string) :
  netip.leadingEllipsis t = (e, s') ->
  allChars addrChar s' = true -> allChars addrChar t = true.
Proof.
  unfold netip.leadingEllipsis.
  destruct t as [|c0 [|c1 t']]; try (intros E; injection E as _ <-; trivial).
  destruct (Ascii.eqb c0 ":" && Ascii.eqb c1 ":") eqn:Ec;
    intros E; injection E as _ <-; trivial.
  apply andb_true_iff in Ec. destruct Ec as [E0 E1].
  apply Ascii.eqb_eq in E0, E1. subst. cbn [allChars].
  intros ->. reflexivity.
Qed.

Lemma parseIPv6_chars (s : string) (ip : list Z) :
  netip.parseIPv6 s = Some (netip.AddrFrom16 ip EmptyString) ->
  allChars addrChar s = true.
Proof.
  unfold netip.parseIPv6.
  destruct (netip.IndexByteString s "%") as [n|] eqn:Ei.
  - destruct (String.eqb _ EmptyString) eqn:Ez; [discriminate|].
    apply String.eqb_neq in Ez.
    destruct (netip.leadingEllipsis _) as [e s'].
    destruct ((e =? 0)%Z && String.eqb s' EmptyString);
      [intros E; injection E as _ E; now destruct Ez|].
    destruct (netip.parseIPv6_loop 8 0 s' e netip.zero16) as [st|];
      [|discriminate].
    destruct (negb _); [discriminate|].
    destruct (_ <? 16)%Z.
    + destruct (_ <? 0)%Z; [discriminate|].
      intros E; injection E as _ E; now destruct Ez.
    + destruct (_ >=? 0)%Z; [discriminate|].
      intros E; injection E as _ E; now destruct Ez.
  - destruct (netip.leadingEllipsis s) as [e s'] eqn:El.
    destruct ((e =? 0)%Z && String.eqb s' EmptyString) eqn:E0.
    + intros _. apply andb_true_iff in E0. destruct E0 as [_ E0].
      apply String.eqb_eq in E0. subst s'.
      now apply (leadingEllipsis_chars _ _ _ El).
    + destruct (netip.parseIPv6_loop 8 0 s' e netip.zero16) as [st|] eqn:Eloop;
        [|discriminate].
      destruct (String.eqb (netip.v6_s st) EmptyString) eqn:Est;
        cbn [negb]; [|discriminate].
      apply String.eqb_eq in Est. intros _.
      apply (leadingEllipsis_chars _ _ _ El).
      now apply (parseIPv6_loop_chars _ _ _ _ _ _ Eloop).
Qed.

Lemma ParseAddr_from_chars (s rest : string) (a : netip.Addr) :
  netip.ParseAddr_from s rest = Some a ->
  netip.Zone a = EmptyString ->
  allChars addrChar s = true.
Proof.
  induction rest as [|c rest IH]; cbn [netip.ParseAddr_from]; [discriminate|].
  destruct (Ascii.eqb c ".").
  - destruct (netip.parseIPv4 s) as [f|] eqn:E; [|discriminate].
    intros _ _. rewrite <- (parseIPv4_writes_back _ _ E).
    apply string4_chars. now apply parseIPv4_bytes in E.
  - destruct (Ascii.eqb c ":").
    + destruct a as [f|ip zone].
      * intros E. exfalso. revert E. unfold netip.parseIPv6.
        repeat match goal with
               | |- context [match ?x with _ => _ end] => destruct x
               end; discriminate.
      * cbn [netip.Zone]. intros E ->. now apply parseIPv6_chars in E.
    + destruct (Ascii.eqb c "%"); [discriminate | exact IH].
Qed.

(** The text of an address is made of hexadecimal digits, periods and
    colons. *)
Lemma valid_chars (t : string) :
  validIPText t -> allChars addrChar t = true.
Proof.
  unfold validIPText, net.ParseIP, netip.ParseAddr.
  destruct (netip.ParseAddr_from t t) as [a|] eqn:E; [|congruence].
  destruct (String.eqb (netip.Zone a) EmptyString) eqn:Ez;
    cbn [negb]; [|congruence].
  intros _. apply String.eqb_eq in Ez.
  now apply (ParseAddr_from_chars _ _ _ E).
Qed.

Lemma getIP_refuses ipURL http_Get resp body :
  http_Get ipURL = inl resp ->
  Body_ReadAll resp = inl body ->
  allChars addrChar (strings.TrimSuffix body nl) = false ->
  getIP ipURL http_Get
  = (EvHTTPGet ipURL :: closeLog resp, Err InvalidAddressError).
Proof.
  intros Hget Hbody Hc. rewrite (getIP_body _ _ resp body Hget Hbody).
  destruct (net.ParseIP (strings.TrimSuffix body nl)) as [|b ip] eqn:E;
    [reflexivity|].
  assert (Hv : validIPText (strings.TrimSuffix body nl))
    by (unfold validIPText; rewrite E; discriminate).
  apply valid_chars in Hv. congruence.
Qed.

(** X2.  A body that, less one trailing line feed, holds any byte other
    than a hexadecimal digit, a period or a colon is refused with the
    "not a valid IP address" error: a carriage return before the line
    feed, a blank, the brackets or the zone of an IPv6 address are
    enough. *)
Theorem foreign_byte_is_refused ipURL http_Get resp body :
  http_Get ipURL = inl resp ->
  Body_ReadAll resp = inl body ->
  allChars addrChar (strings.TrimSuffix body nl) = false ->
  getIP ipURL http_Get
  = (EvHTTPGet ipURL :: closeLog resp, Err InvalidAddressError).
Proof. exact (getIP_refuses ipURL http_Get resp body). Qed.

Lemma foreign_byte_is_refused_witness :
  getIP "https://checkip.example.net"
    (echoService ("203.0.113.9" ++ String CR nl))
  = ([EvHTTPGet "https://checkip.example.net"], Err InvalidAddressError).
Proof.
  apply (foreign_byte_is_refused
           "https://checkip.example.net"
           (echoService ("203.0.113.9" ++ String CR nl))
           {| Body_ReadAll := inl ("203.0.113.9" ++ String CR nl);
              Body_Close := None |}
           ("203.0.113.9" ++ String CR nl));
    reflexivity.
Defined.

(** X3.  Only one line feed is trimmed: a body that ends with two line
    feeds is refused, whatever precedes them. *)
Theorem second_line_feed_is_not_trimmed ipURL http_Get resp text :
  http_Get ipURL = inl resp ->
  Body_ReadAll resp = inl (text ++ nl ++ nl) ->
  getIP ipURL http_Get
  = (EvHTTPGet ipURL :: closeLog resp, Err InvalidAddressError).
Proof.
  intros Hget Hbody.
  apply (getIP_refuses _ _ resp (text ++ nl ++ nl) Hget Hbody).
  rewrite <- append_assoc, TrimSuffix_newline, allChars_app.
  apply andb_false_r.
Qed.

Lemma second_line_feed_is_not_trimmed_witness :
  getIP "https://checkip.example.net"
    (echoService ("203.0.113.9" ++ nl ++ nl))
  = ([EvHTTPGet "https://checkip.example.net"], Err InvalidAddressError).
Proof.
  apply (second_line_feed_is_not_trimmed
           "https://checkip.example.net"
           (echoService ("203.0.113.9" ++ nl ++ nl))
           {| Body_ReadAll := inl ("203.0.113.9" ++ nl ++ nl);
              Body_Close := None |}
           "203.0.113.9");
    reflexivity.
Defined.

(** ** [getIP]: an IPv4-mapped IPv6 address *)

Lemma string4_not_contains (c : ascii) (f : list Z) :
  contains c netip.digits = false -> Ascii.eqb zero c = false ->
  Ascii.eqb "." c = false ->
  contains c (netip.string4 f) = false.
Proof.
  intros Hc Hz Hdot. unfold netip.string4.
  rewrite !contains_app, !appendDecimal_not_contains by assumption.
  cbn [contains orb]. now rewrite Hdot.
Qed.

Lemma scanHex_string4 (a b c d : Z) :
  inb a ->
  exists off v r,
    (off =? 0)%Z = false
    /\ netip.scanHex (netip.string4 [a; b; c; d]) 0 0
       = Some (off, v, String "." r).
Proof.
  intros Ha. generalize (decimalIsHex_all a Ha). unfold decimalIsHex.
  destruct (netip.scanHex (netip.appendDecimal a) 0 0)
    as [[[off v] [|c0 r0]]|] eqn:E;
    try (rewrite andb_false_r; discriminate).
  rewrite !andb_true_iff, Z.ltb_lt. intros [[_ Hoff] _].
  unfold netip.string4.
  change (netip.at_ [a; b; c; d] 0) with a.
  cbn [append]. exists off, v. eexists. split; [apply Z.eqb_neq; lia|].
  now apply scanHex_app.
Qed.

Lemma startsWithHex_string4 (a b c d : Z) :
  inb a -> startsWithHex (netip.string4 [a; b; c; d]).
Proof.
  intros Ha. generalize (decimalIsHex_all a Ha). unfold decimalIsHex.
  unfold netip.string4.
  change (netip.at_ [a; b; c; d] 0) with a.
  destruct (netip.appendDecimal a) as [|c0 r0];
    [rewrite andb_false_r; discriminate|].
  cbn [append startsWithHex].
  destruct (netip.hexval c0); [discriminate|].
  rewrite andb_false_r. discriminate.
Qed.

(** [net.ParseIP] reads [::ffff:a.b.c.d] as the IPv4 address
    [a.b.c.d]. *)
Lemma ParseIP_mapped (a b c d : Z) :
  inb a -> inb b -> inb c -> inb d ->
  net.ParseIP ("::ffff:" ++ netip.string4 [a; b; c; d])
  = [0; 0; 0; 0; 0; 0; 0; 0; 0; 0; 255; 255; a; b; c; d]%Z.
Proof.
  intros Ha Hb Hc Hd.
  pose proof (parseIPv4_string4 a b c d Ha Hb Hc Hd) as H4.
  destruct (scanHex_string4 a b c d Ha) as (off & v & r & Hoff & Hscan).
  pose proof (startsWithHex_string4 a b c d Ha) as Hstart.
  pose proof (startsWithHex_not ":" _ eq_refl Hstart) as Hcolon.
  assert (Hpct : contains "%" (netip.string4 [a; b; c; d]) = false)
    by (now apply string4_not_contains).
  set (s4 := netip.string4 [a; b; c; d]) in *.
  unfold net.ParseIP, netip.ParseAddr.
  cbn [append netip.ParseAddr_from].
  change (Ascii.eqb ":" ".") with false.
  change (Ascii.eqb ":" ":") with true. cbv iota.
  unfold netip.parseIPv6.
  rewrite IndexByteString_none
    by (cbn [contains]; rewrite Hpct; reflexivity).
  cbn [netip.leadingEllipsis].
  change (Ascii.eqb ":" ":") with true. cbn [andb].
  cbv iota beta.
  change ((0 =? 0)%Z && String.eqb (String "f" (String "f" (String "f"
            (String "f" (String ":" s4))))) EmptyString) with false.
  cbv iota.
  change (String "f" (String "f" (String "f" (String "f" (String ":" s4)))))
    with ("ffff" ++ String ":" s4).
  cbn [netip.parseIPv6_loop].
  change (16 <=? 0)%Z with false. cbv iota.
  rewrite (scanHex_app "ffff" 0 0 4 65535 (String ":" s4) eq_refl eq_refl).
  cbv iota beta. change (4 =? 0)%Z with false. cbv iota.
  cbn [netip.startsWith]. change (Ascii.eqb ":" ".") with false.
  cbv iota zeta.
  change (Ascii.eqb ":" ":") with true. cbn [negb]. cbv iota.
  destruct s4 as [|c1 s2] eqn:Es4; [destruct Hstart|].
  cbn [netip.startsWith] in Hcolon. rewrite Hcolon.
  rewrite <- Es4 in *. clear Es4.
  change (16 <=? 0 + 2)%Z with false. cbv iota.
  rewrite Hscan. cbv iota beta. rewrite Hoff.
  cbn [netip.startsWith]. rewrite Ascii.eqb_refl.
  change ((0 <? 0)%Z && negb (0 + 2 =? 12)%Z) with false.
  change (0 + 2 + 4 >? 16)%Z with false. cbv iota.
  rewrite H4. reflexivity.
Qed.

(** X4.  An IPv4-mapped IPv6 address is returned as the IPv4 address it
    maps: for every four bytes [a], [b], [c], [d], the body
    [::ffff:a.b.c.d] with its line feed makes [getIP] return
    [a.b.c.d]. *)
Theorem mapped_address_is_returned_dotted
        ipURL http_Get resp (a b c d : Z) :
  inb a -> inb b -> inb c -> inb d ->
  http_Get ipURL = inl resp ->
  Body_ReadAll resp = inl ("::ffff:" ++ netip.string4 [a; b; c; d] ++ nl) ->
  getIP ipURL http_Get
  = (EvHTTPGet ipURL :: closeLog resp, Ok (netip.string4 [a; b; c; d])).
Proof.
  intros Ha Hb Hc Hd Hget Hbody.
  rewrite (getIP_body _ _ resp _ Hget Hbody).
  rewrite <- append_assoc, TrimSuffix_newline.
  now rewrite (ParseIP_mapped a b c d Ha Hb Hc Hd).
Qed.

Lemma mapped_address_is_returned_dotted_witness :
  getIP "https://checkip.example.net" (echoService ("::ffff:203.0.113.9" ++ nl))
  = ([EvHTTPGet "https://checkip.example.net"], Ok "203.0.113.9").
Proof.
  apply (mapped_address_is_returned_dotted
           "https://checkip.example.net"
           (echoService ("::ffff:203.0.113.9" ++ nl))
           {| Body_ReadAll := inl ("::ffff:203.0.113.9" ++ nl);
              Body_Close := None |}
           203 0 113 9);
    try (unfold inb; lia); reflexivity.
Defined.

(** ** [getIPAndUpdate]: the two phases together *)

(** [getIP] never calls the provider. *)
Lemma getIP_quiet ipURL http_Get :
  providerCalls (fst (getIP ipURL http_Get)) = [].
Proof.
  unfold getIP. destruct (http_Get ipURL) as [resp|err]; [|reflexivity].
  cbn [call bind].
  destruct (Body_ReadAll resp) as [body|err];
    [destruct (net.ParseIP (strings.TrimSuffix body nl)) as [|b ip] eqn:E|];
    cbn [defer bind ret fail app fst]; rewrite ?E;
    cbn [defer bind ret fail app fst];
    destruct (Body_Close resp); reflexivity.
Qed.

(** The trace of a cycle that has obtained the address [ip]. *)
Lemma cycle_trace g http_Get dnsClient t ip :
  getIP (ipURL g) http_Get = (t, Ok ip) ->
  fst (getIPAndUpdate g http_Get dnsClient)
  = (t ++ fst (upsertRoute53Record ip (fqdn g) dnsClient))%list.
Proof.
  intros H. unfold getIPAndUpdate. rewrite H. cbn [wrap bind].
  destruct (upsertRoute53Record ip (fqdn g) dnsClient) as [t2 [[]|e|msg]];
    reflexivity.
Qed.

(** A change batch in the trace of [upsertRoute53Record] is the UPSERT
    of [ip] for [fqdn]. *)
Lemma upsert_change_event ip fqdn dnsClient req :
  In (EvChangeResourceRecordSets req)
     (fst (upsertRoute53Record ip fqdn dnsClient)) ->
  exists zoneID, req = upsertRequest ip fqdn zoneID.
Proof.
  rewrite upsert_run.
  destruct (parentDomain fqdn) as [domain|]; [|intros []].
  cbv zeta.
  destruct (route53.ListHostedZonesByName dnsClient (zoneQuery domain))
    as [out|err]; [|intros [H|[]]; discriminate].
  destruct (route53.HostedZones out) as [|zone [|zone' zones]];
    try (intros [H|[]]; discriminate).
  destruct (route53.DNSName out) as [dnsName|];
    [|intros [H|[]]; discriminate].
  destruct (String.eqb dnsName (domain ++ "."));
    [|intros [H|[]]; discriminate].
  unfold locatedRun.
  destruct (route53.ListResourceRecordSets dnsClient _) as [resp|err];
    [|intros [H|[H|[]]]; discriminate].
  destruct (isRegistered ip fqdn resp);
    [intros [H|[H|[H|[]]]]; discriminate|].
  exists (zoneIDOf (route53.Id zone)).
  destruct (route53.ChangeResourceRecordSets dnsClient _);
    cbn [fst In] in H;
    repeat (destruct H as [H|H]; try discriminate; try contradiction);
    now injection H.
Qed.

(** X14.  The provider calls of a cycle are those of
    [upsertRoute53Record], run with the address [getIP] returned and the
    configured host name; a cycle in which [getIP] returns no address
    makes no provider call at all. *)
Theorem cycle_calls_follow_the_address g http_Get dnsClient :
  providerCalls (fst (getIPAndUpdate g http_Get dnsClient))
  = match snd (getIP (ipURL g) http_Get) with
    | Ok ip => providerCalls (fst (upsertRoute53Record ip (fqdn g) dnsClient))
    | _ => []
    end.
Proof.
  pose proof (getIP_quiet (ipURL g) http_Get) as Hq.
  destruct (getIP (ipURL g) http_Get) as [t [ip|e|msg]] eqn:E;
    cbn [fst snd] in *.
  - rewrite (cycle_trace g http_Get dnsClient t ip E).
    unfold providerCalls in *. now rewrite filter_app, Hq.
  - unfold getIPAndUpdate. rewrite E. exact Hq.
  - unfold getIPAndUpdate. rewrite E. exact Hq.
Qed.

(** X15.  Every change batch a cycle submits is the UPSERT, for the
    configured host name, of an address in canonical text: the address
    is the one [getIP] returned, it is the text of a valid address and
    [IP.String] of its parse is the text itself. *)
Theorem cycle_submits_a_canonical_address g http_Get dnsClient req :
  In (EvChangeResourceRecordSets req)
     (fst (getIPAndUpdate g http_Get dnsClient)) ->
  exists ip zoneID,
    snd (getIP (ipURL g) http_Get) = Ok ip
    /\ req = upsertRequest ip (fqdn g) zoneID
    /\ validIPText ip
    /\ net.String_ (net.ParseIP ip) = ip.
Proof.
  intros Hin.
  assert (Hcall : In (EvChangeResourceRecordSets req)
                     (providerCalls (fst (getIPAndUpdate g http_Get dnsClient))))
    by (apply filter_In; split; [exact Hin | reflexivity]).
  pose proof (getIP_quiet (ipURL g) http_Get) as Hq.
  destruct (getIP (ipURL g) http_Get) as [t [ip|e|msg]] eqn:E;
    cbn [fst] in Hq.
  - rewrite (cycle_trace g http_Get dnsClient t ip E) in Hin.
    apply in_app_or in Hin. destruct Hin as [Hin|Hin].
    + assert (H : In (EvChangeResourceRecordSets req) (providerCalls t))
        by (apply filter_In; split; [exact Hin | reflexivity]).
      rewrite Hq in H. destruct H.
    + destruct (upsert_change_event _ _ _ _ Hin) as [zoneID ->].
      destruct (getIP_ok _ _ _ _ E) as (body & Hvalid & ->).
      pose proof (ParseIP_bytes _ Hvalid) as Hb.
      exists (net.String_ (net.ParseIP (strings.TrimSuffix body nl))), zoneID.
      unfold validIPText. rewrite (ParseIP_String _ Hb).
      split; [reflexivity | split; [reflexivity | split;
        [exact Hvalid | reflexivity]]].
  - unfold getIPAndUpdate in Hcall. rewrite E in Hcall.
    cbn [wrap bind fst] in Hcall. rewrite Hq in Hcall. destruct Hcall.
  - unfold getIPAndUpdate in Hcall. rewrite E in Hcall.
    cbn [wrap bind fst] in Hcall. rewrite Hq in Hcall. destruct Hcall.
Qed.

Lemma cycle_submits_a_canonical_address_witness :
  exists ip zoneID,
    snd (getIP (ipURL homeConfig)
               (echoService ("2001:DB8:0:0:0:0:0:1" ++ nl))) = Ok ip
    /\ upsertRequest "2001:db8::1" "home.example.com" "Z123"
       = upsertRequest ip (fqdn homeConfig) zoneID
    /\ validIPText ip
    /\ net.String_ (net.ParseIP ip) = ip.
Proof.
  apply (cycle_submits_a_canonical_address
           homeConfig (echoService ("2001:DB8:0:0:0:0:0:1" ++ nl))
           (provider [zoneZ123 "example.com."] [] (inl tt))
           (upsertRequest "2001:db8::1" "home.example.com" "Z123")).
  vm_compute. right. right. right. left. reflexivity.
Defined.
